(** * clipimgfromvideo: the slide extraction pipeline

    A shallow embedding of [clipimgfromvideo/slide_detector.py],
    [clipimgfromvideo/video_processor.py] and the saving loop of [main.py];
    and, for the entry points, of [clipimgfromvideo/utils.py] and of
    [process_video] of [main.py] and of [clipimgfromvideo/gui.py].

    Python values are modelled as follows.
    - [int] is [Z]; [%] is [Z.modulo], which has Python's sign convention, with
      the division by zero written out as [ZeroDivisionError].
    - [float] is IEEE binary64, [PrimFloat.float]; the comparison and the
      subtraction of the acceptance test are the hardware operations.
    - an exception is a [Raise] result; every call of OpenCV or scikit-image
      may raise.
    - a [numpy.ndarray] of [uint8] is a shape and its elements in C order.
    - OpenCV and scikit-image are not part of the repository: they are the
      methods of the classes [Cv2] and [Skimage].  The theorems about the
      pipeline hold for all their instances, under the contract [Contract]
      where they need the calls to return; the examples run on a reference
      instance.
    - the operating system and yt-dlp, which the entry points call, are the
      methods of the class [Host]. *)

From Stdlib Require Import ZArith QArith List Bool String Ascii Lia.
From Stdlib Require Import DecimalString DecimalNat Sorting.Sorted.
From Stdlib Require Import Floats.PrimFloat Floats.FloatOps Floats.SpecFloat Uint63.
Import ListNotations.

Set Implicit Arguments.
#[local] Set Warnings "-inexact-float".

(** ** Python runtime *)

Inductive exn : Type :=
| ValueError (msg : string)
| IndexError
| ZeroDivisionError
| cv2_error.

Inductive result (A : Type) : Type :=
| Ok (a : A)
| Raise (e : exn).
Arguments Ok {A} a.
Arguments Raise {A} e.

(** A computation that leaves a trace of events of type [E] and returns or
    raises.  The trace records how far the computation went, also when it
    raises. *)
Definition M (E A : Type) : Type := (list E * result A)%type.

Definition ret {E A : Type} (a : A) : M E A := ([], Ok a).

Definition bind {E A B : Type} (m : M E A) (k : A -> M E B) : M E B :=
  match m with
  | (l, Ok a) => let (l', r) := k a in (l ++ l', r)
  | (l, Raise e) => (l, Raise e)
  end.

Definition tell {E : Type} (e : E) : M E unit := ([e], Ok tt).

Definition raise {E A : Type} (e : exn) : M E A := ([], Raise e).

Definition lift {E A : Type} (r : result A) : M E A := ([], r).

Definition relabel {E E' A : Type} (f : E -> E') (m : M E A) : M E' A :=
  (map f (fst m), snd m).

Definition when {E : Type} (b : bool) (m : M E unit) : M E unit :=
  if b then m else ret tt.

Declare Scope py_scope.
Delimit Scope py_scope with py.
Notation "x <- m ;; k" := (bind m (fun x => k))
  (at level 61, m at next level, right associativity) : py_scope.
Notation "m ;;; k" := (bind m (fun _ => k))
  (at level 61, right associativity) : py_scope.

(** [a[i]] on a tuple. *)
Definition getitem (t : list Z) (i : nat) : result Z :=
  match nth_error t i with
  | Some d => Ok d
  | None => Raise IndexError
  end.

(** ** Arrays and the two libraries *)

Record ndarray : Type := mk_ndarray {
  shape : list Z;
  data : list Z
}.

Definition shape_eqb (s1 s2 : list Z) : bool :=
  if list_eq_dec Z.eq_dec s1 s2 then true else false.

(** What [cv2.VideoCapture(path)] gives: whether the container opened, the
    frames [read()] returns before it reports the end of the stream (or a
    decoding failure, which [read()] reports the same way), and the
    properties the debug output prints. *)
Record capture : Type := mk_capture {
  isOpened : bool;
  stream : list ndarray;
  CAP_PROP_FRAME_COUNT : Z;
  CAP_PROP_FPS : float
}.

(** The files written so far, the latest first. *)
Definition disk : Type := list (string * ndarray).

Class Cv2 : Type := {
  VideoCapture : string -> capture;
  (** [cv2.cvtColor(src, cv2.COLOR_BGR2GRAY)] *)
  cvtColor_BGR2GRAY : ndarray -> result ndarray;
  (** [cv2.resize(src, (width, height))] *)
  resize : ndarray -> Z * Z -> result ndarray;
  (** [cv2.imwrite(path, img)]: the status it returns, and the disk after. *)
  imwrite : string -> ndarray -> disk -> result bool * disk
}.

Class Skimage : Type := {
  (** The first component of
      [skimage.metrics.structural_similarity(im1, im2, full=True)]. *)
  ssim : ndarray -> ndarray -> result float
}.

(** ** slide_detector.py *)

Module SlideDetector.
Section WithLibraries.
Context {cv : Cv2} {sk : Skimage}.

Record t : Type := mk { similarity_threshold : float }.

Definition __init__ (similarity_threshold : float) : t := mk similarity_threshold.

(** One comparison of the loop of [is_new_slide] leaves [Compared j], [j] the
    position of the stored slide in [existing_slides]. *)
Inductive probe : Type := Compared (j : nat).

Definition _calculate_similarity (self : t) (img1 img2 : ndarray) : result float :=
  ssim img1 img2.

(** The body of the loop of [is_new_slide] up to the score: the stored slide
    in grayscale, resized to the candidate's shape when the shapes differ, and
    scored against the candidate. *)
Definition score_against (self : t) (gray_frame existing_slide : ndarray) : result float :=
  match (if (List.length (shape existing_slide) =? 3)%nat
         then cvtColor_BGR2GRAY existing_slide
         else Ok existing_slide) with
  | Raise e => Raise e
  | Ok existing_gray =>
    match (if negb (shape_eqb (shape existing_gray) (shape gray_frame))
           then match getitem (shape gray_frame) 1 with
                | Raise e => Raise e
                | Ok width =>
                  match getitem (shape gray_frame) 0 with
                  | Raise e => Raise e
                  | Ok height => resize existing_gray (width, height)
                  end
                end
           else Ok existing_gray) with
    | Raise e => Raise e
    | Ok existing_gray => _calculate_similarity self gray_frame existing_gray
    end
  end.

(** [for existing_slide in existing_slides: ...], from position [j] on. *)
Fixpoint compare_all (self : t) (gray_frame : ndarray) (j : nat)
    (existing_slides : list ndarray) : M probe bool :=
  match existing_slides with
  | [] => ret true
  | existing_slide :: rest =>
    (tell (Compared j) ;;;
     score <- lift (score_against self gray_frame existing_slide) ;;
     if (1 - similarity_threshold self <? score)%float
     then ret false
     else compare_all self gray_frame (S j) rest)%py
  end.

Definition is_new_slide (self : t) (frame : ndarray) (existing_slides : list ndarray)
    : M probe bool :=
  match existing_slides with
  | [] => ret true
  | _ :: _ =>
    (gray_frame <- lift (cvtColor_BGR2GRAY frame) ;;
     compare_all self gray_frame 0 existing_slides)%py
  end.

Definition detect_slide_region (self : t) (frame : ndarray) : ndarray := frame.

End WithLibraries.
End SlideDetector.

(** ** video_processor.py *)

Module VideoProcessor.
Section WithLibraries.
Context {cv : Cv2} {sk : Skimage}.

Record t : Type := mk {
  similarity_threshold : float;
  frame_skip : Z;
  debug_mode : bool;
  slide_detector : SlideDetector.t
}.

Definition __init__ (similarity_threshold : float) (frame_skip : Z) (debug_mode : bool) : t :=
  mk similarity_threshold frame_skip debug_mode
     (SlideDetector.__init__ similarity_threshold).

(** The lines the debug mode prints, without the timings. *)
Inductive debug_line : Type :=
| VideoInfo (total_frames : Z)
| Progress (frame_count total_frames : Z)
| Found (n : nat) (frame_count : Z)
| Summary (frame_count : Z) (n : nat).

(** What one run of [extract_slides] does, in order:
    - [Decoded i]: [cap.read()] returned frame [i] (line 57);
    - [Sampled i]: the test [frame_count % self.frame_skip == 0] held (line 64);
    - [Checked i]: [is_new_slide] was called on preprocessed frame [i] (line 74);
    - [Scored i j]: frame [i] met the stored slide at position [j];
    - [Appended i]: frame [i] was appended to [unique_slides] (line 75);
    - [Printed l]: a line of debug output. *)
Inductive event : Type :=
| Decoded (frame_count : Z)
| Sampled (frame_count : Z)
| Checked (frame_count : Z)
| Scored (frame_count : Z) (j : nat)
| Appended (frame_count : Z)
| Printed (line : debug_line).

(** [int -> float], exact below 2^53, and [int(x)] for a finite float. *)
Definition float_of_int (z : Z) : float := PrimFloat.of_uint63 (Uint63.of_Z z).

Definition int_of_float (x : float) : Z :=
  match Prim2SF x with
  | S754_finite s m e => let v := Z.shiftl (Zpos m) e in if s then Z.opp v else v
  | _ => 0%Z
  end.

Definition _preprocess_frame (self : t) (frame : ndarray) : result ndarray :=
  match shape frame with
  | height :: width :: _ =>
    let max_dimension := 1024%Z in
    if (Z.max height width >? max_dimension)%Z then
      let scale := (float_of_int max_dimension / float_of_int (Z.max height width))%float in
      let new_width := int_of_float (float_of_int width * scale)%float in
      let new_height := int_of_float (float_of_int height * scale)%float in
      resize frame (new_width, new_height)
    else Ok frame
  | _ => Raise (ValueError "not enough values to unpack")
  end.

(** The body of [while True:] after a frame was read (lines 63 to 77); the
    increment of [frame_count] is in [read_frames]. *)
Definition process_frame (self : t) (total_frames : Z) (frame : ndarray)
    (unique_slides : list ndarray) (frame_count : Z) : M event (list ndarray) :=
  (if (frame_skip self =? 0)%Z then raise ZeroDivisionError
   else if (frame_count mod frame_skip self =? 0)%Z then
     tell (Sampled frame_count) ;;;
     when (debug_mode self && (frame_count mod (frame_skip self * 20) =? 0)%Z)
          (tell (Printed (Progress frame_count total_frames))) ;;;
     processed_frame <- lift (_preprocess_frame self frame) ;;
     tell (Checked frame_count) ;;;
     is_new <- relabel (fun p => match p with SlideDetector.Compared j => Scored frame_count j end)
                 (SlideDetector.is_new_slide (slide_detector self) processed_frame unique_slides) ;;
     if is_new then
       tell (Appended frame_count) ;;;
       when (debug_mode self)
            (tell (Printed (Found (List.length (unique_slides ++ [processed_frame])) frame_count))) ;;;
       ret (unique_slides ++ [processed_frame])
     else ret unique_slides
   else ret unique_slides)%py.

(** [while True: ret, frame = cap.read(); if not ret: break; ...;
    frame_count += 1] over the frames the capture still holds. *)
Fixpoint read_frames (self : t) (total_frames : Z) (frames : list ndarray)
    (unique_slides : list ndarray) (frame_count : Z) : M event (list ndarray * Z) :=
  match frames with
  | [] => ret (unique_slides, frame_count)
  | frame :: rest =>
    (tell (Decoded frame_count) ;;;
     unique_slides <- process_frame self total_frames frame unique_slides frame_count ;;
     read_frames self total_frames rest unique_slides (frame_count + 1))%py
  end.

Definition extract_slides (self : t) (video_path : string) : M event (list ndarray) :=
  let cap := VideoCapture video_path in
  if negb (isOpened cap) then
    raise (ValueError ("Could not open video file: " ++ video_path)%string)
  else
    let total_frames := CAP_PROP_FRAME_COUNT cap in
    (when (debug_mode self) (tell (Printed (VideoInfo total_frames))) ;;;
     st <- read_frames self total_frames (stream cap) [] 0 ;;
     when (debug_mode self) (tell (Printed (Summary (snd st) (List.length (fst st))))) ;;;
     ret (fst st))%py.

Definition save_slide (self : t) (slide : ndarray) (output_path : string) (d : disk)
    : result unit * disk :=
  match imwrite output_path slide d with
  | (Ok _, d') => (Ok tt, d')
  | (Raise e, d') => (Raise e, d')
  end.

End WithLibraries.
End VideoProcessor.

(** ** main.py, the saving loop of [process_video] *)

(** [f"{n:03d}"] *)
Definition format_03d (n : nat) : string :=
  let s := NilEmpty.string_of_uint (Nat.to_uint n) in
  match String.length s with
  | 0%nat => "000" ++ s
  | 1%nat => "00" ++ s
  | 2%nat => "0" ++ s
  | _ => s
  end%string.

Fixpoint ends_with_slash (s : string) : bool :=
  match s with
  | EmptyString => false
  | String c EmptyString => Ascii.eqb c "/"%char
  | String _ rest => ends_with_slash rest
  end.

(** [os.path.join(a, b)] for a relative [b], POSIX. *)
Definition path_join (a b : string) : string :=
  match a with
  | EmptyString => b
  | _ => if ends_with_slash a then (a ++ b)%string else (a ++ "/" ++ b)%string
  end.

Definition slide_path (output_dir : string) (i : nat) : string :=
  path_join output_dir ("slide_" ++ format_03d (i + 1) ++ ".jpg")%string.

Section SavingLoop.
Context {cv : Cv2}.

(** [for i, slide in enumerate(slides): output_path = ...;
    processor.save_slide(slide, output_path)], from index [i] on. *)
Fixpoint save_slides (processor : VideoProcessor.t) (output_dir : string) (i : nat)
    (slides : list ndarray) (d : disk) : result unit * disk :=
  match slides with
  | [] => (Ok tt, d)
  | slide :: rest =>
    let output_path := slide_path output_dir i in
    match VideoProcessor.save_slide processor slide output_path d with
    | (Ok _, d') => save_slides processor output_dir (S i) rest d'
    | (Raise e, d') => (Raise e, d')
    end
  end.

End SavingLoop.

(** ** utils.py *)

(** The exceptions of the entry points: those of the pipeline, and those
    the operating system and yt-dlp raise. *)
Inductive error : Type :=
| of_exn (e : exn)
| ImportError
| TypeError
| OSError (msg : string)
| DownloadError (msg : string).

Inductive outcome (A : Type) : Type :=
| Returns (a : A)
| Raises (e : error).
Arguments Returns {A} a.
Arguments Raises {A} e.

#[local] Set Warnings "-register-all".

(** An info dictionary of yt-dlp whose values are strings ([title], [ext],
    [_filename], ...) but for the one of the key [entries], the videos of a
    playlist. *)
Inductive info : Type :=
| InfoDict (fields : list (string * string)) (entries : option (list info)).

Definition fields (i : info) : list (string * string) := let (f, _) := i in f.
Definition entries (i : info) : option (list info) := let (_, e) := i in e.

(** The options of [yt_dlp.YoutubeDL]; a key that is absent has its default,
    [None] or [False]. *)
Record ydl_opts : Type := mk_ydl_opts {
  format : option string;
  outtmpl : option string;
  noplaylist : bool;
  quiet : bool;
  no_warnings : bool;
  extractaudio : bool;
  verbose : bool
}.

(** What the entry points use of the operating system and of yt-dlp.
    [yt_dlp] is [None] when [import yt_dlp] raises [ImportError]; otherwise
    it gives, for the options of a [YoutubeDL], what
    [extract_info(url, download=...)] returns, [None] included.  The video a
    download stores is what [VideoCapture] then opens. *)
Class Host : Type := {
  (** [os.makedirs(directory, exist_ok=True)] *)
  makedirs : string -> disk -> outcome unit * disk;
  (** [os.path.exists(path)] *)
  path_exists : string -> disk -> bool;
  (** [tempfile.gettempdir()] *)
  gettempdir : string;
  yt_dlp : option (ydl_opts -> string -> bool -> outcome (option info))
}.

(** The lines the entry points print, each with the values it interpolates. *)
Inductive notice : Type :=
| Extracting_video_from (url : string)
| This_may_take_some_time
| No_video_found
| Found_video (video_title : string)
| Failed_to_download
| Video_extracted_to (file_path : string)
| Ytdlp_is_required
| Install_it_using_pip
| Error_extracting_video (e : error)
| Extracting_from_webpage (input_path : string)
| Failed_to_extract
| Video_file_not_found (video_path : string)
| Processing_video (video_path : string)
| Saving_slides (n : nat) (output_dir : string)
| Processing_complete
| Error_line (e : error).

(** What an entry point does, in order: the lines it prints, the events of
    the pipeline, and, in the graphical interface, the assignments
    [sys.stdout = self.stdout_redirector], [sys.stdout = old_stdout] and
    [self.processing = ...], and the callback handed to [root.after]. *)
Inductive action : Type :=
| Say (line : notice)
| Pipeline (e : VideoProcessor.event)
| Redirect_stdout
| Restore_stdout
| After_enable_go_button
| Set_processing (b : bool).

(** A computation on the disk that leaves a trace of actions and returns or
    raises. *)
Definition IO (A : Type) : Type := disk -> (list action * outcome A) * disk.

Definition io_ret {A : Type} (a : A) : IO A := fun d => (([], Returns a), d).

Definition io_bind {A B : Type} (m : IO A) (k : A -> IO B) : IO B :=
  fun d =>
    match m d with
    | ((l, Returns a), d') =>
      match k a d' with
      | ((l', r), d'') => ((l ++ l', r), d'')
      end
    | ((l, Raises e), d') => ((l, Raises e), d')
    end.

Definition io_raise {A : Type} (e : error) : IO A := fun d => (([], Raises e), d).

Definition print (line : notice) : IO unit := fun d => (([Say line], Returns tt), d).

Definition act (a : action) : IO unit := fun d => (([a], Returns tt), d).

(** [try: body except ...: handler]. *)
Definition try_except {A : Type} (body : IO A) (handler : error -> IO A) : IO A :=
  fun d =>
    match body d with
    | ((l, Returns a), d') => ((l, Returns a), d')
    | ((l, Raises e), d') =>
      match handler e d' with
      | ((l', r), d'') => ((l ++ l', r), d'')
      end
    end.

(** [try: body finally: final]; [final] does not raise here. *)
Definition try_finally {A : Type} (body : IO A) (final : IO unit) : IO A :=
  fun d =>
    match body d with
    | ((l, r), d') =>
      match final d' with
      | ((l', Returns _), d'') => ((l ++ l', r), d'')
      | ((l', Raises e), d'') => ((l ++ l', Raises e), d'')
      end
    end.

Declare Scope io_scope.
Delimit Scope io_scope with io.
Notation "x <- m ;; k" := (io_bind m (fun x => k))
  (at level 61, m at next level, right associativity) : io_scope.
Notation "m ;;; k" := (io_bind m (fun _ => k))
  (at level 61, right associativity) : io_scope.

Section Utils.
Context {host : Host}.

Definition ensure_dir_exists (directory : string) : IO unit :=
  fun d => let (r, d') := makedirs directory d in (([], r), d').

(** The characters of [s] that satisfy [f]. *)
Fixpoint keep (f : ascii -> bool) (s : string) : string :=
  match s with
  | EmptyString => EmptyString
  | String c rest => if f c then String c (keep f rest) else keep f rest
  end.

(** [s[n:]] for [0 <= n]. *)
Fixpoint drop (n : nat) (s : string) : string :=
  match n, s with
  | O, _ => s
  | S n', EmptyString => EmptyString
  | S n', String _ rest => drop n' rest
  end.

(** [s[-n:]] for [0 < n]. *)
Definition last_chars (n : nat) (s : string) : string := drop (String.length s - n) s.

(** The class [a-zA-Z0-9]. *)
Definition alnum (c : ascii) : bool :=
  let n := nat_of_ascii c in
  ((48 <=? n) && (n <=? 57) || (65 <=? n) && (n <=? 90) || (97 <=? n) && (n <=? 122))%nat.

(** [re.sub(r'[^a-zA-Z0-9]', '', url)[-20:]], line 40. *)
Definition url_hash (url : string) : string := last_chars 20 (keep alnum url).

(** The class of line 69: backslash, slash, star, question mark, colon,
    double quote, angle brackets and bar. *)
Definition forbidden (c : ascii) : bool :=
  existsb (Nat.eqb (nat_of_ascii c)) [92; 47; 42; 63; 58; 34; 60; 62; 124]%nat.

Fixpoint replace_char (a b : ascii) (s : string) : string :=
  match s with
  | EmptyString => EmptyString
  | String c rest => String (if Ascii.eqb c a then b else c) (replace_char a b rest)
  end.

(** Lines 69 and 70. *)
Definition clean_title (video_title : string) : string :=
  replace_char " " "_" (keep (fun c => negb (forbidden c)) video_title).

(** [key in info] and [info.get(key, default)] for a key with a string
    value. *)
Fixpoint dict_get (key : string) (fs : list (string * string)) : option string :=
  match fs with
  | [] => None
  | (k, v) :: rest => if String.eqb k key then Some v else dict_get key rest
  end.

Definition get_default (key default : string) (i : info) : string :=
  match dict_get key (fields i) with
  | Some v => v
  | None => default
  end.

(** [if 'entries' in info: info = info['entries'][0] if info['entries'] else
    None]; on [None], [in] raises [TypeError]. *)
Definition first_entry (i : option info) : outcome (option info) :=
  match i with
  | None => Raises TypeError
  | Some (InfoDict _ (Some [])) => Returns None
  | Some (InfoDict _ (Some (first :: _))) => Returns (Some first)
  | Some (InfoDict _ None) => Returns i
  end.

(** [info] when it is true: neither [None] nor the empty dictionary. *)
Definition video_of (i : option info) : option info :=
  match i with
  | Some (InfoDict [] None) => None
  | _ => i
  end.

Definition io_lift {A : Type} (r : outcome A) : IO A := fun d => (([], r), d).

Definition sniff_video_from_webpage (url : string) (output_dir : option string)
    : IO (option string) :=
  try_except
    (match yt_dlp with
     | None => io_raise ImportError
     | Some YoutubeDL =>
       output_dir <- match output_dir with
                     | Some (String _ _ as output_dir) =>
                       ensure_dir_exists output_dir ;;; io_ret output_dir
                     | _ => io_ret gettempdir
                     end ;;
       let url_hash := url_hash url in
       let output_template := path_join output_dir ("video_" ++ url_hash ++ ".%(ext)s") in
       print (Extracting_video_from url) ;;;
       print This_may_take_some_time ;;;
       let ydl_opts :=
         mk_ydl_opts (Some "best[ext=mp4]/best") (Some output_template)
                     true false true false false in
       info <- io_lift (YoutubeDL (mk_ydl_opts None None true true false false false)
                                  url false) ;;
       info <- io_lift (first_entry info) ;;
       match video_of info with
       | None => print No_video_found ;;; io_ret None
       | Some info =>
         let video_title := get_default "title" "unknown_video" info in
         let video_title := clean_title video_title in
         print (Found_video video_title) ;;;
         info <- io_lift (YoutubeDL ydl_opts url true) ;;
         info <- io_lift (first_entry info) ;;
         match video_of info with
         | None => print Failed_to_download ;;; io_ret None
         | Some info =>
           let file_path :=
             match dict_get "_filename" (fields info) with
             | Some file_path => file_path
             | None =>
               let ext := get_default "ext" "mp4" info in
               path_join output_dir ("video_" ++ url_hash ++ "." ++ ext)
             end in
           print (Video_extracted_to file_path) ;;;
           io_ret (Some file_path)
         end
       end
     end)%io%string
    (fun e =>
       match e with
       | ImportError =>
         print Ytdlp_is_required ;;; print Install_it_using_pip ;;; io_ret None
       | _ => print (Error_extracting_video e) ;;; io_ret None
       end)%io.

Definition download_youtube_video (url : string) (output_dir : option string)
    : IO (option string) :=
  sniff_video_from_webpage url output_dir.

End Utils.

(** ** main.py and gui.py, [process_video] *)

Definition lower_char (c : ascii) : ascii :=
  let n := nat_of_ascii c in
  if ((65 <=? n) && (n <=? 90))%nat then ascii_of_nat (n + 32) else c.

(** [s.lower()] on the letters A to Z; the letters outside ASCII, which
    [lower] also folds, are outside the prefixes it is tested against. *)
Fixpoint lower (s : string) : string :=
  match s with
  | EmptyString => EmptyString
  | String c rest => String (lower_char c) (lower rest)
  end.

(** [input_path.lower().startswith(('http://', 'https://', 'www.'))] *)
Definition is_webpage (input_path : string) : bool :=
  let s := lower input_path in
  (String.prefix "http://" s || String.prefix "https://" s || String.prefix "www." s)%bool.

(** A run of the pipeline, as actions of the entry point. *)
Definition pipeline {A : Type} (m : M VideoProcessor.event A) : IO A :=
  fun d =>
    match m with
    | (l, Ok a) => ((map Pipeline l, Returns a), d)
    | (l, Raise e) => ((map Pipeline l, Raises (of_exn e)), d)
    end.

Definition on_disk (f : disk -> result unit * disk) : IO unit :=
  fun d =>
    match f d with
    | (Ok a, d') => (([], Returns a), d')
    | (Raise e, d') => (([], Raises (of_exn e)), d')
    end.

Section EntryPoints.
Context {cv : Cv2} {sk : Skimage} {host : Host}.

(** What both [process_video] do once the video is located: main.py lines
    28 to 44, gui.py lines 378 to 394. *)
Definition extract_and_save (video_path output_dir : string) (threshold : float)
    (skip_frames : Z) (debug_mode : bool) : IO unit :=
  (let processor := VideoProcessor.__init__ threshold skip_frames debug_mode in
   print (Processing_video video_path) ;;;
   slides <- pipeline (VideoProcessor.extract_slides processor video_path) ;;
   print (Saving_slides (List.length slides) output_dir) ;;;
   on_disk (save_slides processor output_dir 0 slides) ;;;
   print Processing_complete)%io.

End EntryPoints.

Module Main.
Section WithLibraries.
Context {cv : Cv2} {sk : Skimage} {host : Host}.

Definition process_video (input_path output_dir : string) (threshold : float)
    (skip_frames : Z) (debug_mode : bool) : IO bool :=
  (ensure_dir_exists output_dir ;;;
   if is_webpage input_path then
     print (Extracting_from_webpage input_path) ;;;
     video_path <- sniff_video_from_webpage input_path (Some output_dir) ;;
     match video_path with
     | Some (String _ _ as video_path) =>
       extract_and_save video_path output_dir threshold skip_frames debug_mode ;;;
       io_ret true
     | _ => print Failed_to_extract ;;; io_ret false
     end
   else
     let video_path := input_path in
     found <- (fun d => (([], Returns (path_exists video_path d)), d)) ;;
     if negb found then
       print (Video_file_not_found video_path) ;;; io_ret false
     else
       extract_and_save video_path output_dir threshold skip_frames debug_mode ;;;
       io_ret true)%io.

End WithLibraries.
End Main.

Module SlideCaptureGUI.
Section WithLibraries.
Context {cv : Cv2} {sk : Skimage} {host : Host}.

Definition process_video (input_path output_dir : string) (threshold : float)
    (skip_frames : Z) (debug_mode : bool) : IO unit :=
  try_finally
    (try_except
       (act Redirect_stdout ;;;
        ensure_dir_exists output_dir ;;;
        if is_webpage input_path then
          print (Extracting_from_webpage input_path) ;;;
          video_path <- sniff_video_from_webpage input_path (Some output_dir) ;;
          match video_path with
          | Some (String _ _ as video_path) =>
            extract_and_save video_path output_dir threshold skip_frames debug_mode
          | _ => print Failed_to_extract
          end
        else
          let video_path := input_path in
          found <- (fun d => (([], Returns (path_exists video_path d)), d)) ;;
          if negb found then print (Video_file_not_found video_path)
          else extract_and_save video_path output_dir threshold skip_frames debug_mode)%io
       (fun e => print (Error_line e)))
    (act Restore_stdout ;;; act After_enable_go_button ;;; act (Set_processing false))%io.

End WithLibraries.
End SlideCaptureGUI.

(** ** The similarity scorer and a reference OpenCV *)

(** The arithmetic the scorer runs on: binary64 to run it as the program
    does, exact rationals to reason about the formula. *)
Class Arith (F : Type) : Type := {
  of_Z : Z -> F;
  add : F -> F -> F;
  sub : F -> F -> F;
  mul : F -> F -> F;
  div : F -> F -> F
}.

#[export] Instance binary64 : Arith float := {
  of_Z := VideoProcessor.float_of_int;
  add := PrimFloat.add;
  sub := PrimFloat.sub;
  mul := PrimFloat.mul;
  div := PrimFloat.div
}.

#[export] Instance exact : Arith Q := {
  of_Z := inject_Z;
  add := Qplus;
  sub := Qminus;
  mul := Qmult;
  div := Qdiv
}.

Module SSIM.
Section Scorer.
Context {F : Type} {ar : Arith F}.

(** Modelled from the spec: the Similarity Scorer of section 4.3, for which
    the repository calls scikit-image.  Every definition of this module
    belongs to that model. *)
Definition win_size : nat := 7.

(** The [win_size] x [win_size] block of a two-dimensional image of width
    [width] whose top left corner is at row [r], column [c]. *)
Definition window (im : ndarray) (width r c : nat) : list Z :=
  flat_map (fun dr =>
    map (fun dc => nth ((r + dr) * width + (c + dc)) (data im) 0%Z) (seq 0 win_size))
    (seq 0 win_size).

Definition total (xs : list F) : F := fold_right add (of_Z 0) xs.

Definition average (xs : list F) : F := div (total xs) (of_Z (Z.of_nat (List.length xs))).

Definition products (xs ys : list F) : list F :=
  map (fun p => mul (fst p) (snd p)) (combine xs ys).

Definition data_range : F := of_Z 255.
Definition K1 : F := div (of_Z 1) (of_Z 100).
Definition K2 : F := div (of_Z 3) (of_Z 100).
Definition C1 : F := mul (mul K1 data_range) (mul K1 data_range).
Definition C2 : F := mul (mul K2 data_range) (mul K2 data_range).
(** [NP / (NP - 1)] for [NP = win_size ** 2]: the sample covariance. *)
Definition cov_norm : F := div (of_Z 49) (of_Z 48).

(** The index of one pair of windows: local means, variances and covariance,
    and [S = (A1 * A2) / (B1 * B2)]. *)
Definition ssim_at (wx wy : list Z) : F :=
  let x := map of_Z wx in
  let y := map of_Z wy in
  let ux := average x in
  let uy := average y in
  let uxx := average (products x x) in
  let uyy := average (products y y) in
  let uxy := average (products x y) in
  let vx := mul cov_norm (sub uxx (mul ux ux)) in
  let vy := mul cov_norm (sub uyy (mul uy uy)) in
  let vxy := mul cov_norm (sub uxy (mul ux uy)) in
  let A1 := add (mul (mul (of_Z 2) ux) uy) C1 in
  let A2 := add (mul (of_Z 2) vxy) C2 in
  let B1 := add (add (mul ux ux) (mul uy uy)) C1 in
  let B2 := add (add vx vy) C2 in
  div (mul A1 A2) (mul B1 B2).

(** The corners of the windows that lie inside an image of [h] rows and [w]
    columns: the index map cropped by [(win_size - 1) / 2]. *)
Definition corners (h w : nat) : list (nat * nat) :=
  flat_map (fun r => map (fun c => (r, c)) (seq 0 (w - (win_size - 1))))
           (seq 0 (h - (win_size - 1))).

Definition mssim (im1 im2 : ndarray) (h w : nat) : F :=
  average (map (fun rc => ssim_at (window im1 w (fst rc) (snd rc))
                                  (window im2 w (fst rc) (snd rc)))
               (corners h w)).

(** Modelled from the spec: [skimage.metrics.structural_similarity], which
    [_calculate_similarity] calls, is not in the repository.  Section 4.3 of
    the spec: the score of two equal-dimension single-channel images, from
    local windowed means, variances and covariances with the standard
    stabilisation constants, aggregated to one scalar.  The window (7 x 7,
    uniform), the constants (K1 = 0.01, K2 = 0.03, data range 255), the sample
    covariance and the two refusals (images of different shapes; an image
    side shorter than the window) are scikit-image's defaults for [uint8]
    images.  Arrays that are not two-dimensional are outside the scorer's
    contract and are refused. *)
Definition structural_similarity (im1 im2 : ndarray) : result F :=
  if negb (shape_eqb (shape im1) (shape im2)) then
    Raise (ValueError "Input images must have the same dimensions.")
  else
    match shape im1 with
    | [h; w] =>
      if ((h <? Z.of_nat win_size) || (w <? Z.of_nat win_size))%Z then
        Raise (ValueError "win_size exceeds image extent.")
      else Ok (mssim im1 im2 (Z.to_nat h) (Z.to_nat w))
    | _ => Raise (ValueError "not a single-channel image")
    end.

End Scorer.
End SSIM.

(** The scorer as the program runs it. *)
Definition skimage_binary64 : Skimage :=
  Build_Skimage (SSIM.structural_similarity (F := float)).

Module OpenCV.

(** Modelled from the spec: the image operations of sections 4.1, 4.2 and 6,
    for which the repository calls OpenCV.  Every definition of this module
    belongs to that model.  [pixels] splits [src] into its pixels of [c]
    channels. *)
Fixpoint pixels (fuel c : nat) (xs : list Z) : list (list Z) :=
  match fuel with
  | O => []
  | S fuel' =>
    match xs with
    | [] => []
    | _ => firstn c xs :: pixels fuel' c (skipn c xs)
    end
  end.

(** The luminance of a BGR pixel, OpenCV's 15-bit fixed point weights. *)
Definition gray_of_pixel (p : list Z) : Z :=
  match p with
  | b :: g :: r :: _ => Z.shiftr (b * 3735 + g * 19235 + r * 9798 + 16384) 15
  | _ => 0
  end%Z.

(** Modelled from the spec: OpenCV is not in the repository.  The colour
    conversion of section 4.2 ("convert to single-channel luminance"): a
    three or four channel image with at least one pixel gives the
    two-dimensional image of its luminances; any other array is refused. *)
Definition cvtColor_BGR2GRAY (src : ndarray) : result ndarray :=
  match shape src with
  | [h; w; c] =>
    if ((0 <? h) && (0 <? w) && ((c =? 3) || (c =? 4)))%Z then
      Ok (mk_ndarray [h; w]
            (map gray_of_pixel (pixels (List.length (data src)) (Z.to_nat c) (data src))))
    else Raise cv2_error
  | _ => Raise cv2_error
  end.

(** The element at row [r], column [c], channel [k] of an image of [w]
    columns and [ch] channels. *)
Definition at_ (src : ndarray) (w ch r c k : nat) : Z :=
  nth ((r * w + c) * ch + k) (data src) 0%Z.

(** Modelled from the spec: the resizing of section 4.2 ("resizing a stored
    slide's luminance image to match the candidate's dimensions"): a two or
    three dimensional image with at least one pixel, resized to a positive
    width and height, has the requested height and width and the source's
    channels; any other call is refused.  OpenCV interpolates; this reference
    takes the nearest source pixel above and to the left, so it fixes shapes
    and refusals, not pixel values. *)
Definition resize (src : ndarray) (dsize : Z * Z) : result ndarray :=
  let (width, height) := dsize in
  let sample (h0 w0 ch : Z) : list Z :=
    flat_map (fun r =>
      flat_map (fun c =>
        map (fun k => at_ src (Z.to_nat w0) (Z.to_nat ch)
                          (Z.to_nat (Z.of_nat r * h0 / height))
                          (Z.to_nat (Z.of_nat c * w0 / width)) k)
            (seq 0 (Z.to_nat ch)))
        (seq 0 (Z.to_nat width)))
      (seq 0 (Z.to_nat height)) in
  if ((0 <? width) && (0 <? height))%Z then
    match shape src with
    | [h0; w0] =>
      if ((0 <? h0) && (0 <? w0))%Z
      then Ok (mk_ndarray [height; width] (sample h0 w0 1%Z))
      else Raise cv2_error
    | [h0; w0; ch] =>
      if ((0 <? h0) && (0 <? w0) && (0 <? ch))%Z
      then Ok (mk_ndarray [height; width; ch] (sample h0 w0 ch))
      else Raise cv2_error
    | _ => Raise cv2_error
    end
  else Raise cv2_error.

Fixpoint ends_with (suffix s : string) : bool :=
  (String.eqb suffix s ||
   match s with
   | EmptyString => false
   | String _ rest => ends_with suffix rest
   end)%bool.

(** Modelled from the spec: the image writer of section 6 ("writes one
    retained image to disk in a standard raster format").  [writable] says
    which paths the file system accepts; a write it refuses returns [False]
    and leaves the disk as it is; a path without a known extension has no
    encoder and raises. *)
Definition imwrite (writable : string -> bool) (path : string) (img : ndarray) (d : disk)
    : result bool * disk :=
  if (ends_with ".jpg" path || ends_with ".png" path)%bool then
    if writable path then (Ok true, (path, img) :: d) else (Ok false, d)
  else (Raise cv2_error, d).

(** Modelled from the spec: the Frame Source of section 4.1.  The files
    [VideoCapture] can open, each with the frames it yields; any other path
    does not open. *)
Fixpoint open_video (videos : list (string * list ndarray)) (path : string) : capture :=
  match videos with
  | [] => mk_capture false [] 0 0%float
  | (p, frames) :: rest =>
    if String.eqb p path
    then mk_capture true frames (Z.of_nat (List.length frames)) 25%float
    else open_video rest path
  end.

Definition reference (videos : list (string * list ndarray)) (writable : string -> bool) : Cv2 :=
  Build_Cv2 (open_video videos) cvtColor_BGR2GRAY resize (imwrite writable).

End OpenCV.

(** ** Sample frames and videos *)

Module Samples.

(** A frame of [h] rows and [w] columns, every pixel [(b, g, r)]. *)
Definition solid (h w : nat) (b g r : Z) : ndarray :=
  mk_ndarray [Z.of_nat h; Z.of_nat w; 3%Z]
             (flat_map (fun _ => [b; g; r]) (seq 0 (h * w))).

Definition red : ndarray := solid 7 7 0 0 255.
Definition blue : ndarray := solid 7 7 255 0 0.
Definition green : ndarray := solid 7 7 0 255 0.
Definition dot : ndarray := solid 1 1 0 0 255.

(** Flat gray frames of luminance 10, 60, 100 and 170. *)
Definition gray10 : ndarray := solid 7 7 10 10 10.
Definition gray60 : ndarray := solid 7 7 60 60 60.
Definition gray100 : ndarray := solid 7 7 100 100 100.
Definition gray170 : ndarray := solid 7 7 170 170 170.

Definition videos : list (string * list ndarray) :=
  [ ("empty.mp4", []);
    ("one.mp4", [red]);
    ("still.mp4", [red; red; red; red]);
    ("red_blue.mp4", [red; red; red; red; red; blue; blue; blue; blue; blue]);
    ("stride.mp4", [red; green; red; blue]);
    ("drift.mp4", [gray10; gray100; gray60; gray10; gray170]);
    ("dots.mp4", [dot; dot]) ]%string.

(** A file system that refuses every path under [/readonly] and, anywhere,
    the name [slide_002.jpg] (a file that may not be overwritten). *)
Definition writable (path : string) : bool :=
  negb (String.prefix "/readonly" path || OpenCV.ends_with "slide_002.jpg" path).

#[export] Instance cv : Cv2 := OpenCV.reference videos writable.
#[export] Instance sk : Skimage := skimage_binary64.

End Samples.

(** ** A sample host *)

Module Hosts.

Definition talk : list ndarray := [Samples.red; Samples.red; Samples.blue].

(** The videos of [Samples], and the one yt-dlp stores. *)
Definition videos : list (string * list ndarray) :=
  Samples.videos ++ [("slides/video_ttpstalksexampleorg7.mp4"%string, talk)].

#[export] Instance cv : Cv2 := OpenCV.reference videos Samples.writable.

(** yt-dlp on two pages: one with a video, one with an empty playlist; it
    fails on any other. *)
Definition YoutubeDL (opts : ydl_opts) (url : string) (download : bool)
    : outcome (option info) :=
  if String.eqb url "https://talks.example.org/7" then
    Returns (Some (InfoDict [("title", "Talk 7: types?"); ("ext", "mp4")]%string None))
  else if String.eqb url "https://talks.example.org/none" then
    Returns (Some (InfoDict [("title", "Nothing")]%string (Some [])))
  else Raises (DownloadError "Unsupported URL").

(** A host on which the directories under [/readonly] cannot be created and
    the files that exist are the videos and the files written. *)
#[export] Instance host : Host := {
  makedirs directory d :=
    if String.prefix "/readonly" directory
    then (Raises (OSError "Read-only file system"), d)
    else (Returns tt, d);
  path_exists path d :=
    (existsb (fun v => String.eqb (fst v) path) videos ||
     existsb (fun f => String.eqb (fst f) path) d)%bool;
  gettempdir := "/tmp";
  yt_dlp := Some YoutubeDL
}.

Definition without_yt_dlp : Host :=
  Build_Host makedirs path_exists gettempdir None.

End Hosts.

(** ** A video of flat frames *)

Module Strips.

(** A frame of 1 row and 2000 columns. *)
Definition strip : ndarray := Samples.solid 1 2000 0 0 255.

Definition videos : list (string * list ndarray) :=
  [("strip.mp4"%string, [strip; strip])].

Definition cv : Cv2 := OpenCV.reference videos Samples.writable.

End Strips.

(** ** Vocabulary of the statements *)

Unset Implicit Arguments.

Section Vocabulary.
Context {cv : Cv2} {sk : Skimage}.

(** The stored slide [s] rejects the candidate whose grayscale image is
    [gray_frame]: its score is above [1.0 - similarity_threshold]. *)
Definition rejects (det : SlideDetector.t) (gray_frame s : ndarray) : bool :=
  match SlideDetector.score_against det gray_frame s with
  | Ok score => (1 - SlideDetector.similarity_threshold det <? score)%float
  | Raise _ => false
  end.

(** The candidate survives the comparison with [s]: the score was computed
    and is not above [1.0 - similarity_threshold]. *)
Definition survives (det : SlideDetector.t) (gray_frame s : ndarray) : bool :=
  match SlideDetector.score_against det gray_frame s with
  | Ok score => negb (1 - SlideDetector.similarity_threshold det <? score)%float
  | Raise _ => false
  end.

(** The candidate frame [c] resembles the stored slide [s]. *)
Definition similar (det : SlideDetector.t) (c s : ndarray) : bool :=
  match cvtColor_BGR2GRAY c with
  | Ok gray_frame => rejects det gray_frame s
  | Raise _ => false
  end.


(** The place of an event in a run: the frame it belongs to, and the step
    within the frame. *)
Definition stamp (e : VideoProcessor.event) : Z :=
  match e with
  | VideoProcessor.Decoded i => 7 * i
  | VideoProcessor.Sampled i => 7 * i + 1
  | VideoProcessor.Printed (VideoProcessor.Progress i _) => 7 * i + 2
  | VideoProcessor.Checked i => 7 * i + 3
  | VideoProcessor.Scored i _ => 7 * i + 4
  | VideoProcessor.Appended i => 7 * i + 5
  | VideoProcessor.Printed (VideoProcessor.Found _ i) => 7 * i + 6
  | VideoProcessor.Printed (VideoProcessor.VideoInfo _) => 0
  | VideoProcessor.Printed (VideoProcessor.Summary i _) => 7 * i
  end%Z.

Definition chronological (log : list VideoProcessor.event) : Prop :=
  StronglySorted (fun a b => (stamp a <= stamp b)%Z) log.

(** A chronological piece of a run whose stamps lie between [lo] and [hi]. *)
Definition segment (lo hi : Z) (log : list VideoProcessor.event) : Prop :=
  chronological log /\ Forall (fun e => lo <= stamp e <= hi)%Z log.

(** The comparison with the stored slide [j], as an event of frame [c]. *)
Definition scored_at (c : Z) (p : SlideDetector.probe) : VideoProcessor.event :=
  match p with SlideDetector.Compared j => VideoProcessor.Scored c j end.

(** What the sampled frame [c] leaves before it is preprocessed, and what
    it leaves after it was appended as slide number [n]. *)
Definition sampled_head (self : VideoProcessor.t) (total_frames c : Z)
    : list VideoProcessor.event :=
  VideoProcessor.Sampled c ::
  (if (VideoProcessor.debug_mode self &&
       (c mod (VideoProcessor.frame_skip self * 20) =? 0)%Z)%bool
   then [VideoProcessor.Printed (VideoProcessor.Progress c total_frames)] else []).

Definition found_tail (self : VideoProcessor.t) (c : Z) (n : nat)
    : list VideoProcessor.event :=
  if VideoProcessor.debug_mode self
  then [VideoProcessor.Printed (VideoProcessor.Found n c)] else [].

(** The frames of [frames] whose index, counted from [c], is a multiple of
    [k]. *)
Fixpoint sample (k c : Z) (frames : list ndarray) : list ndarray :=
  match frames with
  | [] => []
  | frame :: rest =>
    if (c mod k =? 0)%Z then frame :: sample k (c + 1) rest else sample k (c + 1) rest
  end.

(** Every call of the libraries on the frames of a video returns: each frame
    is preprocessed, and the detector answers for each preprocessed frame
    against any slides taken from the preprocessed frames. *)
Definition library_calls_return (self : VideoProcessor.t) (frames : list ndarray) : Prop :=
  (forall f, In f frames -> exists p, VideoProcessor._preprocess_frame self f = Ok p) /\
  (forall f p slides, In f frames -> VideoProcessor._preprocess_frame self f = Ok p ->
     (forall s, In s slides ->
        exists f', In f' frames /\ VideoProcessor._preprocess_frame self f' = Ok s) ->
     exists l b,
       SlideDetector.is_new_slide (VideoProcessor.slide_detector self) p slides = (l, Ok b)).

(** The frames of [frames] as [_preprocess_frame] returns them. *)
Definition preprocessed (self : VideoProcessor.t) (frames : list ndarray) : list ndarray :=
  flat_map (fun f => match VideoProcessor._preprocess_frame self f with
                     | Ok p => [p]
                     | Raise _ => []
                     end) frames.

(** What the pipeline relies on from the libraries, on images with at least
    one pixel: the colour conversion and the resizing return an image of the
    expected shape, and the scorer returns exactly when both images have the
    same shape with no side shorter than its window. *)
Record Contract : Prop := {
  cvtColor_shape : forall src h w, shape src = [h; w; 3%Z] -> (0 < h)%Z -> (0 < w)%Z ->
    exists g, cvtColor_BGR2GRAY src = Ok g /\ shape g = [h; w];
  resize_shape : forall src h0 w0 h w, shape src = [h0; w0] ->
    (0 < h0)%Z -> (0 < w0)%Z -> (0 < h)%Z -> (0 < w)%Z ->
    exists r, resize src (w, h) = Ok r /\ shape r = [h; w];
  ssim_returns : forall a b h w, shape a = [h; w] -> shape b = [h; w] ->
    (7 <= h)%Z -> (7 <= w)%Z -> exists v, ssim a b = Ok v;
  ssim_refuses : forall a b h w, shape a = [h; w] ->
    (h < 7 \/ w < 7)%Z -> exists e, ssim a b = Raise e
}.

(** A colour frame with at least one pixel. *)
Definition colour_frame (a : ndarray) : Prop :=
  exists h w, shape a = [h; w; 3%Z] /\ (0 < h)%Z /\ (0 < w)%Z.

(** A frame that is preprocessed to a colour image no smaller than the
    scorer's window. *)
Definition scorable (self : VideoProcessor.t) (f : ndarray) : Prop :=
  exists p h w,
    VideoProcessor._preprocess_frame self f = Ok p /\
    shape p = [h; w; 3%Z] /\ (7 <= h)%Z /\ (7 <= w)%Z.

(** A colour frame that [_preprocess_frame] leaves as it is and that is no
    smaller than the scorer's window. *)
Definition plain_frame (a : ndarray) : Prop :=
  exists h w, shape a = [h; w; 3%Z] /\ (7 <= h <= 1024)%Z /\ (7 <= w <= 1024)%Z.

End Vocabulary.

(** One pass over the candidates that keeps a candidate when no kept
    element resembles it: what [extract_slides] computes when every score is
    defined. *)
Fixpoint greedy {A : Type} (sim : A -> A -> bool) (kept cands : list A) : list A :=
  match cands with
  | [] => kept
  | c :: rest =>
    if existsb (sim c) kept then greedy sim kept rest else greedy sim (kept ++ [c]) rest
  end.

(** No element resembles an element kept before it. *)
Definition apart {A : Type} (sim : A -> A -> bool) (kept : list A) : Prop :=
  ForallOrdPairs (fun a b => sim b a = false) kept.

(** The kept element that [x] resembles, in a list [G]. *)
Definition representative {A : Type} (sim : A -> A -> bool) (G : list A) (x : A) : option A :=
  find (sim x) G.

(** [sim] is an equivalence relation on the elements of [U]. *)
Definition equivalence_on {A : Type} (sim : A -> A -> bool) (U : list A) : Prop :=
  (forall a, In a U -> sim a a = true) /\
  (forall a b, In a U -> In b U -> sim a b = true -> sim b a = true) /\
  (forall a b c, In a U -> In b U -> In c U ->
     sim a b = true -> sim b c = true -> sim a c = true).

(** Membership in a list that computes. *)
Ltac in_list := vm_compute; repeat (first [left; reflexivity | right]).

(** [l1] is [l2] with some elements left out, the order kept. *)
Inductive subsequence {A : Type} : list A -> list A -> Prop :=
| subsequence_nil : subsequence [] []
| subsequence_skip (x : A) (l1 l2 : list A) : subsequence l1 l2 -> subsequence l1 (x :: l2)
| subsequence_keep (x : A) (l1 l2 : list A) : subsequence l1 l2 -> subsequence (x :: l1) (x :: l2).

(** A trace without its lines of debug output. *)
Definition silent (log : list VideoProcessor.event) : list VideoProcessor.event :=
  filter (fun e => match e with VideoProcessor.Printed _ => false | _ => true end) log.

(** The number a slide file name carries: [int(s)] on the digits of
    [f"{n:03d}"]. *)
Definition parse_03d (s : string) : option nat :=
  option_map Nat.of_uint (NilEmpty.uint_of_string s).

Section Offers.
Context {cv : Cv2} {sk : Skimage}.

(** The loop of [extract_slides] on the sampled frames alone: each one is
    preprocessed and offered to the detector. *)
Fixpoint offer_all (self : VideoProcessor.t) (slides sampled : list ndarray)
    : result (list ndarray) :=
  match sampled with
  | [] => Ok slides
  | frame :: rest =>
    match VideoProcessor._preprocess_frame self frame with
    | Raise e => Raise e
    | Ok p =>
      match snd (SlideDetector.is_new_slide (VideoProcessor.slide_detector self) p slides) with
      | Raise e => Raise e
      | Ok true => offer_all self (slides ++ [p]) rest
      | Ok false => offer_all self slides rest
      end
    end
  end.

End Offers.

(** A frame that [_preprocess_frame] does not resize: at least two
    dimensions, neither of the first two above 1024. *)
Definition small_frame (f : ndarray) : Prop :=
  exists h w rest, shape f = h :: w :: rest /\ (Z.max h w <= 1024)%Z.

(** The video an [extract_info] call found: what it returned, after the
    first entry of a playlist was taken, when that is true. *)
Definition found_video (r : outcome (option info)) : option info :=
  match r with
  | Returns i =>
    match first_entry i with
    | Returns i' => video_of i'
    | Raises _ => None
    end
  | Raises _ => None
  end.

(** The line of the handler of [gui.py], when the body raised. *)
Definition error_line {A : Type} (r : outcome A) : list action :=
  match r with
  | Returns _ => []
  | Raises e => [Say (Error_line e)]
  end.

Section Fetching.
Context {host : Host}.

(** The directory the video is stored in. *)
Definition download_dir (output_dir : option string) : string :=
  match output_dir with
  | Some (String _ _ as output_dir) => output_dir
  | _ => gettempdir
  end.

(** The options of the two [YoutubeDL] of [sniff_video_from_webpage]. *)
Definition probe_opts : ydl_opts := mk_ydl_opts None None true true false false false.

Definition download_opts (output_dir url : string) : ydl_opts :=
  mk_ydl_opts (Some "best[ext=mp4]/best"%string)
    (Some (path_join output_dir ("video_" ++ url_hash url ++ ".%(ext)s")%string))
    true false true false false.

(** The path [sniff_video_from_webpage] returns for the downloaded video
    [i]. *)
Definition downloaded_path (output_dir url : string) (i : info) : string :=
  match dict_get "_filename" (fields i) with
  | Some file_path => file_path
  | None =>
    path_join output_dir ("video_" ++ url_hash url ++ "." ++ get_default "ext" "mp4" i)%string
  end.

End Fetching.

(** ** The comparison as the specification words it *)

Section AsSpecified.
Context {cv : Cv2} {sk : Skimage}.

(** Written from the words of the specification, to be compared with
    [SlideDetector.score_against], which is written from the code.  "Every
    existing slide's luminance image": the conversion of the slide, or the
    slide itself when it has no channel axis. *)
Definition luminance (s : ndarray) : result ndarray :=
  match shape s with
  | [_; _; _] => cvtColor_BGR2GRAY s
  | _ => Ok s
  end.

(** "Resizing a stored slide's luminance image to match the candidate's
    dimensions if they differ": the stored slide [s] as it is compared with
    the candidate whose luminance image is [gray_frame]. *)
Definition matched (gray_frame s : ndarray) : result ndarray :=
  match luminance s with
  | Raise e => Raise e
  | Ok existing_gray =>
    if shape_eqb (shape existing_gray) (shape gray_frame) then Ok existing_gray
    else
      match shape gray_frame with
      | height :: width :: _ => resize existing_gray (width, height)
      | _ => Raise IndexError
      end
  end.

(** The score of the comparison of the candidate with the stored slide [s]. *)
Definition comparison_score (gray_frame s : ndarray) : result float :=
  match matched gray_frame s with
  | Raise e => Raise e
  | Ok existing_gray => ssim gray_frame existing_gray
  end.



End AsSpecified.

(** * Properties *)

(** ** The trace monad *)

Lemma bind_ret {E A B : Type} (a : A) (k : A -> M E B) : bind (ret a) k = k a.
Proof. unfold bind, ret. destruct (k a). reflexivity. Qed.

Lemma bind_tell {E B : Type} (e : E) (k : unit -> M E B) :
  bind (tell e) k = (e :: fst (k tt), snd (k tt)).
Proof. unfold bind, tell. destruct (k tt). reflexivity. Qed.

Lemma bind_lift_ok {E A B : Type} (a : A) (k : A -> M E B) : bind (lift (Ok a)) k = k a.
Proof. unfold bind, lift. destruct (k a). reflexivity. Qed.

Lemma bind_lift_raise {E A B : Type} (e : exn) (k : A -> M E B) :
  bind (lift (Raise e)) k = ([], Raise e).
Proof. reflexivity. Qed.

Lemma bind_when {E B : Type} (b : bool) (e : E) (k : unit -> M E B) :
  bind (when b (tell e)) k = ((if b then [e] else []) ++ fst (k tt), snd (k tt)).
Proof.
  destruct b; unfold when.
  - apply bind_tell.
  - rewrite bind_ret. destruct (k tt); reflexivity.
Qed.

(** ** The decision of [is_new_slide] *)

Section DetectorFacts.
Context {cv : Cv2} {sk : Skimage}.
Variable det : SlideDetector.t.

Lemma compare_all_cons (g : ndarray) (j : nat) (s : ndarray) (rest : list ndarray) :
  SlideDetector.compare_all det g j (s :: rest) =
  match SlideDetector.score_against det g s with
  | Raise e => ([SlideDetector.Compared j], Raise e)
  | Ok score =>
    if (1 - SlideDetector.similarity_threshold det <? score)%float
    then ([SlideDetector.Compared j], Ok false)
    else (SlideDetector.Compared j :: fst (SlideDetector.compare_all det g (S j) rest),
          snd (SlideDetector.compare_all det g (S j) rest))
  end.
Proof.
  cbn [SlideDetector.compare_all]. rewrite bind_tell.
  destruct (SlideDetector.score_against det g s) as [score | e].
  - rewrite bind_lift_ok.
    destruct (1 - SlideDetector.similarity_threshold det <? score)%float; reflexivity.
  - reflexivity.
Qed.

Lemma survives_rejects (g s : ndarray) : survives det g s = true -> rejects det g s = false.
Proof.
  unfold survives, rejects. destruct (SlideDetector.score_against det g s); [|discriminate].
  now destruct (1 - SlideDetector.similarity_threshold det <? a)%float.
Qed.



Lemma compare_all_rejected (g s : ndarray) (S2 : list ndarray) (j : nat) :
  rejects det g s = true ->
  SlideDetector.compare_all det g j (s :: S2) = ([SlideDetector.Compared j], Ok false).
Proof.
  intros Hr. rewrite compare_all_cons. unfold rejects in Hr.
  destruct (SlideDetector.score_against det g s) as [v | e]; [|discriminate].
  now rewrite Hr.
Qed.

Lemma compare_all_false (g : ndarray) (S : list ndarray) :
  forall j l, SlideDetector.compare_all det g j S = (l, Ok false) ->
  exists S1 s S2,
    S = S1 ++ s :: S2 /\ forallb (survives det g) S1 = true /\ rejects det g s = true /\
    l = map SlideDetector.Compared (seq j (Datatypes.S (List.length S1))).
Proof.
  induction S as [|s S IH]; intros j l H.
  - discriminate.
  - rewrite compare_all_cons in H.
    destruct (SlideDetector.score_against det g s) as [v | e] eqn:Hv; [|discriminate].
    destruct (1 - SlideDetector.similarity_threshold det <? v)%float eqn:Ha.
    + exists [], s, S. inversion H; subst. unfold rejects. rewrite Hv. auto.
    + destruct (SlideDetector.compare_all det g (Datatypes.S j) S) as [l' r] eqn:Hrec.
      cbn [fst snd] in H. inversion H; subst.
      destruct (IH _ _ Hrec) as (S1 & s' & S2 & -> & Hs & Hr & ->).
      exists (s :: S1), s', S2. repeat split; auto.
      cbn [forallb]. unfold survives at 1. now rewrite Hv, Ha.
Qed.

Lemma compare_all_true (g : ndarray) (S : list ndarray) :
  forall j l, SlideDetector.compare_all det g j S = (l, Ok true) ->
  forallb (survives det g) S = true /\
  l = map SlideDetector.Compared (seq j (List.length S)).
Proof.
  induction S as [|s S IH]; intros j l H.
  - inversion H. auto.
  - rewrite compare_all_cons in H.
    destruct (SlideDetector.score_against det g s) as [v | e] eqn:Hv; [|discriminate].
    destruct (1 - SlideDetector.similarity_threshold det <? v)%float eqn:Ha; [discriminate|].
    destruct (SlideDetector.compare_all det g (Datatypes.S j) S) as [l' r] eqn:Hrec.
    cbn [fst snd] in H. inversion H; subst.
    destruct (IH _ _ Hrec) as [Hs ->]. split; [|reflexivity].
    cbn [forallb]. unfold survives at 1. now rewrite Hv, Ha.
Qed.

Lemma is_new_slide_nonempty (frame : ndarray) (S : list ndarray) :
  S <> [] ->
  SlideDetector.is_new_slide det frame S =
  match cvtColor_BGR2GRAY frame with
  | Ok g => SlideDetector.compare_all det g 0 S
  | Raise e => ([], Raise e)
  end.
Proof.
  destruct S as [|s S]; [congruence|]. intros _. unfold SlideDetector.is_new_slide.
  destruct (cvtColor_BGR2GRAY frame); [now rewrite bind_lift_ok | reflexivity].
Qed.


End DetectorFacts.


(** ** The score is the one of the specification *)

Section Refinement.
Context {cv : Cv2} {sk : Skimage}.
Variable det : SlideDetector.t.

(** The score the loop of [is_new_slide] computes is the score of the stored
    slide converted to grayscale when it has three dimensions and resized to
    the candidate's width and height when the shapes differ. *)
Lemma score_against_as_specified (g s : ndarray) :
  SlideDetector.score_against det g s = comparison_score g s.
Proof.
  unfold SlideDetector.score_against, comparison_score, matched, luminance,
    SlideDetector._calculate_similarity.
  assert (Hconv : (if (List.length (shape s) =? 3)%nat
                   then cvtColor_BGR2GRAY s else Ok s) =
                  match shape s with
                  | [_; _; _] => cvtColor_BGR2GRAY s
                  | _ => Ok s
                  end).
  { destruct (shape s) as [|a [|b [|c [|d l]]]]; reflexivity. }
  rewrite Hconv.
  destruct (match shape s with [_; _; _] => cvtColor_BGR2GRAY s | _ => Ok s end)
    as [existing_gray | e]; [|reflexivity].
  destruct (shape_eqb (shape existing_gray) (shape g)); cbn [negb]; [reflexivity|].
  destruct (shape g) as [|h [|w l]]; reflexivity.
Qed.




End Refinement.




(** ** One run of [extract_slides] *)

Lemma sorted_app {A : Type} (R : A -> A -> Prop) (l1 l2 : list A) :
  StronglySorted R l1 -> StronglySorted R l2 ->
  (forall x y, In x l1 -> In y l2 -> R x y) ->
  StronglySorted R (l1 ++ l2).
Proof.
  induction l1 as [|a l1 IH]; intros H1 H2 H12; [exact H2|].
  inversion H1 as [|? ? Hs Hf]; subst. cbn [app]. constructor.
  - apply IH; auto. intros x y Hx Hy. apply H12; [now right | assumption].
  - apply Forall_app. split; [assumption|].
    apply Forall_forall. intros y Hy. apply H12; [now left | assumption].
Qed.


Lemma sorted_same {A : Type} (R : A -> A -> Prop) (l : list A) :
  (forall x y, In x l -> In y l -> R x y) -> StronglySorted R l.
Proof.
  induction l as [|a l IH]; intros H; constructor.
  - apply IH. intros x y Hx Hy. apply H; now right.
  - apply Forall_forall. intros y Hy. apply H; [now left | now right].
Qed.

Section RunFacts.
Context {cv : Cv2} {sk : Skimage}.
Variable self : VideoProcessor.t.
Variable total_frames : Z.

Lemma process_frame_zero (frame : ndarray) (slides : list ndarray) (c : Z) :
  VideoProcessor.frame_skip self = 0%Z ->
  VideoProcessor.process_frame self total_frames frame slides c = ([], Raise ZeroDivisionError).
Proof. intros H. unfold VideoProcessor.process_frame. now rewrite H. Qed.

Lemma process_frame_skipped (frame : ndarray) (slides : list ndarray) (c : Z) :
  VideoProcessor.frame_skip self <> 0%Z ->
  (c mod VideoProcessor.frame_skip self)%Z <> 0%Z ->
  VideoProcessor.process_frame self total_frames frame slides c = ([], Ok slides).
Proof.
  intros Hk Hc. unfold VideoProcessor.process_frame.
  destruct (Z.eqb_spec (VideoProcessor.frame_skip self) 0); [contradiction|].
  destruct (Z.eqb_spec (c mod VideoProcessor.frame_skip self) 0); [contradiction|].
  reflexivity.
Qed.

Lemma process_frame_sampled (frame : ndarray) (slides : list ndarray) (c : Z) :
  VideoProcessor.frame_skip self <> 0%Z ->
  (c mod VideoProcessor.frame_skip self)%Z = 0%Z ->
  VideoProcessor.process_frame self total_frames frame slides c =
  match VideoProcessor._preprocess_frame self frame with
  | Raise e => (sampled_head self total_frames c, Raise e)
  | Ok p =>
    let m := SlideDetector.is_new_slide (VideoProcessor.slide_detector self) p slides in
    let log := sampled_head self total_frames c ++ VideoProcessor.Checked c :: map (scored_at c) (fst m) in
    match snd m with
    | Raise e => (log, Raise e)
    | Ok true =>
      (log ++ VideoProcessor.Appended c :: found_tail self c (List.length (slides ++ [p])),
       Ok (slides ++ [p]))
    | Ok false => (log, Ok slides)
    end
  end.
Proof.
  intros Hk Hc. unfold VideoProcessor.process_frame.
  destruct (Z.eqb_spec (VideoProcessor.frame_skip self) 0); [contradiction|].
  rewrite Hc. cbn [Z.eqb]. rewrite bind_tell, bind_when. unfold sampled_head.
  destruct (VideoProcessor._preprocess_frame self frame) as [p | e].
  - rewrite bind_lift_ok, bind_tell. cbn [fst snd].
    destruct (SlideDetector.is_new_slide (VideoProcessor.slide_detector self) p slides)
      as [l [[|] | e]];
      unfold relabel, bind, found_tail, tell, when, ret; cbn [fst snd];
      destruct (VideoProcessor.debug_mode self); cbn [fst snd app andb];
      rewrite <- ?app_assoc, ?app_nil_r; cbn [app]; rewrite <- ?app_assoc; reflexivity.
  - rewrite bind_lift_raise. cbn [fst snd]. now rewrite app_nil_r.
Qed.

Lemma read_frames_cons (frame : ndarray) (rest slides : list ndarray) (c : Z) :
  VideoProcessor.read_frames self total_frames (frame :: rest) slides c =
  match VideoProcessor.process_frame self total_frames frame slides c with
  | (l, Raise e) => (VideoProcessor.Decoded c :: l, Raise e)
  | (l, Ok slides') =>
    (VideoProcessor.Decoded c :: l ++
       fst (VideoProcessor.read_frames self total_frames rest slides' (c + 1)),
     snd (VideoProcessor.read_frames self total_frames rest slides' (c + 1)))
  end.
Proof.
  cbn [VideoProcessor.read_frames]. rewrite bind_tell.
  destruct (VideoProcessor.process_frame self total_frames frame slides c) as [l [s | e]];
    unfold bind; cbn [fst snd]; [|reflexivity].
  now destruct (VideoProcessor.read_frames self total_frames rest s (c + 1)).
Qed.

Lemma extract_slides_run (video_path : string) :
  isOpened (VideoCapture video_path) = true ->
  VideoProcessor.extract_slides self video_path =
  let m := VideoProcessor.read_frames self (CAP_PROP_FRAME_COUNT (VideoCapture video_path))
             (stream (VideoCapture video_path)) [] 0 in
  let info := if VideoProcessor.debug_mode self
              then [VideoProcessor.Printed
                      (VideoProcessor.VideoInfo (CAP_PROP_FRAME_COUNT (VideoCapture video_path)))]
              else [] in
  match snd m with
  | Ok st =>
    (info ++ fst m ++
       (if VideoProcessor.debug_mode self
        then [VideoProcessor.Printed (VideoProcessor.Summary (snd st) (List.length (fst st)))]
        else []),
     Ok (fst st))
  | Raise e => (info ++ fst m, Raise e)
  end.
Proof.
  intros Ho. unfold VideoProcessor.extract_slides. rewrite Ho. cbn [negb].
  rewrite bind_when. cbn zeta.
  destruct (VideoProcessor.read_frames self _ (stream (VideoCapture video_path)) [] 0)
    as [l [st | e]]; unfold bind, when, tell, ret; cbn [fst snd];
    destruct (VideoProcessor.debug_mode self); cbn [fst snd app];
    rewrite ?app_nil_r; reflexivity.
Qed.

End RunFacts.

(** ** The order of the events of a run *)

Section Chronology.
Context {cv : Cv2} {sk : Skimage}.

Lemma segment_nil (lo hi : Z) : segment lo hi [].
Proof. split; constructor. Qed.

Lemma segment_const (v : Z) (log : list VideoProcessor.event) :
  (forall e, In e log -> stamp e = v) -> segment v v log.
Proof.
  intros H. split.
  - apply sorted_same. intros x y Hx Hy. rewrite (H x Hx), (H y Hy). lia.
  - apply Forall_forall. intros e He. rewrite (H e He). lia.
Qed.

Lemma segment_weaken [lo hi lo' hi' : Z] [log : list VideoProcessor.event] :
  (lo' <= lo)%Z -> (hi <= hi')%Z -> segment lo hi log -> segment lo' hi' log.
Proof.
  intros Hlo Hhi [Hc Hb]. split; [exact Hc|].
  eapply Forall_impl; [|exact Hb]. cbn beta. intros e He. lia.
Qed.

Lemma segment_app [lo mid mid' hi : Z] [l1 l2 : list VideoProcessor.event] :
  segment lo mid l1 -> segment mid' hi l2 ->
  (mid <= mid')%Z -> (lo <= mid')%Z -> (mid <= hi)%Z ->
  segment lo hi (l1 ++ l2).
Proof.
  intros [Hc1 Hb1] [Hc2 Hb2] Hm Hlo Hhi. split.
  - apply sorted_app; auto. intros x y Hx Hy.
    rewrite Forall_forall in Hb1, Hb2. specialize (Hb1 x Hx). specialize (Hb2 y Hy). lia.
  - apply Forall_app. split; (eapply Forall_impl; [|eassumption]); cbn beta; intros e He; lia.
Qed.

Lemma segment_single (e : VideoProcessor.event) : segment (stamp e) (stamp e) [e].
Proof. apply segment_const. intros x [<- | []]. reflexivity. Qed.

Lemma segment_in [lo hi : Z] [log : list VideoProcessor.event] [e : VideoProcessor.event] :
  segment lo hi log -> In e log -> (lo <= stamp e <= hi)%Z.
Proof. intros [_ Hb] He. rewrite Forall_forall in Hb. auto. Qed.

Variable self : VideoProcessor.t.

Section AnyTotal.
Variable total_frames : Z.

Lemma sampled_head_segment (c : Z) :
  segment (7 * c + 1) (7 * c + 2) (sampled_head self total_frames c).
Proof.
  unfold sampled_head.
  destruct (VideoProcessor.debug_mode self &&
            (c mod (VideoProcessor.frame_skip self * 20) =? 0)%Z)%bool.
  - apply (segment_app (segment_single (VideoProcessor.Sampled c))
             (segment_single (VideoProcessor.Printed (VideoProcessor.Progress c total_frames))));
      cbn [stamp]; lia.
  - apply (segment_weaken (lo := 7 * c + 1) (hi := 7 * c + 1)); try lia.
    apply (segment_single (VideoProcessor.Sampled c)).
Qed.

Lemma scored_segment (c : Z) (l : list SlideDetector.probe) :
  segment (7 * c + 3) (7 * c + 4) (VideoProcessor.Checked c :: map (scored_at c) l).
Proof.
  apply (segment_app (mid := 7 * c + 3) (mid' := 7 * c + 4)
           (l1 := [VideoProcessor.Checked c])); try lia.
  - apply (segment_single (VideoProcessor.Checked c)).
  - apply segment_const. intros e He. apply in_map_iff in He as [[j] [<- _]]. reflexivity.
Qed.

Lemma appended_segment (c : Z) (n : nat) :
  segment (7 * c + 5) (7 * c + 6) (VideoProcessor.Appended c :: found_tail self c n).
Proof.
  unfold found_tail. destruct (VideoProcessor.debug_mode self).
  - apply (segment_app (segment_single (VideoProcessor.Appended c))
             (segment_single (VideoProcessor.Printed (VideoProcessor.Found n c))));
      cbn [stamp]; lia.
  - apply (segment_weaken (lo := 7 * c + 5) (hi := 7 * c + 5)); try lia.
    apply (segment_single (VideoProcessor.Appended c)).
Qed.

(** The events of frame [c] carry the stamps of frame [c], in order; a frame
    that is not sampled leaves none. *)
Lemma process_frame_segment (frame : ndarray) (slides : list ndarray) (c : Z) :
  segment (7 * c + 1) (7 * c + 6)
          (fst (VideoProcessor.process_frame self total_frames frame slides c)).
Proof.
  destruct (Z.eq_dec (VideoProcessor.frame_skip self) 0) as [Hk | Hk].
  { rewrite process_frame_zero by assumption. apply segment_nil. }
  destruct (Z.eq_dec (c mod VideoProcessor.frame_skip self) 0) as [Hc | Hc].
  2: { rewrite process_frame_skipped by assumption. apply segment_nil. }
  rewrite process_frame_sampled by assumption.
  pose proof (sampled_head_segment c) as Hh.
  destruct (VideoProcessor._preprocess_frame self frame) as [p | e]; cbn [fst].
  2: { apply (segment_weaken (lo := 7 * c + 1) (hi := 7 * c + 2)); [lia | lia | exact Hh]. }
  cbn zeta.
  assert (Hlog : segment (7 * c + 1) (7 * c + 4)
            (sampled_head self total_frames c ++ VideoProcessor.Checked c ::
             map (scored_at c)
               (fst (SlideDetector.is_new_slide (VideoProcessor.slide_detector self) p slides)))).
  { apply (segment_app Hh (scored_segment c _)); lia. }
  destruct (snd (SlideDetector.is_new_slide (VideoProcessor.slide_detector self) p slides))
    as [[|] | e]; cbn [fst].
  - apply (segment_app Hlog (appended_segment c _)); lia.
  - apply (segment_weaken (lo := 7 * c + 1) (hi := 7 * c + 4)); [lia | lia | exact Hlog].
  - apply (segment_weaken (lo := 7 * c + 1) (hi := 7 * c + 4)); [lia | lia | exact Hlog].
Qed.

Lemma process_frame_silent (frame : ndarray) (slides : list ndarray) (c : Z)
    (e : VideoProcessor.event) :
  In e (fst (VideoProcessor.process_frame self total_frames frame slides c)) ->
  VideoProcessor.frame_skip self <> 0%Z /\ (c mod VideoProcessor.frame_skip self)%Z = 0%Z.
Proof.
  intros He.
  destruct (Z.eq_dec (VideoProcessor.frame_skip self) 0) as [Hk | Hk].
  { rewrite process_frame_zero in He by assumption. contradiction. }
  destruct (Z.eq_dec (c mod VideoProcessor.frame_skip self) 0) as [Hc | Hc]; [auto|].
  rewrite process_frame_skipped in He by assumption. contradiction.
Qed.

Lemma read_frames_segment (frames : list ndarray) :
  forall slides c,
    segment (7 * c) (7 * (c + Z.of_nat (List.length frames)) - 1)
            (fst (VideoProcessor.read_frames self total_frames frames slides c)).
Proof.
  induction frames as [|frame rest IH]; intros slides c.
  - apply segment_nil.
  - rewrite read_frames_cons.
    pose proof (process_frame_segment frame slides c) as Hp.
    pose proof (segment_single (VideoProcessor.Decoded c)) as Hd. cbn [stamp] in Hd.
    cbn [List.length]. rewrite Nat2Z.inj_succ.
    destruct (VideoProcessor.process_frame self total_frames frame slides c)
      as [l [slides' | e]]; cbn [fst] in *.
    + change (VideoProcessor.Decoded c :: l ++ ?x) with ([VideoProcessor.Decoded c] ++ l ++ x).
      assert (Hr : segment (7 * (c + 1)) (7 * (c + Z.succ (Z.of_nat (List.length rest))) - 1)
                (fst (VideoProcessor.read_frames self total_frames rest slides' (c + 1)))).
      { eapply segment_weaken; [| | apply (IH slides' (c + 1)%Z)]; lia. }
      apply (segment_app Hd (segment_app Hp Hr ltac:(lia) ltac:(lia) ltac:(lia))); lia.
    + change (VideoProcessor.Decoded c :: l) with ([VideoProcessor.Decoded c] ++ l).
      assert (Hp' : segment (7 * c + 1) (7 * (c + Z.succ (Z.of_nat (List.length rest))) - 1) l).
      { eapply segment_weaken; [| | exact Hp]; lia. }
      apply (segment_app Hd Hp'); lia.
Qed.

(** The frame count that a run returns. *)
Lemma read_frames_count (frames : list ndarray) :
  forall slides c l slides' c',
    VideoProcessor.read_frames self total_frames frames slides c = (l, Ok (slides', c')) ->
    c' = (c + Z.of_nat (List.length frames))%Z.
Proof.
  induction frames as [|frame rest IH]; intros slides c l slides' c' H.
  - inversion H. cbn [List.length Z.of_nat]. lia.
  - rewrite read_frames_cons in H.
    destruct (VideoProcessor.process_frame self total_frames frame slides c)
      as [lp [s | e]]; [|discriminate].
    destruct (VideoProcessor.read_frames self total_frames rest s (c + 1)) as [lr r] eqn:Hr.
    cbn [fst snd] in H. inversion H; subst.
    rewrite (IH _ _ _ _ _ Hr). cbn [List.length]. lia.
Qed.

End AnyTotal.


End Chronology.

(** ** Which frames are sampled *)

Section Sampling.
Context {cv : Cv2} {sk : Skimage}.
Variable self : VideoProcessor.t.
Variable total_frames : Z.
Hypothesis skip_nonzero : VideoProcessor.frame_skip self <> 0%Z.

Lemma sampled_in_frame (frame : ndarray) (slides : list ndarray) (c : Z) :
  (c mod VideoProcessor.frame_skip self)%Z = 0%Z ->
  In (VideoProcessor.Sampled c)
     (fst (VideoProcessor.process_frame self total_frames frame slides c)).
Proof.
  intros Hc. rewrite process_frame_sampled by assumption.
  destruct (VideoProcessor._preprocess_frame self frame) as [p | e]; cbn zeta.
  - destruct (snd (SlideDetector.is_new_slide (VideoProcessor.slide_detector self) p slides))
      as [[|] | e]; cbn [fst]; rewrite ?in_app_iff; unfold sampled_head; cbn [In]; auto.
  - cbn [fst]. unfold sampled_head. now left.
Qed.

Lemma checked_in_frame (frame : ndarray) (slides : list ndarray) (c : Z) :
  (c mod VideoProcessor.frame_skip self)%Z = 0%Z ->
  In (VideoProcessor.Checked c)
     (fst (VideoProcessor.process_frame self total_frames frame slides c)) <->
  exists p, VideoProcessor._preprocess_frame self frame = Ok p.
Proof.
  intros Hc. rewrite process_frame_sampled by assumption.
  destruct (VideoProcessor._preprocess_frame self frame) as [p | e]; cbn zeta.
  - split; [eauto|]. intros _.
    destruct (snd (SlideDetector.is_new_slide (VideoProcessor.slide_detector self) p slides))
      as [[|] | e]; cbn [fst]; rewrite ?in_app_iff; cbn [In]; auto.
  - cbn [fst]. split.
    + intros H. apply (segment_in (sampled_head_segment self total_frames c)) in H.
      cbn [stamp] in H. lia.
    + intros [p Hp]. discriminate.
Qed.

(** Frame [c] leaves events of frame [c] only. *)
Lemma frame_of_event (frame : ndarray) (slides : list ndarray) (c : Z)
    (e : VideoProcessor.event) :
  In e (fst (VideoProcessor.process_frame self total_frames frame slides c)) ->
  (7 * c + 1 <= stamp e <= 7 * c + 6)%Z /\ (c mod VideoProcessor.frame_skip self)%Z = 0%Z.
Proof.
  intros He. split.
  - exact (segment_in (process_frame_segment self total_frames frame slides c) He).
  - exact (proj2 (process_frame_silent self total_frames frame slides c e He)).
Qed.

Lemma sampling_of_run (frames : list ndarray) :
  forall slides c i,
    In (VideoProcessor.Decoded i)
       (fst (VideoProcessor.read_frames self total_frames frames slides c)) ->
    (c <= i)%Z /\
    (In (VideoProcessor.Sampled i)
        (fst (VideoProcessor.read_frames self total_frames frames slides c)) <->
     (i mod VideoProcessor.frame_skip self)%Z = 0%Z) /\
    exists frame,
      nth_error frames (Z.to_nat (i - c)) = Some frame /\
      (In (VideoProcessor.Checked i)
          (fst (VideoProcessor.read_frames self total_frames frames slides c)) <->
       (i mod VideoProcessor.frame_skip self)%Z = 0%Z /\
       exists p, VideoProcessor._preprocess_frame self frame = Ok p).
Proof.
  induction frames as [|frame rest IH]; intros slides c i Hd; [contradiction|].
  pose proof (read_frames_segment self total_frames rest) as Hseg.
  rewrite read_frames_cons in Hd |- *.
  pose proof (frame_of_event frame slides c) as Hev.
  pose proof (sampled_in_frame frame slides c) as Hsam.
  pose proof (checked_in_frame frame slides c) as Hchk.
  destruct (VideoProcessor.process_frame self total_frames frame slides c)
    as [lp [slides' | e]]; cbn [fst] in *.
  - specialize (Hseg slides' (c + 1)%Z). specialize (IH slides' (c + 1)%Z).
    set (lr := fst (VideoProcessor.read_frames self total_frames rest slides' (c + 1))) in *.
    assert (Hlr : forall e, In e lr -> (7 * (c + 1) <= stamp e)%Z).
    { intros e He. apply (segment_in Hseg) in He. lia. }
    destruct Hd as [Hd | Hd].
    + inversion Hd; subst i. split; [lia|]. split.
      * split.
        -- intros [H | H]; [discriminate|]. apply in_app_or in H as [H | H].
           ++ exact (proj2 (Hev _ H)).
           ++ apply Hlr in H. cbn [stamp] in H. lia.
        -- intros H. right. apply in_or_app. left. auto.
      * exists frame. replace (Z.to_nat (c - c)) with 0%nat by lia. split; [reflexivity|].
        split.
        -- intros [H | H]; [discriminate|]. apply in_app_or in H as [H | H].
           ++ pose proof (proj2 (Hev _ H)) as Hm. split; [exact Hm|]. now apply Hchk.
           ++ apply Hlr in H. cbn [stamp] in H. lia.
        -- intros [Hm Hp]. right. apply in_or_app. left. now apply Hchk.
    + apply in_app_or in Hd as [Hd | Hd].
      { apply Hev in Hd as [Hd _]. cbn [stamp] in Hd. lia. }
      destruct (IH i Hd) as (Hci & Hs & frame' & Hn & Hc).
      split; [lia|]. split.
      * rewrite <- Hs. split.
        -- intros [H | H]; [discriminate|]. apply in_app_or in H as [H | H]; [|exact H].
           apply Hev in H as [H _]. cbn [stamp] in H. lia.
        -- intros H. right. apply in_or_app. now right.
      * exists frame'. split.
        -- replace (Z.to_nat (i - c)) with (S (Z.to_nat (i - (c + 1)))) by lia. exact Hn.
        -- rewrite <- Hc. split.
           ++ intros [H | H]; [discriminate|]. apply in_app_or in H as [H | H]; [|exact H].
              apply Hev in H as [H _]. cbn [stamp] in H. lia.
           ++ intros H. right. apply in_or_app. now right.
  - destruct Hd as [Hd | Hd].
    + inversion Hd; subst i. split; [lia|]. split.
      * split.
        -- intros [H | H]; [discriminate|]. exact (proj2 (Hev _ H)).
        -- intros H. right. auto.
      * exists frame. replace (Z.to_nat (c - c)) with 0%nat by lia. split; [reflexivity|].
        split.
        -- intros [H | H]; [discriminate|].
           pose proof (proj2 (Hev _ H)) as Hm. split; [exact Hm|]. now apply Hchk.
        -- intros [Hm Hp]. right. now apply Hchk.
    + apply Hev in Hd as [Hd _]. cbn [stamp] in Hd. lia.
Qed.

End Sampling.

(** The events of [extract_slides] other than its two summary lines are
    those of its loop. *)
Lemma extract_slides_events {cv : Cv2} {sk : Skimage} (self : VideoProcessor.t)
    (video_path : string) (e : VideoProcessor.event) :
  isOpened (VideoCapture video_path) = true ->
  (forall line, e <> VideoProcessor.Printed line) ->
  In e (fst (VideoProcessor.extract_slides self video_path)) <->
  In e (fst (VideoProcessor.read_frames self (CAP_PROP_FRAME_COUNT (VideoCapture video_path))
               (stream (VideoCapture video_path)) [] 0)).
Proof.
  intros Ho Hne. rewrite (extract_slides_run self video_path Ho). cbn zeta.
  destruct (VideoProcessor.read_frames self _ (stream (VideoCapture video_path)) [] 0)
    as [l [st | x]]; cbn [fst snd]; destruct (VideoProcessor.debug_mode self);
    rewrite ?in_app_iff; cbn [In]; split; intros H;
    repeat match goal with
    | H : _ \/ _ |- _ => destruct H
    | H : False |- _ => contradiction
    | H : VideoProcessor.Printed _ = e |- _ => symmetry in H; apply Hne in H; contradiction
    end; auto.
Qed.

(** ** The invariant of the slide list *)

Section Invariant.
Context {cv : Cv2} {sk : Skimage}.
Variable self : VideoProcessor.t.
Let det : SlideDetector.t := VideoProcessor.slide_detector self.






(** The run over a stream passes through the state reached on each of its
    prefixes. *)
Lemma read_frames_app (total : Z) (frames1 frames2 : list ndarray) :
  forall slides c,
    VideoProcessor.read_frames self total (frames1 ++ frames2) slides c =
    bind (VideoProcessor.read_frames self total frames1 slides c)
         (fun st => VideoProcessor.read_frames self total frames2 (fst st) (snd st)).
Proof.
  induction frames1 as [|frame rest IH]; intros slides c.
  - cbn [app VideoProcessor.read_frames]. now rewrite bind_ret.
  - cbn [app]. rewrite !read_frames_cons.
    destruct (VideoProcessor.process_frame self total frame slides c) as [lp [s | e]];
      [|reflexivity].
    rewrite IH. unfold bind.
    destruct (VideoProcessor.read_frames self total rest s (c + 1)) as [lr [st | e]];
      cbn [fst snd]; [|reflexivity].
    destruct (VideoProcessor.read_frames self total frames2 (fst st) (snd st)).
    cbn [fst snd]. now rewrite app_assoc.
Qed.

End Invariant.



(** ** The slide list only grows, and the first frame opens it *)

Section Growth.
Context {cv : Cv2} {sk : Skimage}.
Variable self : VideoProcessor.t.
Variable total : Z.



(** The frame of index 0 on an empty slide list: sampled, checked without a
    comparison and appended. *)
Lemma process_first_frame (frame : ndarray) :
  VideoProcessor.frame_skip self <> 0%Z ->
  VideoProcessor.process_frame self total frame [] 0 =
  match VideoProcessor._preprocess_frame self frame with
  | Raise e => (sampled_head self total 0, Raise e)
  | Ok p =>
    (sampled_head self total 0 ++
       [VideoProcessor.Checked 0; VideoProcessor.Appended 0] ++ found_tail self 0 1,
     Ok [p])
  end.
Proof.
  intros Hk. rewrite process_frame_sampled by (assumption || now apply Z.mod_0_l).
  destruct (VideoProcessor._preprocess_frame self frame) as [p | e]; [|reflexivity].
  cbn [SlideDetector.is_new_slide ret fst snd map app List.length].
  now rewrite <- app_assoc.
Qed.


End Growth.

(** ** When the comparisons complete *)

Section Completion.
Context {cv : Cv2} {sk : Skimage}.
Hypothesis contract : Contract.
Variable det : SlideDetector.t.

Lemma shape_eqb_eq (s1 s2 : list Z) : shape_eqb s1 s2 = true <-> s1 = s2.
Proof. unfold shape_eqb. destruct (list_eq_dec Z.eq_dec s1 s2); split; congruence. Qed.

(** The stored slide as the scorer receives it: of the candidate's shape. *)
Lemma stored_slide_matched (g s : ndarray) (h w : Z) :
  shape g = [h; w] -> (0 < h)%Z -> (0 < w)%Z -> colour_frame s ->
  exists existing_gray,
    shape existing_gray = [h; w] /\
    SlideDetector.score_against det g s = ssim g existing_gray.
Proof.
  intros Hg Hh Hw (h' & w' & Hs & Hh' & Hw').
  unfold SlideDetector.score_against, SlideDetector._calculate_similarity.
  rewrite Hs. cbn [List.length Nat.eqb].
  destruct (cvtColor_shape contract s h' w' Hs Hh' Hw') as (eg & -> & Heg).
  destruct (shape_eqb (shape eg) (shape g)) eqn:Heq; cbn [negb].
  - exists eg. apply shape_eqb_eq in Heq. rewrite Heq, Hg. auto.
  - rewrite Hg. cbn [getitem nth_error].
    destruct (resize_shape contract eg h' w' h w Heg Hh' Hw' Hh Hw) as (r & -> & Hr).
    exists r. auto.
Qed.

Lemma score_against_returns (g s : ndarray) (h w : Z) :
  shape g = [h; w] -> (7 <= h)%Z -> (7 <= w)%Z -> colour_frame s ->
  exists v, SlideDetector.score_against det g s = Ok v.
Proof.
  intros Hg Hh Hw Hs.
  destruct (stored_slide_matched g s h w Hg ltac:(lia) ltac:(lia) Hs) as (eg & Heg & ->).
  exact (ssim_returns contract g eg h w Hg Heg Hh Hw).
Qed.

Lemma score_against_refuses (g s : ndarray) (h w : Z) :
  shape g = [h; w] -> (0 < h)%Z -> (0 < w)%Z -> (h < 7 \/ w < 7)%Z -> colour_frame s ->
  exists e, SlideDetector.score_against det g s = Raise e.
Proof.
  intros Hg Hh Hw Hsmall Hs.
  destruct (stored_slide_matched g s h w Hg Hh Hw Hs) as (eg & Heg & ->).
  exact (ssim_refuses contract g eg h w Hg Hsmall).
Qed.

Lemma compare_all_returns (g : ndarray) (slides : list ndarray) :
  (forall s, In s slides -> exists v, SlideDetector.score_against det g s = Ok v) ->
  forall j, exists l b, SlideDetector.compare_all det g j slides = (l, Ok b).
Proof.
  induction slides as [|s slides IH]; intros Hall j.
  - exists [], true. reflexivity.
  - rewrite compare_all_cons.
    destruct (Hall s (or_introl eq_refl)) as [v ->].
    destruct (1 - SlideDetector.similarity_threshold det <? v)%float; [eauto|].
    destruct (IH (fun x Hx => Hall x (or_intror Hx)) (S j)) as (l & b & ->).
    cbn [fst snd]. eauto.
Qed.

(** A colour candidate no smaller than the scorer's window is answered. *)
Lemma is_new_slide_returns (frame : ndarray) (h w : Z) (slides : list ndarray) :
  shape frame = [h; w; 3%Z] -> (7 <= h)%Z -> (7 <= w)%Z ->
  (forall s, In s slides -> colour_frame s) ->
  exists l b, SlideDetector.is_new_slide det frame slides = (l, Ok b).
Proof.
  intros Hf Hh Hw Hs.
  destruct slides as [|s0 rest]; [exists [], true; reflexivity|].
  destruct (cvtColor_shape contract frame h w Hf ltac:(lia) ltac:(lia)) as (g & Hg & Hgs).
  rewrite is_new_slide_nonempty, Hg by discriminate.
  apply compare_all_returns. intros s Hin.
  exact (score_against_returns g s h w Hgs Hh Hw (Hs s Hin)).
Qed.

End Completion.

(** The reference libraries keep the contract. *)
Lemma reference_contract (videos : list (string * list ndarray)) (writable : string -> bool) :
  Contract (cv := OpenCV.reference videos writable) (sk := skimage_binary64).
Proof.
  constructor; cbn [cvtColor_BGR2GRAY resize ssim OpenCV.reference skimage_binary64].
  - intros src h w Hs Hh Hw. unfold OpenCV.cvtColor_BGR2GRAY. rewrite Hs.
    apply Z.ltb_lt in Hh, Hw. rewrite Hh, Hw. cbn [andb orb Z.eqb Pos.eqb]. eauto.
  - intros src h0 w0 h w Hs Hh0 Hw0 Hh Hw. unfold OpenCV.resize. rewrite Hs.
    apply Z.ltb_lt in Hh0, Hw0, Hh, Hw. rewrite Hh0, Hw0, Hh, Hw. cbn [andb]. eauto.
  - intros a b h w Ha Hb Hh Hw. unfold SSIM.structural_similarity.
    rewrite Ha, Hb. unfold shape_eqb.
    destruct (list_eq_dec Z.eq_dec [h; w] [h; w]) as [_ | Hne]; [|congruence].
    cbn [negb]. apply Z.ltb_ge in Hh, Hw. unfold SSIM.win_size.
    change (Z.of_nat 7) with 7%Z. rewrite Hh, Hw. cbn [orb]. eauto.
  - intros a b h w Ha Hsmall. unfold SSIM.structural_similarity.
    destruct (negb (shape_eqb (shape a) (shape b))); [eauto|].
    rewrite Ha. unfold SSIM.win_size. change (Z.of_nat 7) with 7%Z.
    destruct Hsmall as [H | H]; apply Z.ltb_lt in H; rewrite H; rewrite ?orb_true_r;
      cbn [orb]; eauto.
Qed.

(** The stored slide as the specification has it compared: converted to
    grayscale and, when its shape differs, resized to the candidate's. *)
Lemma matched_shape {cv : Cv2} {sk : Skimage} (g s : ndarray) (h w : Z) :
  Contract -> shape g = [h; w] -> (0 < h)%Z -> (0 < w)%Z -> colour_frame s ->
  exists existing_gray, matched g s = Ok existing_gray /\ shape existing_gray = [h; w].
Proof.
  intros Hc Hg Hh Hw (h' & w' & Hs & Hh' & Hw').
  unfold matched, luminance. rewrite Hs.
  destruct (cvtColor_shape Hc s h' w' Hs Hh' Hw') as (eg & -> & Heg).
  destruct (shape_eqb (shape eg) (shape g)) eqn:Heq.
  - exists eg. apply shape_eqb_eq in Heq. rewrite Heq, Hg. auto.
  - rewrite Hg.
    destruct (resize_shape Hc eg h' w' h w Heg Hh' Hw' Hh Hw) as (r & -> & Hr).
    exists r. auto.
Qed.

(** C7, as the code has it.  With libraries that keep their contract, a
    colour candidate of [h] rows and [w] columns and stored colour slides:
    on an empty slide list [is_new_slide] returns at once.  The candidate is
    converted to a grayscale image of [h] rows and [w] columns, and each
    stored slide is converted and, when its shape differs, resized, so that
    the scorer receives it with the candidate's shape: neither the
    conversion nor the resizing raises, whatever the sizes.  On a non-empty
    slide list the call completes exactly when the candidate has at least 7
    rows and 7 columns, whatever its aspect ratio; for a smaller candidate
    the scorer raises on the first stored slide, resized, and the call ends
    at that first comparison with the scorer's exception. *)
Theorem is_new_slide_completes {cv : Cv2} {sk : Skimage} (det : SlideDetector.t)
    (frame : ndarray) (h w : Z) (slides : list ndarray) :
  Contract ->
  shape frame = [h; w; 3%Z] -> (0 < h)%Z -> (0 < w)%Z ->
  (forall s, In s slides -> colour_frame s) ->
  SlideDetector.is_new_slide det frame [] = ([], Ok true) /\
  exists g,
    cvtColor_BGR2GRAY frame = Ok g /\ shape g = [h; w] /\
    (forall s, In s slides ->
       exists existing_gray,
         matched g s = Ok existing_gray /\ shape existing_gray = [h; w] /\
         SlideDetector.score_against det g s = ssim g existing_gray) /\
    (slides <> [] ->
     ((exists l b, SlideDetector.is_new_slide det frame slides = (l, Ok b)) <->
      (7 <= h /\ 7 <= w)%Z) /\
     ((h < 7 \/ w < 7)%Z ->
      exists s rest existing_gray e,
        slides = s :: rest /\ matched g s = Ok existing_gray /\
        ssim g existing_gray = Raise e /\
        SlideDetector.is_new_slide det frame slides =
          ([SlideDetector.Compared 0], Raise e))).
Proof.
  intros Hc Hf Hh Hw Hs. split; [reflexivity|].
  destruct (cvtColor_shape Hc frame h w Hf Hh Hw) as (g & Hg & Hgs).
  exists g. split; [exact Hg|]. split; [exact Hgs|].
  assert (Hm : forall s, In s slides ->
       exists existing_gray,
         matched g s = Ok existing_gray /\ shape existing_gray = [h; w] /\
         SlideDetector.score_against det g s = ssim g existing_gray).
  { intros s Hin.
    destruct (matched_shape g s h w Hc Hgs Hh Hw (Hs s Hin)) as (eg & Heg & Hes).
    exists eg. split; [exact Heg|]. split; [exact Hes|].
    rewrite score_against_as_specified. unfold comparison_score. now rewrite Heg. }
  split; [exact Hm|]. intros Hne.
  assert (Hsmall : (h < 7 \/ w < 7)%Z ->
      exists s rest existing_gray e,
        slides = s :: rest /\ matched g s = Ok existing_gray /\
        ssim g existing_gray = Raise e /\
        SlideDetector.is_new_slide det frame slides =
          ([SlideDetector.Compared 0], Raise e)).
  { intros Hlt. rewrite is_new_slide_nonempty, Hg by assumption.
    destruct slides as [|s rest]; [congruence|].
    destruct (Hm s (or_introl eq_refl)) as (eg & Heg & Hes & Hscore).
    destruct (ssim_refuses Hc g eg h w Hgs Hlt) as [e He].
    exists s, rest, eg, e. split; [reflexivity|]. split; [exact Heg|]. split; [exact He|].
    rewrite compare_all_cons, Hscore, He. reflexivity. }
  split; [|exact Hsmall]. split.
  - intros (l & b & H).
    destruct (Z_lt_le_dec h 7) as [Hlt | Hge]; [|destruct (Z_lt_le_dec w 7) as [Hlt | Hge']].
    + destruct (Hsmall (or_introl Hlt)) as (s & rest & eg & e & _ & _ & _ & He). congruence.
    + destruct (Hsmall (or_intror Hlt)) as (s & rest & eg & e & _ & _ & _ & He). congruence.
    + auto.
  - intros [H7h H7w]. exact (is_new_slide_returns Hc det frame h w slides Hf H7h H7w Hs).
Qed.

(** A candidate of 7 rows and 40 columns against a stored 7 x 7 slide: the
    slide is converted, resized to 7 x 40 and scored. *)
Lemma is_new_slide_completes_witness :
  exists g existing_gray l b,
    cvtColor_BGR2GRAY (Cv2 := Samples.cv) (Samples.solid 7 40 0 0 255) = Ok g /\
    matched (cv := Samples.cv) g Samples.blue = Ok existing_gray /\
    shape existing_gray = [7; 40]%Z /\
    SlideDetector.is_new_slide (cv := Samples.cv) (sk := Samples.sk)
      (SlideDetector.__init__ 0.15%float) (Samples.solid 7 40 0 0 255) [Samples.blue] =
    (l, Ok b).
Proof.
  destruct (is_new_slide_completes (cv := Samples.cv) (sk := Samples.sk)
              (SlideDetector.__init__ 0.15%float) (Samples.solid 7 40 0 0 255) 7 40
              [Samples.blue] (reference_contract Samples.videos Samples.writable)
              eq_refl eq_refl eq_refl
              (fun s Hs => match Hs with
                           | or_introl E =>
                             eq_ind Samples.blue colour_frame
                               (ex_intro _ 7%Z
                                  (ex_intro _ 7%Z (conj eq_refl (conj eq_refl eq_refl))))
                               s E
                           | or_intror F => False_ind _ F
                           end))
    as (_ & g & Hg & _ & Hm & Hrun).
  destruct (Hm Samples.blue (or_introl eq_refl)) as (existing_gray & Hmatched & Hshape & _).
  destruct (proj2 (proj1 (Hrun ltac:(discriminate)))) as (l & b & Hnew).
  - split; vm_compute; discriminate.
  - exists g, existing_gray, l, b. auto.
Defined.

(** C7, as the claim has it, fails: a candidate of one pixel against one
    stored slide raises, in the scorer. *)
Lemma is_new_slide_raises_on_one_pixel :
  SlideDetector.is_new_slide (cv := Samples.cv) (sk := Samples.sk)
    (SlideDetector.__init__ 0.15%float) Samples.dot [Samples.dot] =
  ([SlideDetector.Compared 0], Raise (ValueError "win_size exceeds image extent.")).
Proof. vm_compute. reflexivity. Qed.

(** ** Videos on which every library call returns *)

Lemma plain_frame_preprocessed {cv : Cv2} (self : VideoProcessor.t)
    (f : ndarray) :
  plain_frame f -> VideoProcessor._preprocess_frame self f = Ok f.
Proof.
  intros (h & w & Hs & Hh & Hw). unfold VideoProcessor._preprocess_frame. rewrite Hs.
  destruct (Z.gtb_spec (Z.max h w) 1024); [lia | reflexivity].
Qed.

Lemma plain_frame_scorable {cv : Cv2} (self : VideoProcessor.t)
    (f : ndarray) :
  plain_frame f -> scorable self f.
Proof.
  intros Hf. pose proof (plain_frame_preprocessed self f Hf) as Hp.
  destruct Hf as (h & w & Hs & Hh & Hw). exists f, h, w. repeat split; (assumption || lia).
Qed.

Lemma scorable_frames_return {cv : Cv2} {sk : Skimage} (self : VideoProcessor.t)
    (video : list ndarray) :
  Contract -> (forall f, In f video -> scorable self f) -> library_calls_return self video.
Proof.
  intros Hc Hsc. split.
  - intros f Hf. destruct (Hsc f Hf) as (p & _ & _ & Hp & _). eauto.
  - intros f p slides Hf Hp Hsl.
    destruct (Hsc f Hf) as (p' & h & w & Hp' & Hs & Hh & Hw).
    assert (p' = p) by congruence. subst p'.
    apply (is_new_slide_returns Hc (VideoProcessor.slide_detector self) p h w slides Hs Hh Hw).
    intros x Hx. destruct (Hsl x Hx) as (f' & Hf' & Hx').
    destruct (Hsc f' Hf') as (x' & h' & w' & Hx'' & Hs' & Hh' & Hw').
    assert (x' = x) by congruence. subst x'.
    exists h', w'. repeat split; (assumption || lia).
Qed.

(** The sample frames of 7 x 7 pixels are plain. *)
Lemma plain_solid_7 (b g r : Z) : plain_frame (Samples.solid 7 7 b g r).
Proof. exists 7%Z, 7%Z. repeat split; (reflexivity || lia). Qed.

(** ** The first frame *)




(** ** A video without motion *)

Section Still.
Context {cv : Cv2} {sk : Skimage}.
Variable self : VideoProcessor.t.
Variable total : Z.
Variables frame p g : ndarray.
Hypothesis skip_nonzero : VideoProcessor.frame_skip self <> 0%Z.
Hypothesis frame_preprocessed : VideoProcessor._preprocess_frame self frame = Ok p.
Hypothesis frame_gray : cvtColor_BGR2GRAY p = Ok g.
Hypothesis resembles_itself : rejects (VideoProcessor.slide_detector self) g p = true.

Lemma same_frame_rejected (c : Z) :
  snd (VideoProcessor.process_frame self total frame [p] c) = Ok [p].
Proof.
  destruct (Z.eq_dec (c mod VideoProcessor.frame_skip self) 0) as [Hc | Hc].
  - rewrite process_frame_sampled, frame_preprocessed by assumption. cbn zeta.
    rewrite is_new_slide_nonempty, frame_gray by discriminate.
    rewrite (compare_all_rejected _ g p [] 0 resembles_itself). reflexivity.
  - now rewrite process_frame_skipped by assumption.
Qed.

Lemma still_frames_keep_one (frames : list ndarray) :
  (forall f, In f frames -> f = frame) ->
  forall c, exists l c',
    VideoProcessor.read_frames self total frames [p] c = (l, Ok ([p], c')).
Proof.
  induction frames as [|f rest IH]; intros Hall c.
  - exists [], c. reflexivity.
  - rewrite read_frames_cons. rewrite (Hall f (or_introl eq_refl)).
    pose proof (same_frame_rejected c) as Hp.
    destruct (VideoProcessor.process_frame self total frame [p] c) as [lp r].
    cbn [snd] in Hp. subst r.
    destruct (IH (fun x Hx => Hall x (or_intror Hx)) (c + 1)%Z) as (l & c' & ->).
    cbn [fst snd]. eauto.
Qed.

End Still.

(** C5, as the code has it.  With a frame skip [k >= 1], a video that yields
    at least one frame and whose frames are all the same, a frame that is
    preprocessed and scores 1.0 against itself, and a threshold [t] for which
    [1.0 - t < 1.0] holds in binary64, [extract_slides] returns exactly one
    slide: the preprocessed first frame. *)
Theorem still_video_one_slide {cv : Cv2} {sk : Skimage}
    (t : float) (k : Z) (debug : bool) (video_path : string)
    (frame : ndarray) (rest : list ndarray) (p g : ndarray) :
  (1 <= k)%Z ->
  isOpened (VideoCapture video_path) = true ->
  stream (VideoCapture video_path) = frame :: rest ->
  (forall f, In f rest -> f = frame) ->
  VideoProcessor._preprocess_frame (VideoProcessor.__init__ t k debug) frame = Ok p ->
  cvtColor_BGR2GRAY p = Ok g ->
  SlideDetector.score_against (SlideDetector.__init__ t) g p = Ok 1%float ->
  (1 - t <? 1)%float = true ->
  snd (VideoProcessor.extract_slides (VideoProcessor.__init__ t k debug) video_path) = Ok [p].
Proof.
  intros Hk Ho Hs Hall Hp Hg Hscore Ht.
  set (self := VideoProcessor.__init__ t k debug) in *.
  assert (Hk0 : VideoProcessor.frame_skip self <> 0%Z) by (cbn; lia).
  assert (Hrej : rejects (VideoProcessor.slide_detector self) g p = true).
  { unfold rejects. cbn [self VideoProcessor.__init__ VideoProcessor.slide_detector].
    rewrite Hscore. exact Ht. }
  rewrite (extract_slides_run self video_path Ho). cbn zeta.
  rewrite Hs, read_frames_cons, process_first_frame, Hp by assumption.
  destruct (still_frames_keep_one self (CAP_PROP_FRAME_COUNT (VideoCapture video_path))
              frame p g Hk0 Hp Hg Hrej rest Hall (0 + 1)%Z) as (l & c' & ->).
  reflexivity.
Qed.

(** [still.mp4], four times the same frame, with the default threshold. *)
Lemma still_video_one_slide_witness :
  snd (VideoProcessor.extract_slides (cv := Samples.cv) (sk := Samples.sk)
         (VideoProcessor.__init__ 0.15%float 1 false) "still.mp4") = Ok [Samples.red].
Proof.
  apply (still_video_one_slide (cv := Samples.cv) (sk := Samples.sk)
           0.15%float 1 false "still.mp4" Samples.red
           [Samples.red; Samples.red; Samples.red] Samples.red
           (mk_ndarray [7; 7]%Z (repeat 76%Z 49))).
  - vm_compute. discriminate.
  - reflexivity.
  - reflexivity.
  - intros f Hf. cbn [In] in Hf. repeat (destruct Hf as [<- | Hf]; [reflexivity|]).
    contradiction.
  - vm_compute. reflexivity.
  - vm_compute. reflexivity.
  - vm_compute. reflexivity.
  - vm_compute. reflexivity.
Defined.

(** C5, as the claim has it, fails twice.  A video that opens and yields no
    frame has all its frames identical and gives no slide; and the threshold
    2^-60, which lies in (0, 1], is lost in [1.0 - t], so that a frame that
    scores 1.0 against the stored one is kept: [still.mp4] gives four
    slides. *)
Lemma still_video_not_one_slide :
  (isOpened (VideoCapture (Cv2 := Samples.cv) "empty.mp4") = true /\
   stream (VideoCapture (Cv2 := Samples.cv) "empty.mp4") = [] /\
   VideoProcessor.extract_slides (cv := Samples.cv) (sk := Samples.sk)
     (VideoProcessor.__init__ 0.15%float 1 false) "empty.mp4" = ([], Ok [])) /\
  ((0 <? 0x1p-60)%float = true /\ (0x1p-60 <=? 1)%float = true /\
   stream (VideoCapture (Cv2 := Samples.cv) "still.mp4") =
     [Samples.red; Samples.red; Samples.red; Samples.red] /\
   snd (VideoProcessor.extract_slides (cv := Samples.cv) (sk := Samples.sk)
          (VideoProcessor.__init__ 0x1p-60%float 1 false) "still.mp4") =
     Ok [Samples.red; Samples.red; Samples.red; Samples.red]).
Proof. repeat split; vm_compute; reflexivity. Qed.

(** ** The configuration is not validated *)




(** ** Saving the slides *)

Lemma ends_with_refl (s : string) : OpenCV.ends_with s s = true.
Proof. destruct s; cbn [OpenCV.ends_with]; now rewrite String.eqb_refl. Qed.

Lemma ends_with_append (suffix s1 s2 : string) :
  OpenCV.ends_with suffix s2 = true -> OpenCV.ends_with suffix (s1 ++ s2) = true.
Proof.
  intros H. induction s1 as [|c s1 IH]; [exact H|].
  cbn [String.append OpenCV.ends_with]. rewrite IH. apply orb_true_r.
Qed.

Lemma slide_path_jpg (output_dir : string) (i : nat) :
  OpenCV.ends_with ".jpg" (slide_path output_dir i) = true.
Proof.
  assert (H : OpenCV.ends_with ".jpg" ("slide_" ++ format_03d (i + 1) ++ ".jpg") = true).
  { apply ends_with_append, ends_with_append, ends_with_refl. }
  unfold slide_path, path_join. destruct output_dir as [|c d]; [exact H|].
  destruct (ends_with_slash (String c d)).
  - apply ends_with_append. exact H.
  - apply ends_with_append, ends_with_append. exact H.
Qed.

(** C8, as the code has it.  [save_slide] discards the status of
    [cv2.imwrite]: it returns [None] whether the write succeeded or not, and
    leaves the disk as the write left it.  The saving loop therefore goes
    through every slide: when no call of [cv2.imwrite] raises, it returns
    normally after attempting each write in order, the failed ones included. *)
Theorem save_slide_reports_nothing {cv : Cv2} (self : VideoProcessor.t) :
  (forall slide output_path d b d',
     imwrite output_path slide d = (Ok b, d') ->
     VideoProcessor.save_slide self slide output_path d = (Ok tt, d')) /\
  (forall output_dir slides i d,
     (forall j s d0, exists b, fst (imwrite (slide_path output_dir j) s d0) = Ok b) ->
     save_slides self output_dir i slides d =
     (Ok tt,
      fold_left (fun d0 js => snd (imwrite (slide_path output_dir (fst js)) (snd js) d0))
                (combine (seq i (List.length slides)) slides) d)).
Proof.
  assert (H1 : forall slide output_path d b d',
     imwrite output_path slide d = (Ok b, d') ->
     VideoProcessor.save_slide self slide output_path d = (Ok tt, d')).
  { intros slide output_path d b d' H. unfold VideoProcessor.save_slide. now rewrite H. }
  split; [exact H1|].
  intros output_dir slides. induction slides as [|slide rest IH]; intros i d Hok.
  - reflexivity.
  - cbn [save_slides List.length seq combine fold_left fst snd].
    destruct (Hok i slide d) as [b Hb].
    destruct (imwrite (slide_path output_dir i) slide d) as [r d'] eqn:Hw.
    cbn [fst] in Hb. subst r. rewrite (H1 _ _ _ _ _ Hw). cbn [snd].
    exact (IH (S i) d' Hok).
Qed.

(** Three slides saved to [out]: the second write fails, the third is still
    made, and the loop returns normally. *)
Lemma save_slide_reports_nothing_witness :
  save_slides (cv := Samples.cv)
    (VideoProcessor.__init__ 0.15%float 5 false) "out" 0
    [Samples.red; Samples.blue; Samples.green] [] =
  (Ok tt, [("out/slide_003.jpg"%string, Samples.green);
           ("out/slide_001.jpg"%string, Samples.red)]).
Proof.
  rewrite (proj2 (save_slide_reports_nothing (cv := Samples.cv)
             (VideoProcessor.__init__ 0.15%float 5 false)) "out"%string).
  - vm_compute. reflexivity.
  - intros j s d0. cbn [imwrite Samples.cv OpenCV.reference]. unfold OpenCV.imwrite.
    rewrite slide_path_jpg. cbn [orb].
    destruct (Samples.writable (slide_path "out" j)); cbn [fst]; eauto.
Defined.

(** C8, as the claim has it, fails: the write to [/readonly/slide_001.jpg]
    fails, and [save_slide] returns as it does after a successful write. *)
Lemma failed_write_is_silent :
  imwrite (Cv2 := Samples.cv) "/readonly/slide_001.jpg" Samples.red [] = (Ok false, []) /\
  VideoProcessor.save_slide (cv := Samples.cv) (VideoProcessor.__init__ 0.15%float 5 false)
    Samples.red "/readonly/slide_001.jpg" [] = (Ok tt, []) /\
  VideoProcessor.save_slide (cv := Samples.cv) (VideoProcessor.__init__ 0.15%float 5 false)
    Samples.red "out/slide_001.jpg" [] = (Ok tt, [("out/slide_001.jpg"%string, Samples.red)]).
Proof. repeat split; vm_compute; reflexivity. Qed.

(** ** The scorer is symmetric *)

Section Symmetry.
Context {F : Type} {ar : Arith F}.
Hypothesis add_comm : forall x y : F, add x y = add y x.
Hypothesis mul_comm : forall x y : F, mul x y = mul y x.
Hypothesis double_swap : forall x y : F, mul (mul (of_Z 2) x) y = mul (mul (of_Z 2) y) x.

Lemma products_comm (xs : list F) : forall ys, SSIM.products xs ys = SSIM.products ys xs.
Proof.
  unfold SSIM.products. induction xs as [|x xs IH]; intros [|y ys]; cbn [combine map fst snd];
    try reflexivity.
  now rewrite mul_comm, IH.
Qed.

Lemma ssim_at_comm (wx wy : list Z) : SSIM.ssim_at wx wy = SSIM.ssim_at wy wx.
Proof.
  unfold SSIM.ssim_at. cbn zeta.
  rewrite (products_comm (map of_Z wx) (map of_Z wy)).
  rewrite (mul_comm (SSIM.average (map of_Z wx)) (SSIM.average (map of_Z wy))).
  rewrite (double_swap (SSIM.average (map of_Z wx)) (SSIM.average (map of_Z wy))).
  rewrite (add_comm (mul (SSIM.average (map of_Z wx)) (SSIM.average (map of_Z wx)))).
  rewrite (add_comm (mul SSIM.cov_norm
                       (sub (SSIM.average (SSIM.products (map of_Z wx) (map of_Z wx))) _))).
  reflexivity.
Qed.

Lemma mssim_comm (im1 im2 : ndarray) (h w : nat) :
  SSIM.mssim im1 im2 h w = SSIM.mssim im2 im1 h w.
Proof.
  unfold SSIM.mssim. f_equal. apply map_ext. intros rc. apply ssim_at_comm.
Qed.

Lemma shape_eqb_sym (s1 s2 : list Z) : shape_eqb s1 s2 = shape_eqb s2 s1.
Proof.
  unfold shape_eqb.
  destruct (list_eq_dec Z.eq_dec s1 s2), (list_eq_dec Z.eq_dec s2 s1); congruence.
Qed.

(** The scorer is symmetric on every arithmetic whose addition and
    multiplication commute. *)
Lemma ssim_symmetric_in (im1 im2 : ndarray) :
  SSIM.structural_similarity im1 im2 = SSIM.structural_similarity im2 im1.
Proof.
  unfold SSIM.structural_similarity. rewrite (shape_eqb_sym (shape im2)).
  destruct (shape_eqb (shape im1) (shape im2)) eqn:Heq; [|reflexivity].
  apply shape_eqb_eq in Heq. rewrite <- Heq. cbn [negb].
  destruct (shape im1) as [|h [|w [|]]]; try reflexivity.
  destruct ((h <? Z.of_nat SSIM.win_size)%Z || (w <? Z.of_nat SSIM.win_size)%Z)%bool;
    [reflexivity|].
  now rewrite mssim_comm.
Qed.

End Symmetry.

Lemma Qplus_comm_eq (x y : Q) : Qplus x y = Qplus y x.
Proof.
  destruct x as [a b], y as [c d]. unfold Qplus. cbn [Qnum Qden].
  f_equal; [ring | apply Pos.mul_comm].
Qed.

Lemma Qmult_comm_eq (x y : Q) : Qmult x y = Qmult y x.
Proof.
  destruct x as [a b], y as [c d]. unfold Qmult. cbn [Qnum Qden].
  f_equal; [ring | apply Pos.mul_comm].
Qed.

Lemma Qmult_double_swap (x y : Q) :
  Qmult (Qmult (inject_Z 2) x) y = Qmult (Qmult (inject_Z 2) y) x.
Proof.
  destruct x as [a b], y as [c d]. unfold Qmult, inject_Z. cbn [Qnum Qden].
  f_equal; [ring | rewrite !Pos.mul_1_l; apply Pos.mul_comm].
Qed.

(** C9.  The similarity scorer is symmetric: for all images [a] and [b], of
    equal dimensions or not, scoring [a] against [b] and [b] against [a] gives
    the same outcome, the same score or the same refusal.  The arithmetic is
    exact. *)
Theorem structural_similarity_symmetric (a b : ndarray) :
  SSIM.structural_similarity (F := Q) a b = SSIM.structural_similarity (F := Q) b a.
Proof.
  apply (ssim_symmetric_in (ar := exact) Qplus_comm_eq Qmult_comm_eq Qmult_double_swap).
Qed.

(** The same on binary64, on the grayscale images of two sample frames. *)
Lemma structural_similarity_binary64_sample :
  SSIM.structural_similarity (F := float)
    (mk_ndarray [7; 7]%Z (repeat 76%Z 49)) (mk_ndarray [7; 7]%Z (repeat 29%Z 49)) =
  SSIM.structural_similarity (F := float)
    (mk_ndarray [7; 7]%Z (repeat 29%Z 49)) (mk_ndarray [7; 7]%Z (repeat 76%Z 49)).
Proof. vm_compute. reflexivity. Qed.

(** ** Sampling more densely *)

Section Greedy.
Variable A : Type.
Variable sim : A -> A -> bool.

Lemma apart_snoc (kept : list A) (c : A) :
  apart sim kept -> existsb (sim c) kept = false -> apart sim (kept ++ [c]).
Proof.
  unfold apart. induction kept as [|a kept IH]; intros Hk Hc.
  - repeat constructor.
  - cbn [existsb] in Hc. apply orb_false_elim in Hc as [Hca Hc].
    inversion Hk as [|? ? Hf Hrest]; subst. cbn [app]. constructor.
    + apply Forall_app. split; [assumption|]. now constructor.
    + now apply IH.
Qed.

Lemma greedy_apart (cands : list A) :
  forall kept, apart sim kept -> apart sim (greedy sim kept cands).
Proof.
  induction cands as [|c cands IH]; intros kept Hk; cbn [greedy]; [assumption|].
  destruct (existsb (sim c) kept) eqn:Hc; [now apply IH|].
  apply IH. now apply apart_snoc.
Qed.

Lemma greedy_keeps (cands : list A) :
  forall kept, exists tl, greedy sim kept cands = kept ++ tl /\ incl tl cands.
Proof.
  induction cands as [|c cands IH]; intros kept; cbn [greedy].
  - exists []. split; [now rewrite app_nil_r | apply incl_refl].
  - destruct (existsb (sim c) kept).
    + destruct (IH kept) as (tl & -> & Hi). exists tl. split; [reflexivity|].
      now apply incl_tl.
    + destruct (IH (kept ++ [c])) as (tl & -> & Hi). exists (c :: tl).
      split; [now rewrite <- app_assoc|].
      intros x [<- | Hx]; [now left | right; now apply Hi].
Qed.

Lemma existsb_app_l (f : A -> bool) (l1 l2 : list A) :
  existsb f l1 = true -> existsb f (l1 ++ l2) = true.
Proof. intros H. rewrite existsb_app, H. reflexivity. Qed.

(** Every candidate resembles an element that is kept. *)
Lemma greedy_covers (cands : list A) :
  (forall c, In c cands -> sim c c = true) ->
  forall kept c, In c cands -> existsb (sim c) (greedy sim kept cands) = true.
Proof.
  induction cands as [|x cands IH]; intros Hrefl kept c Hc; [contradiction|].
  assert (Hrefl' : forall y, In y cands -> sim y y = true) by (intros; apply Hrefl; now right).
  cbn [greedy]. destruct Hc as [<- | Hc].
  - destruct (existsb (sim x) kept) eqn:Hx.
    + destruct (greedy_keeps cands kept) as (tl & -> & _). now apply existsb_app_l.
    + destruct (greedy_keeps cands (kept ++ [x])) as (tl & -> & _).
      apply existsb_app_l. rewrite existsb_app. cbn [existsb].
      rewrite (Hrefl x (or_introl eq_refl)). now rewrite orb_true_r.
  - destruct (existsb (sim x) kept); now apply IH.
Qed.

Variable U : list A.
Hypothesis sim_equivalence : equivalence_on sim U.

Lemma representatives_differ (G G' : list A) :
  incl G U -> incl G' U -> apart sim G' ->
  (forall x, In x G' -> existsb (sim x) G = true) ->
  NoDup (map (representative sim G) G').
Proof.
  destruct sim_equivalence as (_ & Hsym & Htrans).
  intros HG HG' Hap Hcov. induction G' as [|x G' IH]; [constructor|].
  inversion Hap as [|? ? Hx Hrest]; subst. cbn [map]. constructor.
  - intros Hin. apply in_map_iff in Hin as (y & Hy & HyG).
    assert (Hxin : In x U) by (apply HG'; now left).
    assert (Hyin : In y U) by (apply HG'; now right).
    destruct (representative sim G x) as [r|] eqn:Hr.
    + unfold representative in Hr, Hy. apply find_some in Hr as [HrG Hxr].
      apply find_some in Hy as [_ Hyr].
      assert (Hrin : In r U) by now apply HG.
      rewrite Forall_forall in Hx. specialize (Hx y HyG). cbn beta in Hx.
      rewrite (Htrans y r x Hyin Hrin Hxin Hyr (Hsym x r Hxin Hrin Hxr)) in Hx.
      discriminate.
    + unfold representative in Hr.
      specialize (Hcov x (or_introl eq_refl)). apply existsb_exists in Hcov as (r & HrG & Hxr).
      rewrite (find_none _ _ Hr r HrG) in Hxr. discriminate.
  - apply IH; [intros y Hy; apply HG'; now right | assumption |].
    intros y Hy. apply Hcov. now right.
Qed.

(** Fewer candidates give no more kept elements, when resemblance is an
    equivalence. *)
Lemma greedy_monotone (L L' : list A) :
  incl L U -> incl L' L ->
  (List.length (greedy sim [] L') <= List.length (greedy sim [] L))%nat.
Proof.
  intros HL HL'.
  set (G := greedy sim [] L). set (G' := greedy sim [] L').
  destruct (greedy_keeps L []) as (tl & Htl & Hi). cbn [app] in Htl. fold G in Htl.
  destruct (greedy_keeps L' []) as (tl' & Htl' & Hi'). cbn [app] in Htl'. fold G' in Htl'.
  assert (HG : incl G L) by (rewrite Htl; exact Hi).
  assert (HG' : incl G' L') by (rewrite Htl'; exact Hi').
  assert (Hrefl : forall c, In c L -> sim c c = true).
  { intros c Hc. apply (proj1 sim_equivalence). now apply HL. }
  assert (Hnd : NoDup (map (representative sim G) G')).
  { apply representatives_differ.
    - intros x Hx. now apply HL, HG.
    - intros x Hx. now apply HL, HL', HG'.
    - apply greedy_apart. constructor.
    - intros x Hx. apply (greedy_covers L Hrefl []). now apply HL', HG'. }
  assert (Hincl : incl (map (representative sim G) G') (map Some G)).
  { intros o Ho. apply in_map_iff in Ho as (x & <- & Hx).
    assert (Hcov : existsb (sim x) G = true).
    { apply (greedy_covers L Hrefl []). now apply HL', HG'. }
    apply existsb_exists in Hcov as (r & HrG & Hxr).
    destruct (representative sim G x) as [r'|] eqn:Hr.
    - apply in_map. unfold representative in Hr. now apply find_some in Hr as [? _].
    - unfold representative in Hr. rewrite (find_none _ _ Hr r HrG) in Hxr. discriminate. }
  pose proof (NoDup_incl_length Hnd Hincl) as Hlen.
  now rewrite !length_map in Hlen.
Qed.

End Greedy.

Section Density.
Context {cv : Cv2} {sk : Skimage}.
Variable self : VideoProcessor.t.
Variable total : Z.
Let det : SlideDetector.t := VideoProcessor.slide_detector self.

(** The answer of [is_new_slide], when it answers. *)
Lemma is_new_slide_verdict (p : ndarray) (slides : list ndarray)
    (l : list SlideDetector.probe) (b : bool) :
  SlideDetector.is_new_slide det p slides = (l, Ok b) ->
  b = negb (existsb (similar det p) slides).
Proof.
  destruct slides as [|s0 rest]; [intros H; now inversion H|].
  set (slides := s0 :: rest). intros H.
  rewrite is_new_slide_nonempty in H by discriminate.
  destruct (cvtColor_BGR2GRAY p) as [g | e] eqn:Hg; [|discriminate].
  assert (Hsim : forall s, similar det p s = rejects det g s).
  { intros s. unfold similar. now rewrite Hg. }
  destruct b.
  - destruct (compare_all_true det g slides 0 l H) as [Hall _].
    rewrite forallb_forall in Hall.
    destruct (existsb (similar det p) slides) eqn:Hex; [|reflexivity].
    apply existsb_exists in Hex as (s & Hs & Hr). rewrite Hsim in Hr.
    rewrite (survives_rejects det g s (Hall s Hs)) in Hr. discriminate.
  - destruct (compare_all_false det g slides 0 l H) as (S1 & s & S2 & Heq & _ & Hr & _).
    assert (Hex : existsb (similar det p) slides = true).
    { apply existsb_exists. exists s. split; [|now rewrite Hsim].
      rewrite Heq. apply in_or_app. right. now left. }
    now rewrite Hex.
Qed.

Lemma preprocessed_cons (frame p : ndarray) (frames : list ndarray) :
  VideoProcessor._preprocess_frame self frame = Ok p ->
  preprocessed self (frame :: frames) = p :: preprocessed self frames.
Proof. intros Hp. unfold preprocessed. cbn [flat_map]. now rewrite Hp. Qed.

Lemma preprocessed_in (frames : list ndarray) (p : ndarray) :
  In p (preprocessed self frames) <->
  exists f, In f frames /\ VideoProcessor._preprocess_frame self f = Ok p.
Proof.
  unfold preprocessed. rewrite in_flat_map. split; intros (f & Hf & H); exists f; split; auto.
  - destruct (VideoProcessor._preprocess_frame self f) as [q | e]; [|contradiction].
    destruct H as [<- | []]. reflexivity.
  - rewrite H. now left.
Qed.

(** With every library call returning, the loop keeps, of the preprocessed
    sampled frames, those that resemble no slide kept before. *)
Lemma read_frames_greedy (video : list ndarray) :
  VideoProcessor.frame_skip self <> 0%Z ->
  library_calls_return self video ->
  forall frames slides c,
    incl frames video ->
    (forall s, In s slides ->
       exists f, In f video /\ VideoProcessor._preprocess_frame self f = Ok s) ->
    exists l c',
      VideoProcessor.read_frames self total frames slides c =
      (l, Ok (greedy (similar det) slides
                (preprocessed self (sample (VideoProcessor.frame_skip self) c frames)), c')).
Proof.
  intros Hk [Hpre Hdet]. induction frames as [|frame rest IH]; intros slides c Hin Hsl.
  - exists [], c. reflexivity.
  - rewrite read_frames_cons. cbn [sample].
    assert (Hf : In frame video) by (apply Hin; now left).
    assert (Hrest : incl rest video) by (intros x Hx; apply Hin; now right).
    destruct (Z.eqb_spec (c mod VideoProcessor.frame_skip self) 0) as [Hc | Hc].
    + rewrite process_frame_sampled by assumption.
      destruct (Hpre frame Hf) as [p Hp]. rewrite Hp, (preprocessed_cons _ p _ Hp).
      cbn zeta. cbn [greedy].
      destruct (Hdet frame p slides Hf Hp Hsl) as (lc & b & Hnew).
      rewrite Hnew. cbn [fst snd].
      rewrite (is_new_slide_verdict p slides lc b Hnew).
      destruct (existsb (similar det p) slides); cbn [negb].
      * destruct (IH slides (c + 1)%Z Hrest Hsl) as (l & c' & ->). cbn [fst snd]. eauto.
      * destruct (IH (slides ++ [p]) (c + 1)%Z Hrest) as (l & c' & ->).
        { intros s Hs. apply in_app_or in Hs as [Hs | [<- | []]]; eauto. }
        cbn [fst snd]. eauto.
    + rewrite process_frame_skipped by assumption.
      destruct (IH slides (c + 1)%Z Hrest Hsl) as (l & c' & ->). cbn [fst snd]. eauto.
Qed.

Lemma sample_incl (k : Z) (frames : list ndarray) :
  forall c, incl (sample k c frames) frames.
Proof.
  induction frames as [|f rest IH]; intros c; cbn [sample]; [apply incl_refl|].
  destruct (c mod k =? 0)%Z.
  - intros x [<- | Hx]; [now left | right; now apply (IH (c + 1)%Z)].
  - apply incl_tl, IH.
Qed.

Lemma sample_divides (k' k : Z) (frames : list ndarray) :
  k' <> 0%Z -> k <> 0%Z -> (k' | k)%Z ->
  forall c, incl (sample k c frames) (sample k' c frames).
Proof.
  intros Hk' Hk Hdiv. induction frames as [|f rest IH]; intros c; cbn [sample];
    [apply incl_refl|].
  destruct (Z.eqb_spec (c mod k) 0) as [Hc | Hc].
  - assert (Hc' : (c mod k')%Z = 0%Z).
    { apply Z.mod_divide; [assumption|].
      apply Z.divide_trans with k; [assumption|]. now apply Z.mod_divide. }
    rewrite Hc'. cbn [Z.eqb].
    intros x [<- | Hx]; [now left | right; now apply (IH (c + 1)%Z)].
  - destruct (c mod k' =? 0)%Z; [apply incl_tl|]; apply IH.
Qed.

Lemma preprocessed_incl (frames1 frames2 : list ndarray) :
  incl frames1 frames2 -> incl (preprocessed self frames1) (preprocessed self frames2).
Proof.
  intros Hi p Hp. apply preprocessed_in in Hp as (f & Hf & Hp).
  apply preprocessed_in. exists f. auto.
Qed.

End Density.

(** C4, as the code has it.  For a fixed video and threshold, strides
    [k' >= 1] and [k >= 1] with [k'] a divisor of [k], libraries that keep
    their contract, frames that are preprocessed to colour images of at least
    7 rows and 7 columns, and a resemblance (a score above
    [1.0 - similarity_threshold]) that is an equivalence relation on the
    preprocessed frames of the video,
    the run with stride [k'] returns at least as many slides as the run with
    stride [k]. *)
Theorem denser_sampling_under_equivalence {cv : Cv2} {sk : Skimage}
    (t : float) (k' k : Z) (debug : bool) (video_path : string) :
  (1 <= k')%Z -> (1 <= k)%Z -> (k' | k)%Z ->
  isOpened (VideoCapture video_path) = true ->
  Contract ->
  (forall f, In f (stream (VideoCapture video_path)) ->
     scorable (VideoProcessor.__init__ t k debug) f) ->
  equivalence_on (similar (SlideDetector.__init__ t))
    (preprocessed (VideoProcessor.__init__ t k debug) (stream (VideoCapture video_path))) ->
  exists slides' slides,
    snd (VideoProcessor.extract_slides (VideoProcessor.__init__ t k' debug) video_path) =
      Ok slides' /\
    snd (VideoProcessor.extract_slides (VideoProcessor.__init__ t k debug) video_path) =
      Ok slides /\
    (List.length slides <= List.length slides')%nat.
Proof.
  intros Hk' Hk Hdiv Ho Hc Hsc Heq.
  pose proof (scorable_frames_return _ _ Hc Hsc) as Hlib.
  set (frames := stream (VideoCapture video_path)) in *.
  set (total := CAP_PROP_FRAME_COUNT (VideoCapture video_path)).
  set (self := VideoProcessor.__init__ t k debug) in *.
  set (self' := VideoProcessor.__init__ t k' debug).
  assert (Hlib' : library_calls_return self' frames) by exact Hlib.
  destruct (read_frames_greedy self total frames ltac:(cbn; lia) Hlib frames [] 0%Z
              (incl_refl _) ltac:(intros s []))
    as (l & c & Hr).
  destruct (read_frames_greedy self' total frames ltac:(cbn; lia) Hlib' frames [] 0%Z
              (incl_refl _) ltac:(intros s []))
    as (l' & c' & Hr').
  eexists. eexists. split; [|split].
  - rewrite (extract_slides_run self' video_path Ho). cbn zeta. fold frames total.
    rewrite Hr'. reflexivity.
  - rewrite (extract_slides_run self video_path Ho). cbn zeta. fold frames total.
    rewrite Hr. reflexivity.
  - change (VideoProcessor.slide_detector self') with (SlideDetector.__init__ t).
    change (VideoProcessor.slide_detector self) with (SlideDetector.__init__ t).
    change (preprocessed self') with (preprocessed self).
    apply (greedy_monotone ndarray (similar (SlideDetector.__init__ t))
             (preprocessed self frames) Heq).
    + apply preprocessed_incl, sample_incl.
    + apply preprocessed_incl. apply sample_divides; [cbn; lia | cbn; lia | exact Hdiv].
Qed.

(** On [stride.mp4] resemblance is an equivalence: its three colours are
    pairwise apart. *)
Lemma stride_equivalence :
  equivalence_on (similar (cv := Samples.cv) (sk := Samples.sk) (SlideDetector.__init__ 0.15%float))
    [Samples.red; Samples.green; Samples.red; Samples.blue].
Proof.
  repeat split.
  - intros a Ha. cbn [In] in Ha.
    repeat (destruct Ha as [<- | Ha]; [vm_compute; reflexivity|]). contradiction.
  - intros a b Ha Hb. cbn [In] in Ha, Hb.
    repeat (destruct Ha as [<- | Ha]; [|try contradiction]);
      repeat (destruct Hb as [<- | Hb]; [|try contradiction]);
      vm_compute; intros H; (reflexivity || discriminate).
  - intros a b c Ha Hb Hc. cbn [In] in Ha, Hb, Hc.
    repeat (destruct Ha as [<- | Ha]; [|try contradiction]);
      repeat (destruct Hb as [<- | Hb]; [|try contradiction]);
      repeat (destruct Hc as [<- | Hc]; [|try contradiction]);
      vm_compute; intros H1 H2; (reflexivity || discriminate).
Qed.

(** [stride.mp4] with strides 1 and 2: three slides and one. *)
Lemma denser_sampling_under_equivalence_witness :
  exists slides' slides,
    snd (VideoProcessor.extract_slides (cv := Samples.cv) (sk := Samples.sk)
           (VideoProcessor.__init__ 0.15%float 1 false) "stride.mp4") = Ok slides' /\
    snd (VideoProcessor.extract_slides (cv := Samples.cv) (sk := Samples.sk)
           (VideoProcessor.__init__ 0.15%float 2 false) "stride.mp4") = Ok slides /\
    (List.length slides <= List.length slides')%nat.
Proof.
  apply (denser_sampling_under_equivalence (cv := Samples.cv) (sk := Samples.sk)
           0.15%float 1 2 false "stride.mp4").
  - lia.
  - lia.
  - exists 2%Z. reflexivity.
  - reflexivity.
  - apply (reference_contract Samples.videos Samples.writable).
  - intros f Hf. cbn [In] in Hf.
    repeat (destruct Hf as [<- | Hf]; [apply plain_frame_scorable, plain_solid_7|]).
    contradiction.
  - exact stride_equivalence.
Defined.

(** C4, as the claim has it, fails.  On [stride.mp4] the stride 2 gives one
    slide and the stride 3 gives two: the frames at the multiples of 3 are not
    among those at the multiples of 2.  On [drift.mp4] the stride 1 gives two
    slides and the stride 2, a multiple of 1, gives three: a frame sampled
    only by the denser run resembles two later frames that do not resemble
    each other, and keeps both out. *)
Lemma sampling_density_not_monotone :
  (snd (VideoProcessor.extract_slides (cv := Samples.cv) (sk := Samples.sk)
          (VideoProcessor.__init__ 0.15%float 2 false) "stride.mp4") = Ok [Samples.red] /\
   snd (VideoProcessor.extract_slides (cv := Samples.cv) (sk := Samples.sk)
          (VideoProcessor.__init__ 0.15%float 3 false) "stride.mp4") =
     Ok [Samples.red; Samples.blue]) /\
  (snd (VideoProcessor.extract_slides (cv := Samples.cv) (sk := Samples.sk)
          (VideoProcessor.__init__ 0.15%float 1 false) "drift.mp4") =
     Ok [Samples.gray10; Samples.gray100] /\
   snd (VideoProcessor.extract_slides (cv := Samples.cv) (sk := Samples.sk)
          (VideoProcessor.__init__ 0.15%float 2 false) "drift.mp4") =
     Ok [Samples.gray10; Samples.gray60; Samples.gray170]).
Proof. repeat split; vm_compute; reflexivity. Qed.

(** * Further properties of the pipeline, and the entry points *)

(** ** The slides are sampled frames, in order *)

Lemma subsequence_refl {A : Type} (l : list A) : subsequence l l.
Proof. induction l; constructor; assumption. Qed.

Lemma subsequence_nil_l {A : Type} (l : list A) : subsequence [] l.
Proof. induction l; constructor; assumption. Qed.

Lemma subsequence_length {A : Type} (l1 l2 : list A) :
  subsequence l1 l2 -> (List.length l1 <= List.length l2)%nat.
Proof. induction 1; cbn [List.length]; lia. Qed.

Lemma subsequence_incl {A : Type} (l1 l2 : list A) : subsequence l1 l2 -> incl l1 l2.
Proof.
  induction 1 as [|x l1 l2 _ IH|x l1 l2 _ IH]; intros a Ha.
  - exact Ha.
  - right. now apply IH.
  - destruct Ha as [<- | Ha]; [now left | right; now apply IH].
Qed.

Section Offered.
Context {cv : Cv2} {sk : Skimage}.
Variable self : VideoProcessor.t.
Variable total : Z.
Hypothesis skip_nonzero : VideoProcessor.frame_skip self <> 0%Z.

(** The slides the loop returns, or what it raises, are those of
    [offer_all] on the sampled frames. *)
Lemma read_frames_offers (frames : list ndarray) :
  forall slides c,
    match snd (VideoProcessor.read_frames self total frames slides c) with
    | Ok st => Ok (fst st)
    | Raise e => Raise e
    end = offer_all self slides (sample (VideoProcessor.frame_skip self) c frames).
Proof.
  induction frames as [|frame rest IH]; intros slides c; [reflexivity|].
  rewrite read_frames_cons. cbn [sample].
  destruct (Z.eqb_spec (c mod VideoProcessor.frame_skip self) 0) as [Hc | Hc].
  - rewrite process_frame_sampled by assumption. cbn [offer_all].
    destruct (VideoProcessor._preprocess_frame self frame) as [p | e]; [|reflexivity].
    cbn zeta.
    destruct (snd (SlideDetector.is_new_slide (VideoProcessor.slide_detector self) p slides))
      as [[|] | e]; cbn [snd]; [apply IH | apply IH | reflexivity].
  - rewrite process_frame_skipped by assumption. cbn [snd]. apply IH.
Qed.

Lemma offer_all_subsequence (sampled : list ndarray) :
  forall slides slides', offer_all self slides sampled = Ok slides' ->
  exists tl, slides' = slides ++ tl /\ subsequence tl (preprocessed self sampled).
Proof.
  induction sampled as [|frame rest IH]; intros slides slides' H.
  - inversion H; subst. exists []. rewrite app_nil_r. split; [reflexivity | constructor].
  - cbn [offer_all] in H. unfold preprocessed. cbn [flat_map].
    destruct (VideoProcessor._preprocess_frame self frame) as [p | e]; [|discriminate].
    destruct (snd (SlideDetector.is_new_slide (VideoProcessor.slide_detector self) p slides))
      as [[|] | e]; [| |discriminate].
    + destruct (IH _ _ H) as (tl & -> & Hsub). exists (p :: tl).
      rewrite <- app_assoc. split; [reflexivity|]. cbn [app]. now constructor.
    + destruct (IH _ _ H) as (tl & -> & Hsub). exists tl. split; [reflexivity|].
      cbn [app]. now constructor.
Qed.

End Offered.

Lemma extract_slides_offers {cv : Cv2} {sk : Skimage} (self : VideoProcessor.t)
    (video_path : string) :
  isOpened (VideoCapture video_path) = true ->
  VideoProcessor.frame_skip self <> 0%Z ->
  snd (VideoProcessor.extract_slides self video_path) =
  offer_all self [] (sample (VideoProcessor.frame_skip self) 0 (stream (VideoCapture video_path))).
Proof.
  intros Ho Hk. rewrite extract_slides_run by assumption. cbn zeta.
  rewrite <- (read_frames_offers self (CAP_PROP_FRAME_COUNT (VideoCapture video_path)) Hk).
  now destruct (snd (VideoProcessor.read_frames self _ _ [] 0)).
Qed.

Lemma extract_slides_unopened {cv : Cv2} {sk : Skimage} (self : VideoProcessor.t)
    (video_path : string) :
  isOpened (VideoCapture video_path) = false ->
  VideoProcessor.extract_slides self video_path =
  ([], Raise (ValueError ("Could not open video file: " ++ video_path)%string)).
Proof. intros Ho. unfold VideoProcessor.extract_slides. now rewrite Ho. Qed.

Lemma extract_slides_zero_skip {cv : Cv2} {sk : Skimage} (self : VideoProcessor.t)
    (video_path : string) :
  isOpened (VideoCapture video_path) = true ->
  VideoProcessor.frame_skip self = 0%Z ->
  snd (VideoProcessor.extract_slides self video_path) =
  match stream (VideoCapture video_path) with
  | [] => Ok []
  | _ :: _ => Raise ZeroDivisionError
  end.
Proof.
  intros Ho Hk. rewrite extract_slides_run by assumption. cbn zeta.
  destruct (stream (VideoCapture video_path)) as [|f rest]; [reflexivity|].
  rewrite read_frames_cons, process_frame_zero by assumption. reflexivity.
Qed.

(** X1.  The slides [extract_slides] returns are sampled frames as
    [_preprocess_frame] returns them, in the order of the video: the list is
    a subsequence of the preprocessed sampled frames. *)
Theorem slides_in_discovery_order {cv : Cv2} {sk : Skimage} (self : VideoProcessor.t)
    (video_path : string) (slides : list ndarray) :
  snd (VideoProcessor.extract_slides self video_path) = Ok slides ->
  subsequence slides
    (preprocessed self
       (sample (VideoProcessor.frame_skip self) 0 (stream (VideoCapture video_path)))).
Proof.
  intros H.
  destruct (isOpened (VideoCapture video_path)) eqn:Ho.
  - destruct (Z.eq_dec (VideoProcessor.frame_skip self) 0) as [Hk | Hk].
    + rewrite extract_slides_zero_skip in H by assumption.
      destruct (stream (VideoCapture video_path)); [|discriminate].
      inversion H; subst. constructor.
    + rewrite extract_slides_offers in H by assumption.
      destruct (offer_all_subsequence self _ _ _ H) as (tl & -> & Hsub). exact Hsub.
  - rewrite extract_slides_unopened in H by assumption. discriminate.
Qed.

(** [red_blue.mp4] with the default threshold. *)
Lemma slides_in_discovery_order_witness :
  subsequence [Samples.red; Samples.blue]
    (preprocessed (cv := Samples.cv) (VideoProcessor.__init__ 0.15%float 1 false)
       (sample 1 0 (stream (VideoCapture (Cv2 := Samples.cv) "red_blue.mp4")))).
Proof.
  apply (slides_in_discovery_order (cv := Samples.cv) (sk := Samples.sk)
           (VideoProcessor.__init__ 0.15%float 1 false) "red_blue.mp4"
           [Samples.red; Samples.blue]).
  vm_compute. reflexivity.
Defined.

Lemma small_frame_preprocessed {cv : Cv2} (self : VideoProcessor.t) (f : ndarray) :
  small_frame f -> VideoProcessor._preprocess_frame self f = Ok f.
Proof.
  intros (h & w & rest & Hs & Hm). unfold VideoProcessor._preprocess_frame. rewrite Hs.
  destruct (Z.gtb_spec (Z.max h w) 1024); [lia | reflexivity].
Qed.

Lemma small_frames_preprocessed {cv : Cv2} {sk : Skimage} (self : VideoProcessor.t)
    (frames : list ndarray) :
  (forall f, In f frames -> small_frame f) -> preprocessed self frames = frames.
Proof.
  induction frames as [|f rest IH]; intros H; [reflexivity|].
  rewrite (preprocessed_cons self f f rest).
  - f_equal. apply IH. intros x Hx. apply H. now right.
  - apply small_frame_preprocessed, H. now left.
Qed.

(** X2.  When no frame of the video has a height or a width above 1024,
    the slides [extract_slides] returns are frames of the video as they were
    read, in the order of the video: no slide is resized or otherwise
    changed. *)
Theorem small_frames_kept_as_read {cv : Cv2} {sk : Skimage} (self : VideoProcessor.t)
    (video_path : string) (slides : list ndarray) :
  (forall f, In f (stream (VideoCapture video_path)) -> small_frame f) ->
  snd (VideoProcessor.extract_slides self video_path) = Ok slides ->
  subsequence slides
    (sample (VideoProcessor.frame_skip self) 0 (stream (VideoCapture video_path))).
Proof.
  intros Hsmall H.
  rewrite <- (small_frames_preprocessed self
                (sample (VideoProcessor.frame_skip self) 0 (stream (VideoCapture video_path)))).
  - destruct (isOpened (VideoCapture video_path)) eqn:Ho.
    + destruct (Z.eq_dec (VideoProcessor.frame_skip self) 0) as [Hk | Hk].
      * rewrite extract_slides_zero_skip in H by assumption.
        destruct (stream (VideoCapture video_path)); [|discriminate].
        inversion H; subst. constructor.
      * rewrite extract_slides_offers in H by assumption.
        destruct (offer_all_subsequence self _ _ _ H) as (tl & -> & Hsub). exact Hsub.
    + rewrite extract_slides_unopened in H by assumption. discriminate.
  - intros f Hf. apply Hsmall. exact (sample_incl _ _ _ _ Hf).
Qed.

(** The frames of [red_blue.mp4] have 7 rows and 7 columns. *)
Lemma small_frames_kept_as_read_witness :
  subsequence [Samples.red; Samples.blue]
    (sample 1 0 (stream (VideoCapture (Cv2 := Samples.cv) "red_blue.mp4"))).
Proof.
  apply (small_frames_kept_as_read (cv := Samples.cv) (sk := Samples.sk)
           (VideoProcessor.__init__ 0.15%float 1 false) "red_blue.mp4"
           [Samples.red; Samples.blue]).
  - intros f Hf. exists 7%Z, 7%Z, [3%Z]. vm_compute in Hf.
    repeat (destruct Hf as [<- | Hf]; [split; [reflexivity | vm_compute; discriminate]|]).
    contradiction.
  - vm_compute. reflexivity.
Defined.

(** ** The frames that reach the detector *)

(** The events of [extract_slides] are those of its loop between the two
    summary lines of the debug mode. *)
Lemma extract_slides_log {cv : Cv2} {sk : Skimage} (self : VideoProcessor.t)
    (video_path : string) :
  isOpened (VideoCapture video_path) = true ->
  exists info summary,
    fst (VideoProcessor.extract_slides self video_path) =
      info ++
      fst (VideoProcessor.read_frames self (CAP_PROP_FRAME_COUNT (VideoCapture video_path))
             (stream (VideoCapture video_path)) [] 0) ++ summary /\
    (forall e, In e (info ++ summary) -> exists line, e = VideoProcessor.Printed line).
Proof.
  intros Ho. rewrite (extract_slides_run self video_path Ho). cbn zeta.
  destruct (VideoProcessor.read_frames self _ (stream (VideoCapture video_path)) [] 0)
    as [l [st | x]]; cbn [fst snd].
  - eexists _, _. split; [reflexivity|].
    intros e He. destruct (VideoProcessor.debug_mode self); cbn [app In] in He;
      repeat match goal with
      | H : _ \/ _ |- _ => destruct H
      | H : False |- _ => contradiction
      end; subst; eauto.
  - eexists _, []. rewrite !app_nil_r. split; [reflexivity|].
    intros e He. destruct (VideoProcessor.debug_mode self); cbn [In] in He;
      repeat match goal with
      | H : _ \/ _ |- _ => destruct H
      | H : False |- _ => contradiction
      end; subst; eauto.
Qed.

Section Submission.
Context {cv : Cv2} {sk : Skimage}.
Variable self : VideoProcessor.t.
Variable total : Z.
Hypothesis skip_nonzero : VideoProcessor.frame_skip self <> 0%Z.

(** The run up to a frame, the frame, and the rest of the run. *)
Lemma read_frames_around (pre : list ndarray) (frame : ndarray) (post slides : list ndarray)
    (c : Z) :
  match VideoProcessor.read_frames self total pre slides c with
  | (l, Raise e) =>
    VideoProcessor.read_frames self total (pre ++ frame :: post) slides c = (l, Raise e) /\
    offer_all self slides (sample (VideoProcessor.frame_skip self) c pre) = Raise e
  | (l, Ok (slides_i, c')) =>
    c' = (c + Z.of_nat (List.length pre))%Z /\
    offer_all self slides (sample (VideoProcessor.frame_skip self) c pre) = Ok slides_i /\
    snd (VideoProcessor.read_frames self total (pre ++ frame :: post) slides c) =
      match snd (VideoProcessor.process_frame self total frame slides_i c') with
      | Raise e => Raise e
      | Ok slides' => snd (VideoProcessor.read_frames self total post slides' (c' + 1))
      end /\
    exists rest,
      fst (VideoProcessor.read_frames self total (pre ++ frame :: post) slides c) =
        l ++ VideoProcessor.Decoded c' ::
          fst (VideoProcessor.process_frame self total frame slides_i c') ++ rest /\
      segment (7 * (c' + 1)) (7 * (c' + 1 + Z.of_nat (List.length post)) - 1) rest
  end.
Proof.
  pose proof (read_frames_offers self total skip_nonzero pre slides c) as Hoff.
  pose proof (read_frames_count self total pre slides c) as Hcount.
  rewrite read_frames_app.
  destruct (VideoProcessor.read_frames self total pre slides c) as [l [[slides_i c'] | e]];
    cbn [fst snd] in *.
  - split; [eapply Hcount; reflexivity|]. split; [now symmetry|].
    unfold bind. cbn [fst snd]. rewrite read_frames_cons.
    pose proof (read_frames_segment self total post) as Hseg.
    destruct (VideoProcessor.process_frame self total frame slides_i c') as [lp [s | e]];
      cbn [fst snd].
    + split; [reflexivity|].
      exists (fst (VideoProcessor.read_frames self total post s (c' + 1))).
      split; [reflexivity | apply Hseg].
    + split; [reflexivity|].
      exists []. rewrite app_nil_r. split; [reflexivity | apply segment_nil].
  - split; [reflexivity | now symmetry].
Qed.

(** What a sampled frame whose preprocessing returned leaves: the check, the
    comparisons of the call of [is_new_slide] on the slides so far, and the
    appending when that call returned [True]. *)
Lemma process_frame_checked (frame p : ndarray) (slides : list ndarray) (c : Z) :
  (c mod VideoProcessor.frame_skip self)%Z = 0%Z ->
  VideoProcessor._preprocess_frame self frame = Ok p ->
  exists after,
    fst (VideoProcessor.process_frame self total frame slides c) =
      sampled_head self total c ++
      VideoProcessor.Checked c ::
      map (scored_at c)
          (fst (SlideDetector.is_new_slide (VideoProcessor.slide_detector self) p slides)) ++
      after /\
    segment (7 * c + 5) (7 * c + 6) after /\
    (In (VideoProcessor.Appended c) after <->
     snd (SlideDetector.is_new_slide (VideoProcessor.slide_detector self) p slides) = Ok true).
Proof.
  intros Hc Hp. rewrite process_frame_sampled, Hp by assumption. cbn zeta.
  destruct (snd (SlideDetector.is_new_slide (VideoProcessor.slide_detector self) p slides))
    as [[|] | e]; cbn [fst].
  - exists (VideoProcessor.Appended c :: found_tail self c (List.length (slides ++ [p]))).
    split; [now rewrite <- app_assoc|]. split; [apply appended_segment|].
    split; [reflexivity | intros _; now left].
  - exists []. rewrite app_nil_r. split; [reflexivity|]. split; [apply segment_nil|].
    split; [contradiction | discriminate].
  - exists []. rewrite app_nil_r. split; [reflexivity|]. split; [apply segment_nil|].
    split; [contradiction | discriminate].
Qed.

(** A sampled frame whose preprocessing raised leaves its selection only. *)
Lemma process_frame_unprocessed (frame : ndarray) (slides : list ndarray) (c : Z) (e : exn) :
  (c mod VideoProcessor.frame_skip self)%Z = 0%Z ->
  VideoProcessor._preprocess_frame self frame = Raise e ->
  VideoProcessor.process_frame self total frame slides c = (sampled_head self total c, Raise e).
Proof. intros Hc Hp. now rewrite process_frame_sampled, Hp by assumption. Qed.

(** The events of one frame within a run. *)
Lemma in_frame_events (info l mid rest summary : list VideoProcessor.event) (lo hi i : Z)
    (e : VideoProcessor.event) :
  (forall x, In x (info ++ summary) -> exists line, x = VideoProcessor.Printed line) ->
  segment lo (7 * i - 1) l -> segment (7 * (i + 1)) hi rest ->
  (forall line, e <> VideoProcessor.Printed line) ->
  (7 * i + 1 <= stamp e <= 7 * i + 6)%Z ->
  In e (info ++ (l ++ VideoProcessor.Decoded i :: mid ++ rest) ++ summary) <-> In e mid.
Proof.
  intros Hp Hl Hr Hne Hst. rewrite !in_app_iff. cbn [In]. rewrite in_app_iff. split.
  - intros [H | [[H | [H | [H | H]]] | H]].
    + destruct (Hp e) as [line ->]; [apply in_or_app; now left|]. now contradiction (Hne line).
    + apply (segment_in Hl) in H. lia.
    + subst e. cbn [stamp] in Hst. lia.
    + exact H.
    + apply (segment_in Hr) in H. lia.
    + destruct (Hp e) as [line ->]; [apply in_or_app; now right|]. now contradiction (Hne line).
  - intros H. right. left. right. right. now left.
Qed.

End Submission.

(** C3, as the code has it.  With a frame skip [k >= 1], the frames
    submitted to the uniqueness check are the preprocessed frames whose
    zero-based index is a multiple of [k], as long as no call raises: the
    run returns what offering these frames in order to [is_new_slide]
    returns.  For the frame of index [i]: it is decoded exactly when the run
    on the frames before it returned its slide list; it is selected exactly
    when it is decoded and [i] is a multiple of [k]; it is submitted to
    [is_new_slide] exactly when, moreover, its preprocessing returned.  The
    submission is the call of [is_new_slide] on the preprocessed frame and
    the slides of the frames before it: its comparisons are the comparisons
    of frame [i] in the run, and the frame is appended exactly when the call
    returns [True]; no comparison and no appending is made for a frame that
    was not submitted.  When the preprocessing of a selected frame raises,
    the run raises that exception.  The frame of index 0 is always decoded
    and selected, and submitted exactly when its preprocessing returned. *)
Theorem extract_slides_samples_multiples {cv : Cv2} {sk : Skimage}
    (self : VideoProcessor.t) (video_path : string)
    (pre : list ndarray) (frame : ndarray) (post : list ndarray) :
  (1 <= VideoProcessor.frame_skip self)%Z ->
  isOpened (VideoCapture video_path) = true ->
  stream (VideoCapture video_path) = pre ++ frame :: post ->
  let k := VideoProcessor.frame_skip self in
  let i := Z.of_nat (List.length pre) in
  let log := fst (VideoProcessor.extract_slides self video_path) in
  let submitted (p : ndarray) (slides_i : list ndarray) :=
    SlideDetector.is_new_slide (VideoProcessor.slide_detector self) p slides_i in
  snd (VideoProcessor.extract_slides self video_path) =
    offer_all self [] (sample k 0 (pre ++ frame :: post)) /\
  (In (VideoProcessor.Decoded i) log <->
   exists slides_i, offer_all self [] (sample k 0 pre) = Ok slides_i) /\
  (In (VideoProcessor.Sampled i) log <->
   In (VideoProcessor.Decoded i) log /\ (i mod k)%Z = 0%Z) /\
  (In (VideoProcessor.Checked i) log <->
   In (VideoProcessor.Decoded i) log /\ (i mod k)%Z = 0%Z /\
   exists p, VideoProcessor._preprocess_frame self frame = Ok p) /\
  (forall j, In (VideoProcessor.Scored i j) log -> In (VideoProcessor.Checked i) log) /\
  (In (VideoProcessor.Appended i) log -> In (VideoProcessor.Checked i) log) /\
  (forall p slides_i,
     (i mod k)%Z = 0%Z ->
     VideoProcessor._preprocess_frame self frame = Ok p ->
     offer_all self [] (sample k 0 pre) = Ok slides_i ->
     (exists before after,
        log = before ++ VideoProcessor.Checked i ::
                map (scored_at i) (fst (submitted p slides_i)) ++ after /\
        forall e, In e (before ++ after) ->
          e <> VideoProcessor.Checked i /\ forall j, e <> VideoProcessor.Scored i j) /\
     (In (VideoProcessor.Appended i) log <-> snd (submitted p slides_i) = Ok true)) /\
  (forall e slides_i,
     (i mod k)%Z = 0%Z ->
     VideoProcessor._preprocess_frame self frame = Raise e ->
     offer_all self [] (sample k 0 pre) = Ok slides_i ->
     snd (VideoProcessor.extract_slides self video_path) = Raise e) /\
  (pre = [] ->
   In (VideoProcessor.Decoded 0) log /\ In (VideoProcessor.Sampled 0) log /\
   (In (VideoProcessor.Checked 0) log <->
    exists p, VideoProcessor._preprocess_frame self frame = Ok p)).
Proof.
  intros Hk Ho Hs. cbv zeta.
  assert (Hk0 : VideoProcessor.frame_skip self <> 0%Z) by lia.
  set (k := VideoProcessor.frame_skip self) in *.
  set (i := Z.of_nat (List.length pre)).
  set (total := CAP_PROP_FRAME_COUNT (VideoCapture video_path)).
  pose proof (extract_slides_offers self video_path Ho Hk0) as Hsnd.
  fold k in Hsnd. rewrite Hs in Hsnd.
  split; [exact Hsnd|].
  cut ((In (VideoProcessor.Decoded i) (fst (VideoProcessor.extract_slides self video_path)) <->
        exists slides_i, offer_all self [] (sample k 0 pre) = Ok slides_i) /\
       (In (VideoProcessor.Sampled i) (fst (VideoProcessor.extract_slides self video_path)) <->
        In (VideoProcessor.Decoded i) (fst (VideoProcessor.extract_slides self video_path)) /\
        (i mod k)%Z = 0%Z) /\
       (In (VideoProcessor.Checked i) (fst (VideoProcessor.extract_slides self video_path)) <->
        In (VideoProcessor.Decoded i) (fst (VideoProcessor.extract_slides self video_path)) /\
        (i mod k)%Z = 0%Z /\
        exists p, VideoProcessor._preprocess_frame self frame = Ok p) /\
       (forall j,
          In (VideoProcessor.Scored i j) (fst (VideoProcessor.extract_slides self video_path)) ->
          In (VideoProcessor.Checked i) (fst (VideoProcessor.extract_slides self video_path))) /\
       (In (VideoProcessor.Appended i) (fst (VideoProcessor.extract_slides self video_path)) ->
        In (VideoProcessor.Checked i) (fst (VideoProcessor.extract_slides self video_path))) /\
       (forall p slides_i,
          (i mod k)%Z = 0%Z ->
          VideoProcessor._preprocess_frame self frame = Ok p ->
          offer_all self [] (sample k 0 pre) = Ok slides_i ->
          (exists before after,
             fst (VideoProcessor.extract_slides self video_path) =
               before ++ VideoProcessor.Checked i ::
                 map (scored_at i)
                     (fst (SlideDetector.is_new_slide (VideoProcessor.slide_detector self)
                             p slides_i)) ++ after /\
             forall e, In e (before ++ after) ->
               e <> VideoProcessor.Checked i /\ forall j, e <> VideoProcessor.Scored i j) /\
          (In (VideoProcessor.Appended i)
              (fst (VideoProcessor.extract_slides self video_path)) <->
           snd (SlideDetector.is_new_slide (VideoProcessor.slide_detector self) p slides_i) =
             Ok true)) /\
       (forall e slides_i,
          (i mod k)%Z = 0%Z ->
          VideoProcessor._preprocess_frame self frame = Raise e ->
          offer_all self [] (sample k 0 pre) = Ok slides_i ->
          snd (VideoProcessor.extract_slides self video_path) = Raise e)).
  { intros (Hdec & Hsam & Hchk & Hsc & Happ & Hsub & Hraise).
    repeat (split; [assumption|]). intros Hpre. subst i. rewrite Hpre in *.
    cbn [List.length Z.of_nat sample] in *.
    assert (Hd : In (VideoProcessor.Decoded 0)
                    (fst (VideoProcessor.extract_slides self video_path)))
      by (apply Hdec; now exists []).
    assert (H0 : (0 mod k)%Z = 0%Z) by now apply Z.mod_0_l.
    split; [exact Hd|]. split; [apply Hsam; auto|]. rewrite Hchk. tauto. }
  destruct (extract_slides_log self video_path Ho) as (info & summary & Hlog & Hprinted).
  fold total in Hlog. rewrite Hs in Hlog.
  pose proof (read_frames_offers self total Hk0 (pre ++ frame :: post) [] 0) as Hwhole.
  pose proof (read_frames_around self total Hk0 pre frame post [] 0) as Har.
  pose proof (read_frames_segment self total pre [] 0) as Hpre.
  rewrite Z.add_0_l in Hpre. fold i in Hpre.
  destruct (VideoProcessor.read_frames self total pre [] 0) as [l [[slides_i c'] | x]];
    cbn [fst] in Hpre.
  2: { (* the run ended before the frame *)
    destruct Har as [Hrun Hoff]. fold k in Hoff. rewrite Hrun in Hlog. cbn [fst] in Hlog.
    assert (Hnone : forall e, (forall line, e <> VideoProcessor.Printed line) ->
              (7 * i <= stamp e)%Z ->
              ~ In e (fst (VideoProcessor.extract_slides self video_path))).
    { intros e Hne Hst He. rewrite Hlog, !in_app_iff in He.
      destruct He as [He | [He | He]].
      - destruct (Hprinted e) as [line ->]; [apply in_or_app; now left|].
        now contradiction (Hne line).
      - apply (segment_in Hpre) in He. lia.
      - destruct (Hprinted e) as [line ->]; [apply in_or_app; now right|].
        now contradiction (Hne line). }
    assert (Hd : ~ In (VideoProcessor.Decoded i)
                      (fst (VideoProcessor.extract_slides self video_path)))
      by (apply Hnone; [discriminate | cbn [stamp]; lia]).
    assert (Hc : ~ In (VideoProcessor.Checked i)
                      (fst (VideoProcessor.extract_slides self video_path)))
      by (apply Hnone; [discriminate | cbn [stamp]; lia]).
    split; [split; [tauto | intros [s Hs']; congruence]|].
    split; [split; [intros H; exfalso; revert H; apply Hnone;
                    [discriminate | cbn [stamp]; lia] | tauto]|].
    split; [tauto|].
    split; [intros j H; exfalso; revert H; apply Hnone; [discriminate | cbn [stamp]; lia]|].
    split; [intros H; exfalso; revert H; apply Hnone; [discriminate | cbn [stamp]; lia]|].
    split; intros; congruence. }
  destruct Har as (Hc' & Hoff & Hres & rest & Hfst & Hrest).
  rewrite Z.add_0_l in Hc'. fold i in Hc'. subst c'. fold k in Hoff.
  rewrite Hfst in Hlog. clear Hfst.
  set (mid := fst (VideoProcessor.process_frame self total frame slides_i i)) in *.
  assert (Hin : forall e, (forall line, e <> VideoProcessor.Printed line) ->
            (7 * i + 1 <= stamp e <= 7 * i + 6)%Z ->
            In e (fst (VideoProcessor.extract_slides self video_path)) <-> In e mid).
  { intros e Hne Hst. rewrite Hlog.
    exact (in_frame_events info l mid rest summary _ _ i e Hprinted Hpre Hrest Hne Hst). }
  assert (Hd : In (VideoProcessor.Decoded i)
                  (fst (VideoProcessor.extract_slides self video_path))).
  { rewrite Hlog, !in_app_iff. right. left. right. now left. }
  pose proof (frame_of_event self total frame slides_i i) as Hev. fold mid in Hev. fold k in Hev.
  pose proof (sampled_in_frame self total Hk0 frame slides_i i) as Hsam.
  fold mid in Hsam. fold k in Hsam.
  pose proof (checked_in_frame self total Hk0 frame slides_i i) as Hchk.
  fold mid in Hchk. fold k in Hchk.
  assert (Hchecked : In (VideoProcessor.Checked i)
                        (fst (VideoProcessor.extract_slides self video_path)) <->
                     (i mod k)%Z = 0%Z /\
                     exists p, VideoProcessor._preprocess_frame self frame = Ok p).
  { rewrite Hin by (discriminate || (cbn [stamp]; lia)). split.
    - intros H. pose proof (proj2 (Hev _ H)) as Hm. split; [exact Hm | now apply Hchk].
    - intros [Hm Hp]. now apply Hchk. }
  assert (Hlater : forall e, (forall line, e <> VideoProcessor.Printed line) ->
            (7 * i + 3 <= stamp e <= 7 * i + 6)%Z ->
            In e (fst (VideoProcessor.extract_slides self video_path)) ->
            In (VideoProcessor.Checked i)
               (fst (VideoProcessor.extract_slides self video_path))).
  { intros e Hne Hst He. apply Hin in He; [|assumption|lia].
    pose proof (proj2 (Hev _ He)) as Hm. apply Hchecked. split; [exact Hm|].
    destruct (VideoProcessor._preprocess_frame self frame) as [p | x] eqn:Hp; [eauto|].
    exfalso. unfold mid in He.
    rewrite (process_frame_unprocessed self total Hk0 frame slides_i i x Hm Hp) in He.
    cbn [fst] in He. apply (segment_in (sampled_head_segment self total i)) in He. lia. }
  split; [split; [eauto | auto]|].
  split.
  { rewrite Hin by (discriminate || (cbn [stamp]; lia)). split.
    - intros H. split; [exact Hd | exact (proj2 (Hev _ H))].
    - intros [_ Hm]. now apply Hsam. }
  split; [rewrite Hchecked; tauto|].
  split; [intros j; apply Hlater; [discriminate | cbn [stamp]; lia]|].
  split; [apply Hlater; [discriminate | cbn [stamp]; lia]|].
  split.
  - intros p slides_i' Hm Hp Hoff'.
    assert (slides_i' = slides_i) by congruence. subst slides_i'.
    destruct (process_frame_checked self total Hk0 frame p slides_i i Hm Hp)
      as (after & Hmid & Hafter & Happended).
    fold mid in Hmid. split.
    + exists (info ++ l ++ VideoProcessor.Decoded i :: sampled_head self total i),
             (after ++ rest ++ summary).
      split.
      * rewrite Hlog, Hmid. rewrite <- !app_assoc. cbn [app]. rewrite <- !app_assoc.
        cbn [app]. rewrite <- !app_assoc. reflexivity.
      * intros e He.
        assert (Hcase : (exists line, e = VideoProcessor.Printed line) \/
                        (stamp e < 7 * i + 3)%Z \/ (7 * i + 4 < stamp e)%Z).
        { rewrite !in_app_iff in He. cbn [In] in He.
          destruct He as [[He | [He | [He | He]]] | [He | [He | He]]].
          - left. apply Hprinted. apply in_or_app. now left.
          - right. left. apply (segment_in Hpre) in He. lia.
          - right. left. subst e. cbn [stamp]. lia.
          - right. left. apply (segment_in (sampled_head_segment self total i)) in He. lia.
          - right. right. apply (segment_in Hafter) in He. lia.
          - right. right. apply (segment_in Hrest) in He. lia.
          - left. apply Hprinted. apply in_or_app. now right. }
        destruct Hcase as [[line ->] | Hst]; [split; [|intros j]; discriminate|].
        split; [|intros j]; intros ->; cbn [stamp] in Hst; lia.
    + rewrite Hin by (discriminate || (cbn [stamp]; lia)). rewrite <- Happended.
      rewrite Hmid, !in_app_iff. cbn [In]. rewrite in_app_iff. split; [|auto].
      intros [H | [H | [H | H]]]; [| discriminate | | exact H].
      * apply (segment_in (sampled_head_segment self total i)) in H. cbn [stamp] in H. lia.
      * apply in_map_iff in H as [[j] [H _]]. discriminate.
  - intros e slides_i' Hm Hp _.
    rewrite Hsnd. unfold k. rewrite <- Hwhole, Hres.
    now rewrite (process_frame_unprocessed self total Hk0 frame slides_i i e Hm Hp).
Qed.

(** The frame of index 2 of [stride.mp4] with a frame skip of 2: it is
    submitted against the one slide found before it. *)
Lemma extract_slides_samples_multiples_witness :
  In (VideoProcessor.Checked 2)
     (fst (VideoProcessor.extract_slides (cv := Samples.cv) (sk := Samples.sk)
             (VideoProcessor.__init__ 0.15%float 2 false) "stride.mp4")) /\
  (In (VideoProcessor.Appended 2)
      (fst (VideoProcessor.extract_slides (cv := Samples.cv) (sk := Samples.sk)
              (VideoProcessor.__init__ 0.15%float 2 false) "stride.mp4")) <->
   snd (SlideDetector.is_new_slide (cv := Samples.cv) (sk := Samples.sk)
          (SlideDetector.__init__ 0.15%float) Samples.red [Samples.red]) = Ok true).
Proof.
  destruct (extract_slides_samples_multiples (cv := Samples.cv) (sk := Samples.sk)
              (VideoProcessor.__init__ 0.15%float 2 false) "stride.mp4"
              [Samples.red; Samples.green] Samples.red [Samples.blue])
    as (_ & Hdecoded & _ & Hchecked & _ & _ & Hsubmitted & _).
  - vm_compute. discriminate.
  - reflexivity.
  - reflexivity.
  - split.
    + apply Hchecked. split; [|split].
      * apply Hdecoded. exists [Samples.red]. vm_compute. reflexivity.
      * reflexivity.
      * exists Samples.red. vm_compute. reflexivity.
    + apply (Hsubmitted Samples.red [Samples.red]).
      * reflexivity.
      * vm_compute. reflexivity.
      * vm_compute. reflexivity.
Defined.

(** C3, as the claim has it, fails: the frames of [strip.mp4] have 1 row and
    2000 columns; with a frame skip of 1 the frame of index 0 is decoded and
    selected, its preprocessing scales it to 0 rows and raises in the
    resizing, and the run ends without having submitted it. *)
Lemma unprocessable_frame_never_checked :
  stream (VideoCapture (Cv2 := Strips.cv) "strip.mp4") = [Strips.strip; Strips.strip] /\
  shape Strips.strip = [1; 2000; 3]%Z /\
  VideoProcessor.extract_slides (cv := Strips.cv) (sk := Samples.sk)
    (VideoProcessor.__init__ 0.15%float 1 false) "strip.mp4" =
  ([VideoProcessor.Decoded 0; VideoProcessor.Sampled 0], Raise cv2_error).
Proof. repeat split; vm_compute; reflexivity. Qed.

(** ** How many slides *)

Lemma ceil_step (k c : Z) :
  (0 < k)%Z -> (0 <= c)%Z ->
  ((c + 1 + k - 1) / k = (c + k - 1) / k + (if (c mod k =? 0)%Z then 1 else 0))%Z.
Proof.
  intros Hk Hc. pose proof (Z.div_mod c k ltac:(lia)) as Hdm.
  pose proof (Z.mod_pos_bound c k Hk) as Hb.
  destruct (Z.eqb_spec (c mod k) 0) as [Hm | Hm].
  - rewrite <- (Z.div_unique_pos (c + 1 + k - 1) k (c / k + 1) 0) by lia.
    rewrite <- (Z.div_unique_pos (c + k - 1) k (c / k) (k - 1)) by lia.
    reflexivity.
  - rewrite <- (Z.div_unique_pos (c + 1 + k - 1) k (c / k + 1) (c mod k)) by lia.
    rewrite <- (Z.div_unique_pos (c + k - 1) k (c / k + 1) (c mod k - 1)) by lia.
    lia.
Qed.

Lemma sample_length (k : Z) (frames : list ndarray) :
  (0 < k)%Z -> forall c, (0 <= c)%Z ->
  Z.of_nat (List.length (sample k c frames)) =
  ((c + Z.of_nat (List.length frames) + k - 1) / k - (c + k - 1) / k)%Z.
Proof.
  intros Hk. induction frames as [|f rest IH]; intros c Hc.
  - cbn [sample List.length Z.of_nat]. rewrite Z.add_0_r. lia.
  - cbn [sample]. pose proof (ceil_step k c Hk Hc) as Hs.
    specialize (IH (c + 1)%Z ltac:(lia)).
    replace (c + Z.of_nat (List.length (f :: rest)) + k - 1)%Z
      with (c + 1 + Z.of_nat (List.length rest) + k - 1)%Z
      by (cbn [List.length]; lia).
    destruct (c mod k =? 0)%Z; cbn [List.length]; rewrite ?Nat2Z.inj_succ; lia.
Qed.

Lemma preprocessed_length {cv : Cv2} {sk : Skimage} (self : VideoProcessor.t)
    (frames : list ndarray) :
  (List.length (preprocessed self frames) <= List.length frames)%nat.
Proof.
  induction frames as [|f rest IH]; [apply Nat.le_refl|].
  unfold preprocessed in *. cbn [flat_map].
  destruct (VideoProcessor._preprocess_frame self f); cbn [app List.length]; lia.
Qed.

(** X3.  With a frame skip [k >= 1], a video of [n] frames gives at most
    [ceil(n / k)] slides, whatever the threshold. *)
Theorem slide_count_bound {cv : Cv2} {sk : Skimage} (self : VideoProcessor.t)
    (video_path : string) (slides : list ndarray) :
  (1 <= VideoProcessor.frame_skip self)%Z ->
  snd (VideoProcessor.extract_slides self video_path) = Ok slides ->
  (Z.of_nat (List.length slides) <=
   (Z.of_nat (List.length (stream (VideoCapture video_path))) +
      VideoProcessor.frame_skip self - 1) / VideoProcessor.frame_skip self)%Z.
Proof.
  intros Hk H.
  destruct (isOpened (VideoCapture video_path)) eqn:Ho.
  2: { rewrite extract_slides_unopened in H by assumption. discriminate. }
  rewrite extract_slides_offers in H by (assumption || lia).
  destruct (offer_all_subsequence self _ _ _ H) as (tl & -> & Hsub).
  apply subsequence_length in Hsub. cbn [app].
  pose proof (preprocessed_length self
    (sample (VideoProcessor.frame_skip self) 0 (stream (VideoCapture video_path)))) as Hp.
  pose proof (sample_length (VideoProcessor.frame_skip self)
    (stream (VideoCapture video_path)) ltac:(lia) 0%Z ltac:(lia)) as Hl.
  rewrite Z.add_0_l in Hl.
  replace ((0 + VideoProcessor.frame_skip self - 1) / VideoProcessor.frame_skip self)%Z
    with 0%Z in Hl by (symmetry; apply Z.div_small; lia).
  lia.
Qed.

(** [stride.mp4], four frames, with a frame skip of 2. *)
Lemma slide_count_bound_witness :
  (Z.of_nat (List.length [Samples.red]) <=
   (Z.of_nat (List.length (stream (VideoCapture (Cv2 := Samples.cv) "stride.mp4"))) + 2 - 1) / 2)%Z.
Proof.
  apply (slide_count_bound (cv := Samples.cv) (sk := Samples.sk)
           (VideoProcessor.__init__ 0.15%float 2 false) "stride.mp4" [Samples.red]).
  - vm_compute. discriminate.
  - vm_compute. reflexivity.
Defined.

(** ** The frames between the samples *)

(** X4.  The frames that are not sampled are not looked at: two videos
    that open and have the same frames at the multiples of the frame skip
    give the same slides, or raise the same exception. *)
Theorem unsampled_frames_ignored {cv : Cv2} {sk : Skimage} (self : VideoProcessor.t)
    (path1 path2 : string) :
  VideoProcessor.frame_skip self <> 0%Z ->
  isOpened (VideoCapture path1) = true ->
  isOpened (VideoCapture path2) = true ->
  sample (VideoProcessor.frame_skip self) 0 (stream (VideoCapture path1)) =
  sample (VideoProcessor.frame_skip self) 0 (stream (VideoCapture path2)) ->
  snd (VideoProcessor.extract_slides self path1) =
  snd (VideoProcessor.extract_slides self path2).
Proof.
  intros Hk H1 H2 Hs. rewrite !extract_slides_offers by assumption. now rewrite Hs.
Qed.

(** [stride.mp4] and [still.mp4] have the same frames at 0 and 2. *)
Lemma unsampled_frames_ignored_witness :
  snd (VideoProcessor.extract_slides (cv := Samples.cv) (sk := Samples.sk)
         (VideoProcessor.__init__ 0.15%float 2 false) "stride.mp4") =
  snd (VideoProcessor.extract_slides (cv := Samples.cv) (sk := Samples.sk)
         (VideoProcessor.__init__ 0.15%float 2 false) "still.mp4").
Proof.
  apply (unsampled_frames_ignored (cv := Samples.cv) (sk := Samples.sk)
           (VideoProcessor.__init__ 0.15%float 2 false) "stride.mp4" "still.mp4").
  - vm_compute. discriminate.
  - reflexivity.
  - reflexivity.
  - vm_compute. reflexivity.
Defined.

(** ** The debug mode *)

Lemma silent_app (l1 l2 : list VideoProcessor.event) :
  silent (l1 ++ l2) = silent l1 ++ silent l2.
Proof. apply filter_app. Qed.

Lemma silent_scored (c : Z) (l : list SlideDetector.probe) :
  silent (map (scored_at c) l) = map (scored_at c) l.
Proof.
  induction l as [|[j] l IH]; [reflexivity|].
  cbn [map scored_at]. unfold silent in *. cbn [filter]. now rewrite IH.
Qed.

Section Debug.
Context {cv : Cv2} {sk : Skimage}.
Variables loud quiet : VideoProcessor.t.
Hypothesis same_skip : VideoProcessor.frame_skip loud = VideoProcessor.frame_skip quiet.
Hypothesis same_detector :
  VideoProcessor.slide_detector loud = VideoProcessor.slide_detector quiet.
Hypothesis is_quiet : VideoProcessor.debug_mode quiet = false.

Lemma sampled_head_quiet (total c : Z) :
  silent (sampled_head loud total c) = sampled_head quiet total c.
Proof.
  unfold sampled_head. rewrite is_quiet. cbn [andb].
  destruct (VideoProcessor.debug_mode loud && _)%bool; reflexivity.
Qed.

Lemma found_tail_quiet (c : Z) (n : nat) :
  silent (found_tail loud c n) = found_tail quiet c n.
Proof. unfold found_tail. rewrite is_quiet. now destruct (VideoProcessor.debug_mode loud). Qed.

Lemma process_frame_quiet (total : Z) (frame : ndarray) (slides : list ndarray) (c : Z) :
  snd (VideoProcessor.process_frame loud total frame slides c) =
  snd (VideoProcessor.process_frame quiet total frame slides c) /\
  silent (fst (VideoProcessor.process_frame loud total frame slides c)) =
  fst (VideoProcessor.process_frame quiet total frame slides c).
Proof.
  destruct (Z.eq_dec (VideoProcessor.frame_skip loud) 0) as [Hk | Hk].
  { rewrite !process_frame_zero by congruence. auto. }
  destruct (Z.eq_dec (c mod VideoProcessor.frame_skip loud) 0) as [Hc | Hc].
  2: { rewrite !process_frame_skipped by congruence. auto. }
  rewrite !process_frame_sampled by congruence.
  change (VideoProcessor._preprocess_frame quiet frame)
    with (VideoProcessor._preprocess_frame loud frame).
  rewrite <- same_detector.
  destruct (VideoProcessor._preprocess_frame loud frame) as [p | e]; cbn zeta.
  - destruct (SlideDetector.is_new_slide (VideoProcessor.slide_detector loud) p slides)
      as [l [[|] | e]]; cbn [fst snd]; (split; [reflexivity|]);
      rewrite ?silent_app; change (VideoProcessor.Checked c :: map (scored_at c) l)
        with ([VideoProcessor.Checked c] ++ map (scored_at c) l);
      change (VideoProcessor.Appended c :: found_tail loud c (List.length (slides ++ [p])))
        with ([VideoProcessor.Appended c] ++ found_tail loud c (List.length (slides ++ [p])));
      rewrite ?silent_app, ?silent_scored, ?sampled_head_quiet, ?found_tail_quiet;
      reflexivity.
  - cbn [fst snd]. split; [reflexivity | apply sampled_head_quiet].
Qed.

Lemma read_frames_quiet (total : Z) (frames : list ndarray) :
  forall slides c,
    snd (VideoProcessor.read_frames loud total frames slides c) =
    snd (VideoProcessor.read_frames quiet total frames slides c) /\
    silent (fst (VideoProcessor.read_frames loud total frames slides c)) =
    fst (VideoProcessor.read_frames quiet total frames slides c).
Proof.
  induction frames as [|frame rest IH]; intros slides c; [auto|].
  rewrite !read_frames_cons.
  destruct (process_frame_quiet total frame slides c) as [Hr Hl].
  destruct (VideoProcessor.process_frame loud total frame slides c) as [l1 r1].
  destruct (VideoProcessor.process_frame quiet total frame slides c) as [l2 r2].
  cbn [fst snd] in Hr, Hl. subst r2 l2.
  destruct r1 as [slides' | e]; cbn [fst snd].
  - destruct (IH slides' (c + 1)%Z) as [Hr' Hl']. split; [exact Hr'|].
    change (VideoProcessor.Decoded c :: l1 ++ fst (VideoProcessor.read_frames loud total rest slides' (c + 1)))
      with ([VideoProcessor.Decoded c] ++ l1 ++ fst (VideoProcessor.read_frames loud total rest slides' (c + 1))).
    rewrite !silent_app, Hl'. reflexivity.
  - split; reflexivity.
Qed.

Lemma extract_slides_quiet (video_path : string) :
  snd (VideoProcessor.extract_slides loud video_path) =
  snd (VideoProcessor.extract_slides quiet video_path) /\
  silent (fst (VideoProcessor.extract_slides loud video_path)) =
  fst (VideoProcessor.extract_slides quiet video_path).
Proof.
  destruct (isOpened (VideoCapture video_path)) eqn:Ho.
  2: { rewrite !extract_slides_unopened by assumption. auto. }
  rewrite !extract_slides_run by assumption. cbn zeta. rewrite is_quiet.
  destruct (read_frames_quiet (CAP_PROP_FRAME_COUNT (VideoCapture video_path))
              (stream (VideoCapture video_path)) [] 0%Z) as [Hr Hl].
  rewrite <- Hr, <- Hl.
  destruct (snd (VideoProcessor.read_frames loud _ _ [] 0)) as [st | e]; cbn [fst snd];
    (split; [reflexivity|]); rewrite !silent_app;
    destruct (VideoProcessor.debug_mode loud); cbn [app]; rewrite ?app_nil_r; reflexivity.
Qed.

End Debug.

(** X5.  The debug mode changes no decision: with and without it
    [extract_slides] returns the same slides or raises the same exception,
    and does the same things in the same order, the printed lines apart;
    without it nothing is printed. *)
Theorem debug_mode_changes_no_decision {cv : Cv2} {sk : Skimage}
    (similarity_threshold : float) (frame_skip : Z) (video_path : string) :
  let loud := VideoProcessor.extract_slides
                (VideoProcessor.__init__ similarity_threshold frame_skip true) video_path in
  let quiet := VideoProcessor.extract_slides
                 (VideoProcessor.__init__ similarity_threshold frame_skip false) video_path in
  snd loud = snd quiet /\ silent (fst loud) = fst quiet /\
  (forall line, ~ In (VideoProcessor.Printed line) (fst quiet)).
Proof.
  cbn zeta.
  destruct (extract_slides_quiet
              (VideoProcessor.__init__ similarity_threshold frame_skip true)
              (VideoProcessor.__init__ similarity_threshold frame_skip false)
              eq_refl eq_refl eq_refl video_path) as [Hr Hl].
  split; [exact Hr|]. split; [exact Hl|].
  intros line Hin. rewrite <- Hl in Hin. unfold silent in Hin.
  apply filter_In in Hin as [_ Hin]. discriminate.
Qed.

(** ** Every frame is decoded *)

Section Decoding.
Context {cv : Cv2} {sk : Skimage}.
Variable self : VideoProcessor.t.
Variable total : Z.

Lemma read_frames_decoded (frames : list ndarray) :
  forall slides c l st,
    VideoProcessor.read_frames self total frames slides c = (l, Ok st) ->
    forall i, In (VideoProcessor.Decoded i) l <->
              (c <= i < c + Z.of_nat (List.length frames))%Z.
Proof.
  induction frames as [|frame rest IH]; intros slides c l st H i.
  - inversion H; subst. cbn [List.length Z.of_nat In]. lia.
  - rewrite read_frames_cons in H.
    pose proof (process_frame_segment self total frame slides c) as Hseg.
    destruct (VideoProcessor.process_frame self total frame slides c) as [lp [s | e]];
      [|discriminate].
    destruct (VideoProcessor.read_frames self total rest s (c + 1)) as [lr r] eqn:Hr.
    cbn [fst snd] in H, Hseg. inversion H; subst. clear H.
    specialize (IH _ _ _ _ Hr i). cbn [List.length]. rewrite Nat2Z.inj_succ.
    cbn [In]. rewrite in_app_iff, IH. split.
    + intros [Hd | [Hd | Hd]].
      * inversion Hd. lia.
      * apply (segment_in Hseg) in Hd. cbn [stamp] in Hd. lia.
      * lia.
    + intros Hi. destruct (Z.eq_dec i c) as [-> | Hne]; [now left | right; right; lia].
Qed.

End Decoding.

(** X6.  A run of [extract_slides] that returns has read every frame of
    the video, whatever the frame skip: frame [i] was decoded exactly when
    [0 <= i < n], [n] the number of frames.  The frame skip saves
    comparisons, not decoding. *)
Theorem every_frame_decoded {cv : Cv2} {sk : Skimage} (self : VideoProcessor.t)
    (video_path : string) (slides : list ndarray) :
  snd (VideoProcessor.extract_slides self video_path) = Ok slides ->
  forall i, In (VideoProcessor.Decoded i) (fst (VideoProcessor.extract_slides self video_path)) <->
            (0 <= i < Z.of_nat (List.length (stream (VideoCapture video_path))))%Z.
Proof.
  intros H i.
  destruct (isOpened (VideoCapture video_path)) eqn:Ho.
  2: { rewrite extract_slides_unopened in H by assumption. discriminate. }
  rewrite extract_slides_events by (assumption || discriminate).
  rewrite extract_slides_run in H by assumption. cbn zeta in H.
  destruct (VideoProcessor.read_frames self (CAP_PROP_FRAME_COUNT (VideoCapture video_path))
              (stream (VideoCapture video_path)) [] 0) as [l [st | e]] eqn:Hr;
    [|discriminate].
  cbn [fst]. rewrite (read_frames_decoded self _ _ _ _ _ _ Hr i). lia.
Qed.

(** Frame 3 of [stride.mp4], which a frame skip of 2 does not sample. *)
Lemma every_frame_decoded_witness :
  In (VideoProcessor.Decoded 3)
     (fst (VideoProcessor.extract_slides (cv := Samples.cv) (sk := Samples.sk)
             (VideoProcessor.__init__ 0.15%float 2 false) "stride.mp4")).
Proof.
  apply (every_frame_decoded (cv := Samples.cv) (sk := Samples.sk)
           (VideoProcessor.__init__ 0.15%float 2 false) "stride.mp4" [Samples.red]).
  - vm_compute. reflexivity.
  - vm_compute. split; [discriminate | reflexivity].
Defined.

(** ** Where the exceptions come from *)

Section Failures.
Context {cv : Cv2} {sk : Skimage}.

Lemma compare_all_raises (det : SlideDetector.t) (g : ndarray) (S : list ndarray) :
  forall j l e, SlideDetector.compare_all det g j S = (l, Raise e) ->
  exists S1 s S2,
    S = S1 ++ s :: S2 /\ forallb (survives det g) S1 = true /\
    SlideDetector.score_against det g s = Raise e /\
    l = map SlideDetector.Compared (seq j (Datatypes.S (List.length S1))).
Proof.
  induction S as [|s S IH]; intros j l e H.
  - discriminate.
  - rewrite compare_all_cons in H.
    destruct (SlideDetector.score_against det g s) as [v | e'] eqn:Hv.
    + destruct (1 - SlideDetector.similarity_threshold det <? v)%float eqn:Ha; [discriminate|].
      destruct (SlideDetector.compare_all det g (Datatypes.S j) S) as [l' r] eqn:Hrec.
      cbn [fst snd] in H. inversion H; subst.
      destruct (IH _ _ _ Hrec) as (S1 & s' & S2 & -> & Hs & Hr & ->).
      exists (s :: S1), s', S2. repeat split; auto.
      cbn [forallb]. unfold survives at 1. now rewrite Hv, Ha.
    + inversion H; subst. exists [], s, S. auto.
Qed.

Lemma is_new_slide_raised (det : SlideDetector.t) (frame : ndarray) (S : list ndarray)
    (l : list SlideDetector.probe) (e : exn) :
  SlideDetector.is_new_slide det frame S = (l, Raise e) ->
  S <> [] /\
  ((cvtColor_BGR2GRAY frame = Raise e /\ l = []) \/
   exists g S1 s S2,
     cvtColor_BGR2GRAY frame = Ok g /\ S = S1 ++ s :: S2 /\
     forallb (survives det g) S1 = true /\
     SlideDetector.score_against det g s = Raise e /\
     l = map SlideDetector.Compared (seq 0 (Datatypes.S (List.length S1)))).
Proof.
  intros H. destruct S as [|s0 S0]; [discriminate|]. split; [discriminate|].
  rewrite is_new_slide_nonempty in H by discriminate.
  destruct (cvtColor_BGR2GRAY frame) as [g | e'] eqn:Hg.
  - right. destruct (compare_all_raises det g _ _ _ _ H) as (S1 & s & S2 & Heq & Hs & Hr & Hl).
    exists g, S1, s, S2. auto.
  - inversion H; subst. left. auto.
Qed.

Variable self : VideoProcessor.t.

Lemma offer_all_raises (sampled : list ndarray) (e : exn) :
  forall slides, offer_all self slides sampled = Raise e ->
  exists f, In f sampled /\
    (VideoProcessor._preprocess_frame self f = Raise e \/
     exists p slides',
       VideoProcessor._preprocess_frame self f = Ok p /\
       incl slides' (slides ++ preprocessed self sampled) /\
       snd (SlideDetector.is_new_slide (VideoProcessor.slide_detector self) p slides') = Raise e).
Proof.
  induction sampled as [|frame rest IH]; intros slides H; [discriminate|].
  cbn [offer_all] in H.
  destruct (VideoProcessor._preprocess_frame self frame) as [p | e'] eqn:Hp.
  - rewrite (preprocessed_cons self frame p rest Hp).
    destruct (snd (SlideDetector.is_new_slide (VideoProcessor.slide_detector self) p slides))
      as [[|] | e'] eqn:Hn.
    + destruct (IH _ H) as (f & Hf & Hcase). exists f. split; [now right|].
      destruct Hcase as [Hc | (q & slides' & Hq & Hi & Hr)]; [now left | right].
      exists q, slides'. split; [assumption|]. split; [|assumption].
      intros x Hx. apply Hi in Hx. rewrite <- app_assoc in Hx. exact Hx.
    + destruct (IH _ H) as (f & Hf & Hcase). exists f. split; [now right|].
      destruct Hcase as [Hc | (q & slides' & Hq & Hi & Hr)]; [now left | right].
      exists q, slides'. split; [assumption|]. split; [|assumption].
      intros x Hx. apply Hi in Hx. apply in_app_or in Hx as [Hx | Hx];
        apply in_or_app; [now left | right; now right].
    + inversion H; subst. exists frame. split; [now left|]. right.
      exists p, slides. split; [assumption|]. split; [|assumption].
      apply incl_appl, incl_refl.
  - inversion H; subst. exists frame. split; [now left | now left].
Qed.

End Failures.

(** X7.  Where the exceptions of [extract_slides] come from.  It raises
    [ValueError("Could not open video file: ...")] when the video does not
    open; [ZeroDivisionError] when the frame skip is 0 and the video has a
    frame; and otherwise only what [_preprocess_frame] raised on a sampled
    frame, or what the colour conversion of a preprocessed sampled frame or
    its scoring against a preprocessed sampled frame raised. *)
Theorem extract_slides_failures {cv : Cv2} {sk : Skimage} (self : VideoProcessor.t)
    (video_path : string) (e : exn) :
  snd (VideoProcessor.extract_slides self video_path) = Raise e ->
  let k := VideoProcessor.frame_skip self in
  let frames := stream (VideoCapture video_path) in
  (isOpened (VideoCapture video_path) = false /\
   e = ValueError ("Could not open video file: " ++ video_path)%string) \/
  (isOpened (VideoCapture video_path) = true /\ k = 0%Z /\ frames <> [] /\
   e = ZeroDivisionError) \/
  (isOpened (VideoCapture video_path) = true /\ k <> 0%Z /\
   exists f, In f (sample k 0 frames) /\
     (VideoProcessor._preprocess_frame self f = Raise e \/
      exists p, VideoProcessor._preprocess_frame self f = Ok p /\
        (cvtColor_BGR2GRAY p = Raise e \/
         exists g s, cvtColor_BGR2GRAY p = Ok g /\
           In s (preprocessed self (sample k 0 frames)) /\
           SlideDetector.score_against (VideoProcessor.slide_detector self) g s = Raise e))).
Proof.
  intros H k frames.
  destruct (isOpened (VideoCapture video_path)) eqn:Ho.
  2: { rewrite extract_slides_unopened in H by assumption. left. inversion H. auto. }
  right. destruct (Z.eq_dec k 0) as [Hk | Hk].
  - left. rewrite extract_slides_zero_skip in H by assumption. fold frames in H.
    destruct frames; [discriminate|]. inversion H. repeat split; auto. discriminate.
  - right. split; [reflexivity|]. split; [assumption|].
    rewrite extract_slides_offers in H by assumption.
    destruct (offer_all_raises self _ _ _ H) as (f & Hf & Hcase).
    exists f. split; [exact Hf|].
    destruct Hcase as [Hc | (p & slides' & Hp & Hi & Hr)]; [now left | right].
    exists p. split; [assumption|].
    destruct (SlideDetector.is_new_slide (VideoProcessor.slide_detector self) p slides')
      as [l r] eqn:Hn. cbn [snd] in Hr. subst r.
    destruct (is_new_slide_raised _ _ _ _ _ Hn) as
      [_ [[Hg _] | (g & S1 & s & S2 & Hg & Heq & _ & Hs & _)]]; [now left | right].
    exists g, s. split; [assumption|]. split; [|assumption].
    apply Hi. rewrite Heq. apply in_or_app. right. now left.
Qed.

(** [dots.mp4]: the scorer refuses the second frame of one pixel. *)
Lemma extract_slides_failures_witness :
  let self := VideoProcessor.__init__ 0.15%float 1 false in
  let e := ValueError "win_size exceeds image extent." in
  let k := VideoProcessor.frame_skip self in
  let frames := stream (VideoCapture (Cv2 := Samples.cv) "dots.mp4") in
  (isOpened (VideoCapture (Cv2 := Samples.cv) "dots.mp4") = false /\
   e = ValueError ("Could not open video file: " ++ "dots.mp4")%string) \/
  (isOpened (VideoCapture (Cv2 := Samples.cv) "dots.mp4") = true /\ k = 0%Z /\ frames <> [] /\
   e = ZeroDivisionError) \/
  (isOpened (VideoCapture (Cv2 := Samples.cv) "dots.mp4") = true /\ k <> 0%Z /\
   exists f, In f (sample k 0 frames) /\
     (VideoProcessor._preprocess_frame (cv := Samples.cv) self f = Raise e \/
      exists p, VideoProcessor._preprocess_frame (cv := Samples.cv) self f = Ok p /\
        (cvtColor_BGR2GRAY (Cv2 := Samples.cv) p = Raise e \/
         exists g s, cvtColor_BGR2GRAY (Cv2 := Samples.cv) p = Ok g /\
           In s (preprocessed (cv := Samples.cv) self (sample k 0 frames)) /\
           SlideDetector.score_against (cv := Samples.cv) (sk := Samples.sk)
             (VideoProcessor.slide_detector self) g s = Raise e))).
Proof.
  apply (extract_slides_failures (cv := Samples.cv) (sk := Samples.sk)
           (VideoProcessor.__init__ 0.15%float 1 false) "dots.mp4"
           (ValueError "win_size exceeds image extent.")).
  vm_compute. reflexivity.
Defined.

(** X8.  When [is_new_slide] raises, the slide list is not empty, and
    either the colour conversion of the candidate raised, before any
    comparison, or the candidate survived the slides before some slide [s]
    and its scoring against [s] raised, after one comparison per slide up to
    [s]. *)
Theorem is_new_slide_raises_from_library {cv : Cv2} {sk : Skimage}
    (det : SlideDetector.t) (frame : ndarray) (S : list ndarray)
    (l : list SlideDetector.probe) (e : exn) :
  SlideDetector.is_new_slide det frame S = (l, Raise e) ->
  S <> [] /\
  ((cvtColor_BGR2GRAY frame = Raise e /\ l = []) \/
   exists g S1 s S2,
     cvtColor_BGR2GRAY frame = Ok g /\ S = S1 ++ s :: S2 /\
     forallb (survives det g) S1 = true /\
     SlideDetector.score_against det g s = Raise e /\
     l = map SlideDetector.Compared (seq 0 (Datatypes.S (List.length S1)))).
Proof. apply is_new_slide_raised. Qed.

(** A candidate of one pixel against one stored slide. *)
Lemma is_new_slide_raises_from_library_witness :
  let det := SlideDetector.__init__ 0.15%float in
  let e := ValueError "win_size exceeds image extent." in
  let l := [SlideDetector.Compared 0] in
  [Samples.dot] <> [] /\
  ((cvtColor_BGR2GRAY (Cv2 := Samples.cv) Samples.dot = Raise e /\ l = []) \/
   exists g S1 s S2,
     cvtColor_BGR2GRAY (Cv2 := Samples.cv) Samples.dot = Ok g /\ [Samples.dot] = S1 ++ s :: S2 /\
     forallb (survives (cv := Samples.cv) (sk := Samples.sk) det g) S1 = true /\
     SlideDetector.score_against (cv := Samples.cv) (sk := Samples.sk) det g s = Raise e /\
     l = map SlideDetector.Compared (seq 0 (Datatypes.S (List.length S1)))).
Proof.
  apply (is_new_slide_raises_from_library (cv := Samples.cv) (sk := Samples.sk)
           (SlideDetector.__init__ 0.15%float) Samples.dot [Samples.dot]
           [SlideDetector.Compared 0] (ValueError "win_size exceeds image extent.")).
  vm_compute. reflexivity.
Defined.

(** ** The names of the slide files *)

Lemma parse_format_03d (n : nat) : parse_03d (format_03d n) = Some n.
Proof.
  unfold parse_03d, format_03d.
  pose proof (NilEmpty.usu (Nat.to_uint n)) as Hu.
  pose proof (Unsigned.of_to n) as Hn.
  destruct (String.length (NilEmpty.string_of_uint (Nat.to_uint n))) as [|[|[|m]]];
    cbn [append NilEmpty.uint_of_string]; rewrite Hu; cbn; unfold Nat.of_uint in *;
    now rewrite Hn.
Qed.

Lemma string_length_append (s t : string) :
  String.length (s ++ t) = (String.length s + String.length t)%nat.
Proof. induction s as [|a s IH]; cbn; [reflexivity | now rewrite IH]. Qed.

Lemma append_cancel_l (s a b : string) : (s ++ a = s ++ b)%string -> a = b.
Proof. induction s as [|c s IH]; cbn; intros H; [exact H | inversion H; auto]. Qed.

Lemma append_cancel_r (t : string) : forall a b : string, (a ++ t = b ++ t)%string -> a = b.
Proof.
  induction a as [|c a IH]; intros [|d b] H; cbn in H.
  - reflexivity.
  - apply (f_equal String.length) in H. cbn in H. rewrite string_length_append in H. lia.
  - apply (f_equal String.length) in H. cbn in H. rewrite string_length_append in H. lia.
  - inversion H; subst. f_equal. now apply IH.
Qed.

Lemma path_join_cancel (a x y : string) : path_join a x = path_join a y -> x = y.
Proof.
  unfold path_join. destruct a as [|c a]; [auto|].
  destruct (ends_with_slash (String c a)); intros H.
  - exact (append_cancel_l _ _ _ H).
  - apply append_cancel_l in H. exact (append_cancel_l _ _ _ H).
Qed.

Lemma slide_path_inj (output_dir : string) (i j : nat) :
  slide_path output_dir i = slide_path output_dir j -> i = j.
Proof.
  unfold slide_path. intros H. apply path_join_cancel, append_cancel_l, append_cancel_r in H.
  apply (f_equal parse_03d) in H. rewrite !parse_format_03d in H. inversion H. lia.
Qed.

(** X9.  The number of a slide file name can be read back from it, so
    that the slides of one run are saved under names that differ: the saving
    loop never overwrites a slide of the same run. *)
Theorem slide_names_distinct (output_dir : string) :
  (forall n, parse_03d (format_03d n) = Some n) /\
  (forall i j, slide_path output_dir i = slide_path output_dir j -> i = j) /\
  (forall n, NoDup (map (slide_path output_dir) (seq 0 n))).
Proof.
  split; [exact parse_format_03d|]. split; [exact (slide_path_inj output_dir)|].
  intros n. apply NoDup_map_NoDup_ForallPairs; [|apply seq_NoDup].
  intros i j _ _. apply slide_path_inj.
Qed.

(** ** utils.py: the name derived from a URL *)

Lemma drop_length (s : string) : forall n, String.length (drop n s) = (String.length s - n)%nat.
Proof.
  induction s as [|c s IH]; intros [|n]; cbn [drop String.length]; auto.
Qed.

Lemma drop_all (P : ascii -> Prop) (s : string) :
  Forall P (list_ascii_of_string s) -> forall n, Forall P (list_ascii_of_string (drop n s)).
Proof.
  induction s as [|c s IH]; intros H [|n]; cbn [drop]; auto.
  cbn [list_ascii_of_string] in H. inversion H; subst. auto.
Qed.

Lemma drop_append (a b : string) (n : nat) :
  drop (String.length a + n) (a ++ b) = drop n b.
Proof. induction a as [|c a IH]; cbn; auto. Qed.

Lemma keep_all (f : ascii -> bool) (s : string) :
  Forall (fun c => f c = true) (list_ascii_of_string (keep f s)).
Proof.
  induction s as [|c s IH]; cbn [keep]; [constructor|].
  destruct (f c) eqn:Hc; [constructor; assumption | assumption].
Qed.

Lemma keep_append (f : ascii -> bool) (a b : string) :
  keep f (a ++ b) = (keep f a ++ keep f b)%string.
Proof.
  induction a as [|c a IH]; cbn [keep append]; [reflexivity|].
  destruct (f c); cbn [append]; now rewrite IH.
Qed.

(** X10.  The name [sniff_video_from_webpage] derives from a URL has at
    most 20 characters, all of them ASCII letters or digits; a URL of at most
    20 letters and digits is its own name. *)
Theorem url_hash_shape (url : string) :
  (String.length (url_hash url) <= 20)%nat /\
  Forall (fun c => alnum c = true) (list_ascii_of_string (url_hash url)) /\
  (keep alnum url = url -> (String.length url <= 20)%nat -> url_hash url = url).
Proof.
  unfold url_hash, last_chars. split; [|split].
  - rewrite drop_length. lia.
  - apply drop_all, keep_all.
  - intros -> Hl. replace (String.length url - 20)%nat with 0%nat by lia. reflexivity.
Qed.

(** X11.  The derived name depends on the last 20 letters and digits of
    the URL only: two URLs that end alike are stored under the same name. *)
Theorem url_hash_collision (site url : string) :
  (20 <= String.length (keep alnum url))%nat ->
  url_hash (site ++ url) = url_hash url.
Proof.
  intros Hl. unfold url_hash, last_chars. rewrite keep_append, string_length_append.
  replace (String.length (keep alnum site) + String.length (keep alnum url) - 20)%nat
    with (String.length (keep alnum site) + (String.length (keep alnum url) - 20))%nat by lia.
  apply drop_append.
Qed.

(** Two pages of different sites. *)
Lemma url_hash_collision_witness :
  url_hash ("https://a.example/" ++ "talks/2024/keynote-part-one") =
  url_hash "talks/2024/keynote-part-one".
Proof. apply (url_hash_collision "https://a.example/" "talks/2024/keynote-part-one"). vm_compute. lia. Defined.

(** ** utils.py: [sniff_video_from_webpage] *)

Section Sniffing.
Context {host : Host}.

Ltac sniff_step YoutubeDL :=
  match goal with
  | |- context [match makedirs ?a ?b with _ => _ end] =>
    destruct (makedirs a b) as [[[]|?e] ?d] eqn:?
  | |- context [match YoutubeDL ?a ?b ?c with _ => _ end] =>
    destruct (YoutubeDL a b c) as [?i|?e] eqn:?
  | |- context [match first_entry ?x with _ => _ end] =>
    destruct (first_entry x) as [?i|?e] eqn:?
  | |- context [match video_of ?x with _ => _ end] =>
    destruct (video_of x) as [?i|] eqn:?
  | |- context [match ?e with of_exn _ => _ | _ => _ end] => is_var e; destruct e
  end.

Lemma sniff_cases (url : string) (output_dir : option string) (d : disk) :
  (exists log d', sniff_video_from_webpage url output_dir d = ((log, Returns None), d')) \/
  (exists log d' YoutubeDL i1 i2,
     sniff_video_from_webpage url output_dir d =
       ((log, Returns (Some (downloaded_path (download_dir output_dir) url i2))), d') /\
     yt_dlp = Some YoutubeDL /\
     found_video (YoutubeDL probe_opts url false) = Some i1 /\
     found_video (YoutubeDL (download_opts (download_dir output_dir) url) url true) = Some i2).
Proof.
  unfold sniff_video_from_webpage, found_video, download_opts, probe_opts, downloaded_path.
  destruct yt_dlp as [YoutubeDL|] eqn:Hy; [|left; cbn; eauto].
  destruct output_dir as [[|c o]|]; cbn [download_dir];
    cbv [io_bind io_ret print io_lift io_raise ensure_dir_exists try_except];
    repeat sniff_step YoutubeDL; cbn [app];
    first [ left; do 2 eexists; reflexivity
          | right; do 5 eexists; split; [reflexivity|]; split; [reflexivity|];
            split;
            repeat match goal with H : _ = _ |- _ => rewrite H end; reflexivity ].
Qed.

Lemma sniff_prints (url : string) (output_dir : option string) (d : disk) :
  Forall (fun a => exists line, a = Say line)
         (fst (fst (sniff_video_from_webpage url output_dir d))).
Proof.
  unfold sniff_video_from_webpage.
  destruct yt_dlp as [YoutubeDL|] eqn:Hy; [|cbn; repeat constructor; eauto].
  destruct output_dir as [[|c o]|];
    cbv [io_bind io_ret print io_lift io_raise ensure_dir_exists try_except];
    repeat sniff_step YoutubeDL; cbn [app fst]; repeat constructor; eauto.
Qed.

End Sniffing.

(** X12.  [sniff_video_from_webpage] never raises.  Without yt-dlp it
    prints its two lines and returns [None] without creating the output
    directory.  It returns a path only when both [extract_info] calls, the
    probe and the download, found a video; the path is then the [_filename]
    of the downloaded video or, without one, [video_<name>.<ext>] in the
    output directory, [ext] defaulting to [mp4]. *)
Theorem sniff_video_from_webpage_result {host : Host} (url : string)
    (output_dir : option string) (d : disk) :
  (exists log r d', sniff_video_from_webpage url output_dir d = ((log, Returns r), d')) /\
  (yt_dlp = None ->
   sniff_video_from_webpage url output_dir d =
   (([Say Ytdlp_is_required; Say Install_it_using_pip], Returns None), d)) /\
  (forall file_path,
     snd (fst (sniff_video_from_webpage url output_dir d)) = Returns (Some file_path) ->
     exists YoutubeDL i1 i2,
       yt_dlp = Some YoutubeDL /\
       found_video (YoutubeDL probe_opts url false) = Some i1 /\
       found_video (YoutubeDL (download_opts (download_dir output_dir) url) url true) = Some i2 /\
       file_path = downloaded_path (download_dir output_dir) url i2).
Proof.
  split; [|split].
  - destruct (sniff_cases url output_dir d) as
      [(log & d' & ->) | (log & d' & Y & i1 & i2 & -> & _)]; eauto.
  - intros Hy. unfold sniff_video_from_webpage. rewrite Hy. reflexivity.
  - intros file_path H.
    destruct (sniff_cases url output_dir d) as
      [(log & d' & Hs) | (log & d' & Y & i1 & i2 & Hs & Hy & H1 & H2)];
      rewrite Hs in H; cbn [fst snd] in H; [discriminate|].
    inversion H; subst. eauto 8.
Qed.

(** ** [process_video] *)

Section Entry.
Context {cv : Cv2} {sk : Skimage} {host : Host}.

Lemma extract_and_save_run (video_path output_dir : string) (threshold : float)
    (skip_frames : Z) (debug_mode : bool) (d : disk) :
  let processor := VideoProcessor.__init__ threshold skip_frames debug_mode in
  let m := VideoProcessor.extract_slides processor video_path in
  let started := Say (Processing_video video_path) :: map Pipeline (fst m) in
  extract_and_save video_path output_dir threshold skip_frames debug_mode d =
  match snd m with
  | Raise e => ((started, Raises (of_exn e)), d)
  | Ok slides =>
    let saving := started ++ [Say (Saving_slides (List.length slides) output_dir)] in
    match save_slides processor output_dir 0 slides d with
    | (Ok _, d') => ((saving ++ [Say Processing_complete], Returns tt), d')
    | (Raise e, d') => ((saving, Raises (of_exn e)), d')
    end
  end.
Proof.
  cbn zeta. unfold extract_and_save.
  cbv [io_bind io_ret print pipeline on_disk].
  destruct (VideoProcessor.extract_slides _ video_path) as [l [slides | e]]; cbn [fst snd];
    [|reflexivity].
  destruct (save_slides _ output_dir 0 slides d) as [[[] | e] d']; cbn [app];
    rewrite <- ?app_assoc; reflexivity.
Qed.

End Entry.

(** X13.  What the result of [process_video] of main.py means.  When it
    returns, the output directory was created.  It returns [True] only after
    [extract_slides] returned its slides and the saving loop ran to its end
    on them; for a local path this is the input path, which exists.  It
    returns [False] only before the pipeline started; for a local path, the
    path does not exist, one line is printed and nothing else is done. *)
Theorem process_video_returns {cv : Cv2} {sk : Skimage} {host : Host}
    (input_path output_dir : string) (threshold : float) (skip_frames : Z)
    (debug_mode : bool) (d : disk) (log : list action) (b : bool) (d' : disk) :
  Main.process_video input_path output_dir threshold skip_frames debug_mode d =
    ((log, Returns b), d') ->
  let processor := VideoProcessor.__init__ threshold skip_frames debug_mode in
  exists d1, makedirs output_dir d = (Returns tt, d1) /\
    if b then
      exists video_path slides d2,
        snd (VideoProcessor.extract_slides processor video_path) = Ok slides /\
        save_slides processor output_dir 0 slides d2 = (Ok tt, d') /\
        In (Say (Saving_slides (List.length slides) output_dir)) log /\
        (is_webpage input_path = false ->
         video_path = input_path /\ path_exists input_path d1 = true /\ d2 = d1)
    else
      (forall e, ~ In (Pipeline e) log) /\
      (is_webpage input_path = false ->
       path_exists input_path d1 = false /\ d' = d1 /\
       log = [Say (Video_file_not_found input_path)]).
Proof.
  intros H processor. unfold Main.process_video in H.
  cbv [io_bind io_ret print ensure_dir_exists] in H.
  destruct (makedirs output_dir d) as [[[] | e] d1]; [|discriminate].
  exists d1. split; [reflexivity|].
  assert (Hrun : forall video_path d2 l r d3,
            extract_and_save video_path output_dir threshold skip_frames debug_mode d2 =
              ((l, Returns r), d3) ->
            exists slides,
              snd (VideoProcessor.extract_slides processor video_path) = Ok slides /\
              save_slides processor output_dir 0 slides d2 = (Ok tt, d3) /\
              In (Say (Saving_slides (List.length slides) output_dir)) l).
  { intros video_path d2 l r d3 Hr. rewrite extract_and_save_run in Hr. cbn zeta in Hr.
    fold processor in Hr.
    destruct (snd (VideoProcessor.extract_slides processor video_path)) as [slides | e]
      eqn:He; [|discriminate].
    destruct (save_slides processor output_dir 0 slides d2) as [[[] | e] d4] eqn:Hsv;
      [|discriminate].
    inversion Hr; subst. exists slides. split; [reflexivity|]. split; [exact Hsv|].
    cbn [In app]. rewrite !in_app_iff. cbn [In]. auto 10. }
  destruct (is_webpage input_path).
  - pose proof (sniff_prints input_path (Some output_dir) d1) as Hp.
    destruct (sniff_video_from_webpage input_path (Some output_dir) d1)
      as [[ls [[[|c v] |] | e]] d2] eqn:Hs; cbn [fst] in Hp; try discriminate.
    + inversion H; subst. split; [|discriminate].
      intros e He. cbn [app In] in He. destruct He as [He | He]; [discriminate|].
      apply in_app_or in He as [He | [He | []]]; [|discriminate].
      rewrite Forall_forall in Hp. destruct (Hp _ He) as [line Hl]. discriminate.
    + destruct (extract_and_save (String c v) output_dir threshold skip_frames debug_mode d2)
        as [[l [[] | e]] d3] eqn:Hr; [|discriminate].
      inversion H; subst. destruct (Hrun _ _ _ _ _ Hr) as (slides & He & Hsv & Hin).
      exists (String c v), slides, d2. split; [assumption|]. split; [assumption|].
      split; [|discriminate]. cbn [In app]. rewrite !in_app_iff. auto 10.
    + inversion H; subst. split; [|discriminate].
      intros e He. cbn [app In] in He. destruct He as [He | He]; [discriminate|].
      apply in_app_or in He as [He | [He | []]]; [|discriminate].
      rewrite Forall_forall in Hp. destruct (Hp _ He) as [line Hl]. discriminate.
  - destruct (path_exists input_path d1) eqn:Hex; cbn [negb] in H.
    + destruct (extract_and_save input_path output_dir threshold skip_frames debug_mode d1)
        as [[l [[] | e]] d3] eqn:Hr; [|discriminate].
      inversion H; subst. destruct (Hrun _ _ _ _ _ Hr) as (slides & He & Hsv & Hin).
      exists input_path, slides, d1. split; [assumption|]. split; [assumption|].
      split; [|auto]. cbn [In app]. rewrite !in_app_iff. auto 10.
    + inversion H; subst. split.
      * intros e [He | []]. discriminate.
      * intros _. auto.
Qed.

(** A page with a video of three frames, two of them alike. *)
Lemma process_video_returns_witness :
  let processor := VideoProcessor.__init__ 0.15%float 1 false in
  let run := Main.process_video (cv := Hosts.cv) (sk := Samples.sk) (host := Hosts.host)
               "https://talks.example.org/7" "slides" 0.15%float 1 false [] in
  exists d1, makedirs (Host := Hosts.host) "slides" [] = (Returns tt, d1) /\
    exists video_path slides d2,
      snd (VideoProcessor.extract_slides (cv := Hosts.cv) (sk := Samples.sk)
             processor video_path) = Ok slides /\
      save_slides (cv := Hosts.cv) processor "slides" 0 slides d2 = (Ok tt, snd run) /\
      In (Say (Saving_slides (List.length slides) "slides")) (fst (fst run)) /\
      (is_webpage "https://talks.example.org/7" = false ->
       video_path = "https://talks.example.org/7"%string /\
       path_exists (Host := Hosts.host) "https://talks.example.org/7" d1 = true /\ d2 = d1).
Proof.
  cbn zeta.
  apply (process_video_returns (cv := Hosts.cv) (sk := Samples.sk) (host := Hosts.host)
           "https://talks.example.org/7" "slides" 0.15%float 1 false []
           (fst (fst (Main.process_video (cv := Hosts.cv) (sk := Samples.sk)
                        (host := Hosts.host)
                        "https://talks.example.org/7" "slides" 0.15%float 1 false [])))
           true
           (snd (Main.process_video (cv := Hosts.cv) (sk := Samples.sk) (host := Hosts.host)
                   "https://talks.example.org/7" "slides" 0.15%float 1 false []))).
  vm_compute. reflexivity.
Defined.

(** X14.  What [process_video] of main.py raises: the exception of
    [os.makedirs] on the output directory, before anything is printed, or an
    exception of [extract_slides] or of the saving loop.  A failure of the
    download is never raised. *)
Theorem process_video_raises {cv : Cv2} {sk : Skimage} {host : Host}
    (input_path output_dir : string) (threshold : float) (skip_frames : Z)
    (debug_mode : bool) (d : disk) (log : list action) (e : error) (d' : disk) :
  Main.process_video input_path output_dir threshold skip_frames debug_mode d =
    ((log, Raises e), d') ->
  let processor := VideoProcessor.__init__ threshold skip_frames debug_mode in
  (makedirs output_dir d = (Raises e, d') /\ log = []) \/
  exists x video_path, e = of_exn x /\
    (snd (VideoProcessor.extract_slides processor video_path) = Raise x \/
     exists slides d2,
       snd (VideoProcessor.extract_slides processor video_path) = Ok slides /\
       save_slides processor output_dir 0 slides d2 = (Raise x, d')).
Proof.
  intros H processor. unfold Main.process_video in H.
  cbv [io_bind io_ret print ensure_dir_exists] in H.
  destruct (makedirs output_dir d) as [[[] | e0] d1].
  2: { inversion H; subst. left. auto. }
  right.
  assert (Hrun : forall video_path d2 l d3,
            extract_and_save video_path output_dir threshold skip_frames debug_mode d2 =
              ((l, Raises e), d3) ->
            exists x, e = of_exn x /\
              (snd (VideoProcessor.extract_slides processor video_path) = Raise x \/
               exists slides d4,
                 snd (VideoProcessor.extract_slides processor video_path) = Ok slides /\
                 save_slides processor output_dir 0 slides d4 = (Raise x, d3))).
  { intros video_path d2 l d3 Hr. rewrite extract_and_save_run in Hr. cbn zeta in Hr.
    fold processor in Hr.
    destruct (snd (VideoProcessor.extract_slides processor video_path)) as [slides | x]
      eqn:He.
    - destruct (save_slides processor output_dir 0 slides d2) as [[[] | x] d4] eqn:Hsv;
        [discriminate|].
      inversion Hr; subst. exists x. split; [reflexivity|]. right. eauto.
    - inversion Hr; subst. exists x. auto. }
  destruct (is_webpage input_path).
  - destruct (sniff_cases input_path (Some output_dir) d1) as
      [(ls & d2 & Hs) | (ls & d2 & Y & i1 & i2 & Hs & _)]; rewrite Hs in H.
    + discriminate.
    + destruct (downloaded_path _ _ _) as [|c v]; [discriminate|].
      destruct (extract_and_save (String c v) output_dir threshold skip_frames debug_mode d2)
        as [[l [[] | e1]] d3] eqn:Hr; [discriminate|].
      inversion H; subst. destruct (Hrun _ _ _ _ Hr) as (x & Hx & Hcase). eauto.
  - destruct (path_exists input_path d1); cbn [negb] in H; [|discriminate].
    destruct (extract_and_save input_path output_dir threshold skip_frames debug_mode d1)
      as [[l [[] | e1]] d3] eqn:Hr; [discriminate|].
    inversion H; subst. destruct (Hrun _ _ _ _ Hr) as (x & Hx & Hcase). eauto.
Qed.

(** [dots.mp4], on which [extract_slides] raises. *)
Lemma process_video_raises_witness :
  let processor := VideoProcessor.__init__ 0.15%float 1 false in
  let run := Main.process_video (cv := Hosts.cv) (sk := Samples.sk) (host := Hosts.host)
               "dots.mp4" "slides" 0.15%float 1 false [] in
  let e := of_exn (ValueError "win_size exceeds image extent.") in
  (makedirs (Host := Hosts.host) "slides" [] = (Raises e, snd run) /\ fst (fst run) = []) \/
  exists x video_path, e = of_exn x /\
    (snd (VideoProcessor.extract_slides (cv := Hosts.cv) (sk := Samples.sk)
            processor video_path) = Raise x \/
     exists slides d2,
       snd (VideoProcessor.extract_slides (cv := Hosts.cv) (sk := Samples.sk)
              processor video_path) = Ok slides /\
       save_slides (cv := Hosts.cv) processor "slides" 0 slides d2 = (Raise x, snd run)).
Proof.
  cbn zeta.
  apply (process_video_raises (cv := Hosts.cv) (sk := Samples.sk) (host := Hosts.host)
           "dots.mp4" "slides" 0.15%float 1 false []).
  vm_compute. reflexivity.
Defined.

(** X15.  The two kinds of input do not mix.  An input that starts with
    [http://], [https://] or [www.], in any case, is never looked up on the
    disk: [process_video] does the same whatever [os.path.exists] answers,
    also when a local file has that name.  Any other input never reaches
    yt-dlp: [process_video] does the same whether yt-dlp is installed or not,
    and whatever it would find. *)
Theorem process_video_dispatch {cv : Cv2} {sk : Skimage} (host : Host)
    (input_path output_dir : string) (threshold : float) (skip_frames : Z)
    (debug_mode : bool) (d : disk) :
  (is_webpage input_path = true ->
   forall other_exists,
     Main.process_video (host := host)
       input_path output_dir threshold skip_frames debug_mode d =
     Main.process_video (host := Build_Host makedirs other_exists gettempdir yt_dlp)
       input_path output_dir threshold skip_frames debug_mode d) /\
  (is_webpage input_path = false ->
   forall other_yt_dlp,
     Main.process_video (host := host)
       input_path output_dir threshold skip_frames debug_mode d =
     Main.process_video (host := Build_Host makedirs path_exists gettempdir other_yt_dlp)
       input_path output_dir threshold skip_frames debug_mode d).
Proof.
  split; intros H other; unfold Main.process_video; rewrite H; reflexivity.
Qed.

(** The name [www.mp4], on a host where every path exists. *)
Lemma process_video_dispatch_witness :
  Main.process_video (cv := Hosts.cv) (sk := Samples.sk) (host := Hosts.host)
    "www.mp4" "slides" 0.15%float 1 false [] =
  Main.process_video (cv := Hosts.cv) (sk := Samples.sk)
    (host := Build_Host (makedirs (Host := Hosts.host)) (fun _ _ => true)
               (gettempdir (Host := Hosts.host)) (yt_dlp (Host := Hosts.host)))
    "www.mp4" "slides" 0.15%float 1 false [].
Proof.
  apply (proj1 (process_video_dispatch (cv := Hosts.cv) (sk := Samples.sk) Hosts.host
                  "www.mp4" "slides" 0.15%float 1 false [])).
  vm_compute. reflexivity.
Defined.

(** X16.  [process_video] of gui.py does what the one of main.py does,
    between the redirection of [sys.stdout] and its three closing steps: the
    same lines and events, the same files written.  It never raises: an
    exception of main.py's becomes one more line; and it always ends by
    restoring [sys.stdout], scheduling the Go button and resetting
    [self.processing]. *)
Theorem gui_process_video_wraps_main {cv : Cv2} {sk : Skimage} {host : Host}
    (input_path output_dir : string) (threshold : float) (skip_frames : Z)
    (debug_mode : bool) (d : disk) :
  let m := Main.process_video input_path output_dir threshold skip_frames debug_mode d in
  SlideCaptureGUI.process_video input_path output_dir threshold skip_frames debug_mode d =
  ((Redirect_stdout :: fst (fst m) ++ error_line (snd (fst m)) ++
      [Restore_stdout; After_enable_go_button; Set_processing false],
    Returns tt), snd m).
Proof.
  cbn zeta. unfold Main.process_video, SlideCaptureGUI.process_video.
  cbv [io_bind io_ret print act ensure_dir_exists try_finally try_except].
  destruct (makedirs output_dir d) as [[[] | e] d1]; [|reflexivity].
  destruct (is_webpage input_path).
  - destruct (sniff_video_from_webpage input_path (Some output_dir) d1)
      as [[ls [[[|c v] |] | e]] d2]; cbn [fst snd app error_line];
      rewrite <- ?app_assoc; cbn [app]; try reflexivity.
    destruct (extract_and_save (String c v) output_dir threshold skip_frames debug_mode d2)
      as [[l [[] | e]] d3]; cbn [fst snd app error_line];
      rewrite <- ?app_assoc, ?app_nil_r; cbn [app]; reflexivity.
  - destruct (path_exists input_path d1); cbn [negb fst snd app error_line];
      [|reflexivity].
    destruct (extract_and_save input_path output_dir threshold skip_frames debug_mode d1)
      as [[l [[] | e]] d3]; cbn [fst snd app error_line];
      rewrite <- ?app_assoc, ?app_nil_r; cbn [app]; reflexivity.
Qed.